(** * SciServer.CasJobs (Python 3): a shallow embedding and its properties

    The module [src/py3/SciServer/CasJobs.py] is a client of the CasJobs REST
    service.  Every function is a short sequence of calls into collaborators
    (the [Authentication] and [Config] modules of the package, [requests],
    [json], [pandas], the file system, the clock and the console) with
    status checks and format branching in between.

    The embedding keeps that shape.  Python values are an inductive type,
    [str] is a list of code points and [bytes] a list of bytes, raising is
    the [Raise] branch of a result, and the effects (HTTP exchanges, sleeps,
    console lines, files, the index objects of data frames) are threaded
    through an explicit [world].  The collaborators whose code is not part of
    the module are parameters, grouped in the records [Collaborators] and
    [Library]. *)

From Stdlib Require Import ZArith NArith List Lia DecimalString.
From Stdlib.Strings Require Import String Ascii Byte.
From stdpp Require Import base option list gmap strings.
Import ListNotations.

Open Scope Z_scope.
Set Warnings "-register-all".

(* ------------------------------------------------------------------ *)
(** ** Text and bytes *)
(* ------------------------------------------------------------------ *)

(** A Python [str] is a sequence of Unicode code points. *)
Abbreviation pystr := (list N).
(** A Python [bytes] object. *)
Abbreviation pybytes := (list byte).

(** The code points of an ASCII literal of the source. *)
Definition lit (s : string) : pystr := map N_of_ascii (list_ascii_of_string s).

(** The line feed of the [\n] escapes and the backspace of [\b]. *)
Definition nl : pystr := [10%N].
Definition bs : pystr := [8%N].

(** [str(n)] for an [int]: its decimal digits, with a minus sign when negative. *)
Definition str_of_Z (z : Z) : pystr := lit (NilZero.string_of_int (Z.to_int z)).

(** [s * n] for a string [s]: nothing for [n <= 0]. *)
Definition str_mul (s : pystr) (n : nat) : pystr := concat (replicate n s).

(** [sub in s]. *)
Definition contains (sub s : pystr) : Prop := exists pre post, s = pre ++ sub ++ post.

(** *** UTF-8, the codec of [bytes.decode()] and [str.encode()] *)

Definition is_cont (b : N) : bool := ((0x80 <=? b) && (b <? 0xC0))%N.

Definition is_surrogate (c : N) : bool := ((0xD800 <=? c) && (c <=? 0xDFFF))%N.

(** Strict decoding: overlong forms, surrogates, values above U+10FFFF and
    truncated sequences are refused ([None] stands for [UnicodeDecodeError]). *)
Fixpoint utf8_decode (b : pybytes) : option pystr :=
  match b with
  | [] => Some []
  | b0 :: r0 =>
    let n0 := Byte.to_N b0 in
    if (n0 <? 0x80)%N then cons n0 <$> utf8_decode r0
    else if (n0 <? 0xC2)%N then None
    else if (n0 <? 0xE0)%N then
      match r0 with
      | b1 :: r1 =>
        let n1 := Byte.to_N b1 in
        if is_cont n1
        then cons ((n0 - 0xC0) * 64 + (n1 - 0x80))%N <$> utf8_decode r1
        else None
      | _ => None
      end
    else if (n0 <? 0xF0)%N then
      match r0 with
      | b1 :: b2 :: r2 =>
        let n1 := Byte.to_N b1 in
        let n2 := Byte.to_N b2 in
        let c := ((n0 - 0xE0) * 4096 + (n1 - 0x80) * 64 + (n2 - 0x80))%N in
        if is_cont n1 && is_cont n2 && (0x800 <=? c)%N && negb (is_surrogate c)
        then cons c <$> utf8_decode r2
        else None
      | _ => None
      end
    else if (n0 <? 0xF5)%N then
      match r0 with
      | b1 :: b2 :: b3 :: r3 =>
        let n1 := Byte.to_N b1 in
        let n2 := Byte.to_N b2 in
        let n3 := Byte.to_N b3 in
        let c := ((n0 - 0xF0) * 262144 + (n1 - 0x80) * 4096
                  + (n2 - 0x80) * 64 + (n3 - 0x80))%N in
        if is_cont n1 && is_cont n2 && is_cont n3
           && (0x10000 <=? c)%N && (c <? 0x110000)%N
        then cons c <$> utf8_decode r3
        else None
      | _ => None
      end
    else None
  end.

Definition bytes_of (ns : list N) : option pybytes := mapM Byte.of_N ns.

(** One code point; a surrogate or a value above U+10FFFF cannot be encoded. *)
Definition utf8_encode_cp (c : N) : option pybytes :=
  if (c <? 0x80)%N then bytes_of [c]
  else if (c <? 0x800)%N then bytes_of [0xC0 + c / 64; 0x80 + c mod 64]%N
  else if (c <? 0x10000)%N then
    if is_surrogate c then None
    else bytes_of [0xE0 + c / 4096; 0x80 + (c / 64) mod 64; 0x80 + c mod 64]%N
  else if (c <? 0x110000)%N then
    bytes_of [0xF0 + c / 262144; 0x80 + (c / 4096) mod 64;
              0x80 + (c / 64) mod 64; 0x80 + c mod 64]%N
  else None.

(** [None] stands for [UnicodeEncodeError]. *)
Definition utf8_encode (s : pystr) : option pybytes :=
  (fun chunks => concat chunks) <$> mapM utf8_encode_cp s.

(* ------------------------------------------------------------------ *)
(** ** Python values and exceptions *)
(* ------------------------------------------------------------------ *)

(** A binary64 float: [Finite m e] is [m * 2^e]. *)
Inductive pyfloat :=
| Finite (m e : Z)
| NaN
| Inf (negative : bool).

(** The values [json.loads] builds, which are also the values of the
    arguments [jobid] and [index_col]. *)
Inductive pyval :=
| VNone
| VBool (b : bool)
| VInt (z : Z)
| VFloat (f : pyfloat)
| VStr (s : pystr)
| VList (l : list pyval)
| VDict (d : list (pystr * pyval)).

(** What [requests] sends as a body and what [write] receives. *)
Inductive payload :=
| PStr (s : pystr)
| PBytes (b : pybytes).

(** [Exception msg] is what the module raises itself; [PyErr cls] is an
    exception of class [cls] raised by a builtin or a library. *)
Inductive exn :=
| Exception (msg : pystr)
| PyErr (cls : string).

Inductive result (A : Type) :=
| Ok (a : A)
| Raise (e : exn).
Arguments Ok {A} a.
Arguments Raise {A} e.

Definition of_option {A} (o : option A) (cls : string) : result A :=
  match o with Some a => Ok a | None => Raise (PyErr cls) end.

(** [d[k]] on the pairs of a [dict]. *)
Fixpoint assoc (k : pystr) (d : list (pystr * pyval)) : option pyval :=
  match d with
  | [] => None
  | (k', v) :: d' => if bool_decide (k = k') then Some v else assoc k d'
  end.

(** [v[k]] for a string key [k]. *)
Definition getitem (v : pyval) (k : pystr) : result pyval :=
  match v with
  | VDict d => of_option (assoc k d) "KeyError"
  | _ => Raise (PyErr "TypeError")
  end.

(** [v[0]]. *)
Definition getitem0 (v : pyval) : result pyval :=
  match v with
  | VList l => of_option (head l) "IndexError"
  | VStr s => of_option ((fun c => VStr [c]) <$> head s) "IndexError"
  | VDict _ => Raise (PyErr "KeyError")
  | _ => Raise (PyErr "TypeError")
  end.

(** [int(f)] for a float: truncation towards zero. *)
Definition trunc_float (f : pyfloat) : result Z :=
  match f with
  | Finite m e => Ok (if 0 <=? e then m * 2 ^ e else m ÷ 2 ^ (- e))
  | NaN => Raise (PyErr "ValueError")
  | Inf _ => Raise (PyErr "OverflowError")
  end.


(** [int(v)].  Parsing a string literal is the builtin's business and comes
    in as [int_of_str]. *)
Definition py_int (int_of_str : pystr -> option Z) (v : pyval) : result Z :=
  match v with
  | VInt z => Ok z
  | VBool b => Ok (if b then 1 else 0)
  | VFloat f => trunc_float f
  | VStr s => of_option (int_of_str s) "ValueError"
  | VNone | VList _ | VDict _ => Raise (PyErr "TypeError")
  end.

(** [str(v)].  The [repr] of floats and containers is the interpreter's
    business and comes in as [repr]. *)
Definition py_str (repr : pyval -> pystr) (v : pyval) : pystr :=
  match v with
  | VStr s => s
  | VInt z => str_of_Z z
  | VNone => lit "None"
  | VBool true => lit "True"
  | VBool false => lit "False"
  | VFloat _ | VList _ | VDict _ => repr v
  end.

(* ------------------------------------------------------------------ *)
(** ** The world the module runs in *)
(* ------------------------------------------------------------------ *)

Inductive http_method := GET | POST | PUT.

Record request := mkRequest {
  req_method : http_method;
  req_url : pystr;
  req_data : option payload;
  req_headers : gmap pystr pystr
}.

Record response := mkResponse {
  status_code : Z;
  content : pybytes
}.

(** What an observer of the process sees, in order.  An exchange without a
    response is a transport failure. *)
Inductive event :=
| EHttp (rq : request) (rs : option response)
| ESleep (seconds : Z)
| EPrint (line : pystr).

(** The row index of a frame is an object of its own: frames refer to it by
    address, and two frames may share one. *)
Record Index := mkIndex {
  idx_name : pyval;
  idx_labels : list pyval
}.

Record DataFrame := mkDataFrame {
  df_index : nat;
  df_columns : list pyval;
  df_values : list (list pyval)
}.

Record world := mkWorld {
  token : option pystr;                       (* Authentication.getToken() *)
  server : nat -> request -> option response; (* answer to the n-th exchange *)
  ncalls : nat;                               (* exchanges so far *)
  trace : list event;
  openable : pystr -> bool;                   (* paths open() can write to *)
  files : gmap pystr pybytes;
  heap : gmap nat Index
}.

(** The value a function of the module hands back. *)
Inductive pyobj :=
| OVal (v : pyval)
| OStringIO (buffer : pystr)
| OFrame (df : DataFrame)
| OArray (a : list (list pyval)).

(** *** State and exceptions *)

Definition M (A : Type) : Type := world -> result A * world.

Definition ret {A} (a : A) : M A := fun w => (Ok a, w).
Definition raise {A} (e : exn) : M A := fun w => (Raise e, w).
Definition bind {A B} (m : M A) (k : A -> M B) : M B :=
  fun w => match m w with
           | (Ok a, w') => k a w'
           | (Raise e, w') => (Raise e, w')
           end.
Definition lift {A} (r : result A) : M A := fun w => (r, w).

Declare Scope py_scope.
Delimit Scope py_scope with py.
Notation "x <- m ;; k" := (bind m (fun x => k))
  (at level 100, m at next level, right associativity) : py_scope.
Notation "m ;;; k" := (bind m (fun _ => k))
  (at level 100, right associativity) : py_scope.
Open Scope py_scope.

Definition emit (e : event) : M unit := fun w =>
  (Ok tt, mkWorld (token w) (server w) (ncalls w) (trace w ++ [e])
                  (openable w) (files w) (heap w)).

(** [Authentication.getToken()]. *)
Definition getToken : M (option pystr) := fun w => (Ok (token w), w).

(** [token is not None and token != ""]. *)
Definition defined (tok : option pystr) : bool :=
  match tok with
  | None => false
  | Some t => negb (bool_decide (t = []))
  end.

(** One exchange of [requests]: the server answers, or the transport fails. *)
Definition exchange (rq : request) : M response := fun w =>
  let rs := server w (ncalls w) rq in
  let w' := mkWorld (token w) (server w) (S (ncalls w)) (trace w ++ [EHttp rq rs])
                    (openable w) (files w) (heap w) in
  (of_option rs "ConnectionError", w').

Definition requests_get (url : pystr) (headers : gmap pystr pystr) : M response :=
  exchange (mkRequest GET url None headers).
Definition requests_post (url : pystr) (data : payload) (headers : gmap pystr pystr)
  : M response :=
  exchange (mkRequest POST url (Some data) headers).
Definition requests_put (url : pystr) (data : payload) (headers : gmap pystr pystr)
  : M response :=
  exchange (mkRequest PUT url (Some data) headers).

(** [r.content.decode()]. *)
Definition decode (r : response) : M pystr :=
  lift (of_option (utf8_decode (content r)) "UnicodeDecodeError").

(** [s.encode()]. *)
Definition encode (s : pystr) : M pybytes :=
  lift (of_option (utf8_encode s) "UnicodeEncodeError").

Definition print (line : pystr) : M unit := emit (EPrint line).
Definition time_sleep (seconds : Z) : M unit := emit (ESleep seconds).

(** [open(name, "w+b")]: the file is created, or emptied when it exists. *)
Definition open_wb (name : pystr) : M pystr := fun w =>
  if openable w name
  then (Ok name, mkWorld (token w) (server w) (ncalls w) (trace w)
                         (openable w) (<[name := []]> (files w)) (heap w))
  else (Raise (PyErr "OSError"), w).

(** [f.write(d)] on a file opened in binary mode: only bytes are accepted. *)
Definition file_write (f : pystr) (d : payload) : M unit := fun w =>
  match d with
  | PBytes b =>
    (Ok tt, mkWorld (token w) (server w) (ncalls w) (trace w) (openable w)
                    (<[f := default [] (files w !! f) ++ b]> (files w)) (heap w))
  | PStr _ => (Raise (PyErr "TypeError"), w)
  end.

Definition file_close (f : pystr) : M unit := ret tt.

(** [StringIO.read()] on a fresh buffer, or [AttributeError]. *)
Definition read (o : pyobj) : M payload :=
  match o with
  | OStringIO buffer => ret (PStr buffer)
  | _ => raise (PyErr "AttributeError")
  end.

(** *** Data frames *)

(** What a frame holds once its index object is read. *)
Record FrameContent := mkFrameContent {
  fc_index : Index;
  fc_columns : list pyval;
  fc_values : list (list pyval)
}.

(** A frame built by pandas gets an index object of its own. *)
Definition new_frame (fc : FrameContent) : M DataFrame := fun w =>
  let a := fresh (dom (heap w)) in
  (Ok (mkDataFrame a (fc_columns fc) (fc_values fc)),
   mkWorld (token w) (server w) (ncalls w) (trace w) (openable w) (files w)
           (<[a := fc_index fc]> (heap w))).

(** [dataFrame.index]; an address without an object has no Python
    counterpart and is reported as a [ReferenceError]. *)
Definition frame_index (dataFrame : DataFrame) : M Index := fun w =>
  (of_option (heap w !! df_index dataFrame) "ReferenceError", w).

(** [dataFrame.index.name = name]: the index object itself is updated. *)
Definition set_index_name (dataFrame : DataFrame) (name : pyval) : M unit := fun w =>
  match heap w !! df_index dataFrame with
  | Some ix =>
    (Ok tt, mkWorld (token w) (server w) (ncalls w) (trace w) (openable w) (files w)
                    (<[df_index dataFrame := mkIndex name (idx_labels ix)]> (heap w)))
  | None => (Raise (PyErr "ReferenceError"), w)
  end.

Definition frame_content (dataFrame : DataFrame) : M FrameContent :=
  ix <- frame_index dataFrame ;;
  ret (mkFrameContent ix (df_columns dataFrame) (df_values dataFrame)).

(* ------------------------------------------------------------------ *)
(** ** Collaborators *)
(* ------------------------------------------------------------------ *)

(** The modules [Config] and [Authentication] of the package. *)
Record Collaborators := mkCollaborators {
  (** [Config.CasJobsRESTUri] *)
  CasJobsRESTUri : pystr;
  (** [Config.isSciServerComputeEnvironment()] *)
  isSciServerComputeEnvironment : bool;
  (** [Authentication.getKeystoneUserWithToken(token).id] *)
  getKeystoneUserWithToken : pystr -> result pystr
}.

(** The interpreter and the third-party packages. *)
Record Library := mkLibrary {
  (** [json.loads] and [json.dumps] *)
  json_loads : pystr -> result pyval;
  json_dumps : pyval -> pystr;
  (** [int(s)] for a string, [repr(v)] for floats and containers *)
  int_of_str : pystr -> option Z;
  repr : pyval -> pystr;
  (** [pandas.DataFrame(data, columns=columns)] *)
  pandas_DataFrame : pyval -> pyval -> result FrameContent;
  (** [pandas.read_csv(buffer, index_col=index_col)] *)
  pandas_read_csv : pystr -> pyval -> result FrameContent;
  (** [DataFrame.to_csv()] and [DataFrame.as_matrix()] *)
  to_csv : FrameContent -> pystr;
  as_matrix : FrameContent -> result (list (list pyval))
}.

(* ------------------------------------------------------------------ *)
(** ** The module *)
(* ------------------------------------------------------------------ *)

Definition waitingStr : pystr := lit "Waiting...".
Definition back : pystr := str_mul bs (length waitingStr).

Definition not_logged_in : exn :=
  Exception (lit "User token is not defined. First log into SciServer.").

(** [jobStatus in (3, 4, 5)]. *)
Definition terminal (jobStatus : Z) : bool :=
  (jobStatus =? 3) || (jobStatus =? 4) || (jobStatus =? 5).

(** [if b: m]. *)
Definition when (b : bool) (m : M unit) : M unit := if b then m else ret tt.

(** Where a call stands after a bounded number of turns of a loop: finished
    with a result, or still running; either way in a world. *)
Inductive outcome (A : Type) :=
| Done (r : result A) (w : world)
| Running (w : world).
Arguments Done {A} r w.
Arguments Running {A} w.

Definition final {A} (o : outcome A) : world :=
  match o with Done _ w => w | Running w => w end.

Definition result_of {A} (o : outcome A) : option (result A) :=
  match o with Done r _ => Some r | Running _ => None end.

(** [try: m  except Exception as e: raise e]. *)
Definition try_reraise {A} (m : M A) : M A := fun w =>
  match m w with
  | (Raise e, w') => (Raise e, w')
  | (Ok a, w') => (Ok a, w')
  end.

Section CasJobs.

Variable cfg : Collaborators.
Variable lib : Library.

Definition http_error (what : pystr) (r : response) : M pystr :=
  body <- decode r ;;
  ret (what ++ lit "Http Response from CasJobs API returned status code "
            ++ str_of_Z (status_code r) ++ lit ":" ++ nl ++ body).

Definition getSchemaName : M pystr :=
  token <- getToken ;;
  match token with
  | Some t =>
    if defined token then
      keystoneUserId <- lift (getKeystoneUserWithToken cfg t) ;;
      let usersUrl := CasJobsRESTUri cfg ++ lit "/users/" ++ keystoneUserId in
      let headers : gmap pystr pystr :=
        {[ lit "X-Auth-Token" := t; lit "Content-Type" := lit "application/json" ]} in
      getResponse <- requests_get usersUrl headers ;;
      if negb (status_code getResponse =? 200) then
        msg <- http_error (lit "Error when getting schema name. ") getResponse ;;
        raise (Exception msg)
      else
        text <- decode getResponse ;;
        jsonResponse <- lift (json_loads lib text) ;;
        wsid <- lift (getitem jsonResponse (lit "WebServicesId")) ;;
        ret (lit "wsid_" ++ py_str (repr lib) wsid)
    else raise not_logged_in
  | None => raise not_logged_in
  end.

Definition getTables (context : pystr) : M pyval :=
  token <- getToken ;;
  match token with
  | Some t =>
    if defined token then
      let TablesUrl := CasJobsRESTUri cfg ++ lit "/contexts/" ++ context ++ lit "/Tables" in
      let headers : gmap pystr pystr :=
        {[ lit "X-Auth-Token" := t; lit "Content-Type" := lit "application/json" ]} in
      getResponse <- requests_get TablesUrl headers ;;
      if negb (status_code getResponse =? 200) then
        msg <- http_error (lit "Error when getting table description from database context "
                             ++ context ++ lit "." ++ nl) getResponse ;;
        raise (Exception msg)
      else
        text <- decode getResponse ;;
        jsonResponse <- lift (json_loads lib text) ;;
        ret jsonResponse
    else raise not_logged_in
  | None => raise not_logged_in
  end.

Definition is_format (format : pystr) (name : string) : bool :=
  bool_decide (format = lit name).

Definition illegal_format (format : pystr) : exn :=
  Exception (lit "Error when executing query. Illegal format parameter specification: "
               ++ format).

Definition executeQuery (sql context format : pystr) : M pyobj :=
  acceptHeader <-
    (if is_format format "pandas" || is_format format "json"
     then ret (lit "application/json+array")
     else if is_format format "csv" || is_format format "readable"
     then ret (lit "text/plain")
     else if is_format format "fits"
     then ret (lit "application/fits")
     else raise (illegal_format format)) ;;
  let QueryUrl := CasJobsRESTUri cfg ++ lit "/contexts/" ++ context ++ lit "/query" in
  let TaskName :=
    if isSciServerComputeEnvironment cfg
    then lit "Compute.SciScript-Python.CasJobs.executeQuery"
    else lit "SciScript-Python.CasJobs.executeQuery" in
  let query := VDict [(lit "Query", VStr sql); (lit "TaskName", VStr TaskName)] in
  data <- encode (json_dumps lib query) ;;
  let headers : gmap pystr pystr :=
    {[ lit "Content-Type" := lit "application/json"; lit "Accept" := acceptHeader ]} in
  token <- getToken ;;
  let headers :=
    match token with
    | Some t => if defined token then <[ lit "X-Auth-Token" := t ]> headers else headers
    | None => headers
    end in
  postResponse <- requests_post QueryUrl (PBytes data) headers ;;
  if negb (status_code postResponse =? 200) then
    msg <- http_error (lit "Error when executing query. ") postResponse ;;
    raise (Exception msg)
  else
    r <- decode postResponse ;;
    if is_format format "readable" then ret (OStringIO r)
    else if is_format format "pandas" then
      r <- lift (json_loads lib r) ;;
      res <- lift (getitem r (lit "Result")) ;;
      res0 <- lift (getitem0 res) ;;
      rows <- lift (getitem res0 (lit "Data")) ;;
      res <- lift (getitem r (lit "Result")) ;;
      res0 <- lift (getitem0 res) ;;
      columns <- lift (getitem res0 (lit "Columns")) ;;
      fc <- lift (pandas_DataFrame lib rows columns) ;;
      frame <- new_frame fc ;;
      ret (OFrame frame)
    else if is_format format "csv" then ret (OVal (VStr r))
    else if is_format format "json" then
      r <- lift (json_loads lib r) ;;
      ret (OVal r)
    else if is_format format "fits" then ret (OStringIO r)
    else raise (illegal_format format).

Definition submitJob (sql context : pystr) : M Z :=
  token <- getToken ;;
  match token with
  | Some t =>
    if defined token then
      let QueryUrl := CasJobsRESTUri cfg ++ lit "/contexts/" ++ context ++ lit "/jobs" in
      let TaskName :=
        if isSciServerComputeEnvironment cfg
        then lit "Compute.SciScript-Python.CasJobs.submitJob"
        else lit "SciScript-Python.CasJobs.submitJob" in
      let query := VDict [(lit "Query", VStr sql); (lit "TaskName", VStr TaskName)] in
      data <- encode (json_dumps lib query) ;;
      let headers : gmap pystr pystr :=
        {[ lit "Content-Type" := lit "application/json"; lit "Accept" := lit "text/plain" ]} in
      let headers := <[ lit "X-Auth-Token" := t ]> headers in
      putResponse <- requests_put QueryUrl (PBytes data) headers ;;
      if negb (status_code putResponse =? 200) then
        msg <- http_error (lit "Error when submitting a job. ") putResponse ;;
        raise (Exception msg)
      else
        text <- decode putResponse ;;
        lift (of_option (int_of_str lib text) "ValueError")
    else raise not_logged_in
  | None => raise not_logged_in
  end.

Definition getJobStatus (jobid : pyval) : M pyval :=
  token <- getToken ;;
  match token with
  | Some t =>
    if defined token then
      let QueryUrl := CasJobsRESTUri cfg ++ lit "/jobs/" ++ py_str (repr lib) jobid in
      let headers : gmap pystr pystr :=
        {[ lit "X-Auth-Token" := t; lit "Content-Type" := lit "application/json" ]} in
      postResponse <- requests_get QueryUrl headers ;;
      if negb (status_code postResponse =? 200) then
        msg <- http_error (lit "Error when getting the status of job "
                             ++ py_str (repr lib) jobid ++ lit "." ++ nl) postResponse ;;
        raise (Exception msg)
      else
        text <- decode postResponse ;;
        lift (json_loads lib text)
    else raise not_logged_in
  | None => raise not_logged_in
  end.

(** One turn of the [while not complete] loop of [waitForJob]: the value of
    [complete] after the turn, and [jobDesc]. *)
Definition waitForJob_turn (jobid : pyval) (verbose : bool) : M (bool * pyval) :=
  when verbose (print back ;;; print waitingStr) ;;;
  jobDesc <- getJobStatus jobid ;;
  status <- lift (getitem jobDesc (lit "Status")) ;;
  jobStatus <- lift (py_int (int_of_str lib) status) ;;
  if terminal jobStatus then
    when verbose (print back ;;; print (lit "Done!")) ;;;
    ret (true, jobDesc)
  else
    time_sleep 2 ;;;
    ret (false, jobDesc).

(** The loop, for at most [fuel] turns: it is [Done] with what [waitForJob]
    returns or raises, or still [Running] when the turns are used up. *)
Fixpoint waitForJob_loop (fuel : nat) (jobid : pyval) (verbose : bool) (w : world)
  : outcome pyval :=
  match fuel with
  | O => Running w
  | S fuel' =>
    match waitForJob_turn jobid verbose w with
    | (Raise e, w') => Done (Raise e) w'
    | (Ok (true, jobDesc), w') => Done (Ok jobDesc) w'
    | (Ok (false, _), w') => waitForJob_loop fuel' jobid verbose w'
    end
  end.

(** [waitForJob]; its [try ... except Exception as e: raise e] hands every
    exception on as it is. *)
Definition waitForJob (fuel : nat) (jobid : pyval) (verbose : bool) (w : world)
  : outcome pyval :=
  match when verbose (print waitingStr) w with
  | (Ok _, w0) => waitForJob_loop fuel jobid verbose w0
  | (Raise e, w0) => Done (Raise e) w0
  end.

Definition getFitsFileFromQuery (fileName queryString context : pystr) : M bool :=
  try_reraise (
    fitsResponse <- executeQuery queryString context (lit "fits") ;;
    theFile <- open_wb fileName ;;
    d <- read fitsResponse ;;
    file_write theFile d ;;;
    file_close theFile ;;;
    ret true).

Definition getPandasDataFrameFromQuery (queryString context : pystr) (index_col : pyval)
  : M DataFrame :=
  try_reraise (
    cvsResponse <- executeQuery queryString context (lit "readable") ;;
    match cvsResponse with
    | OStringIO buffer =>
      fc <- lift (pandas_read_csv lib buffer index_col) ;;
      new_frame fc
    | _ => raise (PyErr "TypeError")
    end).

Definition getNumpyArrayFromQuery (queryString context : pystr)
  : M (list (list pyval)) :=
  try_reraise (
    dataFrame <- getPandasDataFrameFromQuery queryString context VNone ;;
    fc <- frame_content dataFrame ;;
    lift (as_matrix lib fc)).

Definition uploadCSVDataToTable (CVSdata : payload) (tableName context : pystr) : M bool :=
  token <- getToken ;;
  match token with
  | Some t =>
    if defined token then
      let tablesUrl :=
        CasJobsRESTUri cfg ++ lit "/contexts/" ++ context ++ lit "/Tables/" ++ tableName in
      let headers : gmap pystr pystr := {[ lit "X-Auth-Token" := t ]} in
      postResponse <- requests_post tablesUrl CVSdata headers ;;
      if negb (status_code postResponse =? 200) then
        msg <- http_error (lit "Error when uploading CSV data into CasJobs table "
                             ++ tableName ++ lit "." ++ nl) postResponse ;;
        raise (Exception msg)
      else ret true
    else raise not_logged_in
  | None => raise not_logged_in
  end.

(** [name == "" or name is None]. *)
Definition unnamed (name : pyval) : bool :=
  match name with
  | VStr [] => true
  | VNone => true
  | _ => false
  end.

Definition uploadPandasDataFrameToTable (dataFrame : DataFrame) (tableName context : pystr)
  : M bool :=
  try_reraise (
    ix <- frame_index dataFrame ;;
    when (unnamed (idx_name ix)) (set_index_name dataFrame (VStr (lit "index"))) ;;;
    fc <- frame_content dataFrame ;;
    sio <- encode (to_csv lib fc) ;;
    uploadCSVDataToTable (PBytes sio) tableName context).

(** *** The operations of the module, as one type *)

Inductive operation :=
| GetSchemaName
| GetTables (context : pystr)
| ExecuteQuery (sql context format : pystr)
| SubmitJob (sql context : pystr)
| GetJobStatus (jobid : pyval)
| WaitForJob (jobid : pyval) (verbose : bool)
| GetFitsFileFromQuery (fileName queryString context : pystr)
| GetPandasDataFrameFromQuery (queryString context : pystr) (index_col : pyval)
| GetNumpyArrayFromQuery (queryString context : pystr)
| UploadPandasDataFrameToTable (dataFrame : DataFrame) (tableName context : pystr)
| UploadCSVDataToTable (CVSdata : payload) (tableName context : pystr).

Definition returning {A} (f : A -> pyobj) (m : M A) (w : world) : outcome pyobj :=
  match m w with
  | (Ok a, w') => Done (Ok (f a)) w'
  | (Raise e, w') => Done (Raise e) w'
  end.

(** Running an operation; [fuel] bounds the turns of the polling loop. *)
Definition run (fuel : nat) (op : operation) (w : world) : outcome pyobj :=
  match op with
  | GetSchemaName => returning (fun s => OVal (VStr s)) getSchemaName w
  | GetTables context => returning OVal (getTables context) w
  | ExecuteQuery sql context format => returning id (executeQuery sql context format) w
  | SubmitJob sql context => returning (fun n => OVal (VInt n)) (submitJob sql context) w
  | GetJobStatus jobid => returning OVal (getJobStatus jobid) w
  | WaitForJob jobid verbose =>
    match waitForJob fuel jobid verbose w with
    | Done (Ok v) w' => Done (Ok (OVal v)) w'
    | Done (Raise e) w' => Done (Raise e) w'
    | Running w' => Running w'
    end
  | GetFitsFileFromQuery fileName queryString context =>
    returning (fun b => OVal (VBool b)) (getFitsFileFromQuery fileName queryString context) w
  | GetPandasDataFrameFromQuery queryString context index_col =>
    returning OFrame (getPandasDataFrameFromQuery queryString context index_col) w
  | GetNumpyArrayFromQuery queryString context =>
    returning OArray (getNumpyArrayFromQuery queryString context) w
  | UploadPandasDataFrameToTable dataFrame tableName context =>
    returning (fun b => OVal (VBool b))
              (uploadPandasDataFrameToTable dataFrame tableName context) w
  | UploadCSVDataToTable CVSdata tableName context =>
    returning (fun b => OVal (VBool b)) (uploadCSVDataToTable CVSdata tableName context) w
  end.

End CasJobs.

(* ------------------------------------------------------------------ *)
(** ** A small concrete setting *)
(* ------------------------------------------------------------------ *)

(** Collaborators and a library to run the module on concrete inputs: a
    service at a fixed address, and stand-ins for [json] and [pandas] that
    cover the documents and frames of the examples. *)
Module Mock.

Definition dq : pystr := [34%N].

Definition quoted (s : pystr) : pystr := dq ++ s ++ dq.

Definition cfg : Collaborators :=
  mkCollaborators (lit "https://cas/RestApi") false (fun _ => Ok (lit "u7")).

(** [{"Status": s}] *)
Definition status_text (s : Z) : pystr :=
  lit "{" ++ quoted (lit "Status") ++ lit ": " ++ str_of_Z s ++ lit "}".

(** [{"WebServicesId": 42}] *)
Definition profile_text : pystr :=
  lit "{" ++ quoted (lit "WebServicesId") ++ lit ": 42}".

(** [{"Result": [{"Columns": ["a", "b"], "Data": [[1, 2], [3, 4]]}]}] *)
Definition result_text : pystr :=
  lit "{" ++ quoted (lit "Result") ++ lit ": [{" ++ quoted (lit "Columns") ++ lit ": ["
    ++ quoted (lit "a") ++ lit ", " ++ quoted (lit "b") ++ lit "], "
    ++ quoted (lit "Data") ++ lit ": [[1, 2], [3, 4]]}]}".

Definition result_value : pyval :=
  VDict [(lit "Result",
          VList [VDict [(lit "Columns", VList [VStr (lit "a"); VStr (lit "b")]);
                        (lit "Data", VList [VList [VInt 1; VInt 2];
                                            VList [VInt 3; VInt 4]])]])].

(** The documents [loads] knows, with their values. *)
Definition documents : list (pystr * pyval) :=
  [(status_text 1, VDict [(lit "Status", VInt 1)]);
   (status_text 2, VDict [(lit "Status", VInt 2)]);
   (status_text 4, VDict [(lit "Status", VInt 4)]);
   (profile_text, VDict [(lit "WebServicesId", VInt 42)]);
   (result_text, result_value)].

Definition loads (text : pystr) : result pyval :=
  of_option (assoc text documents) "JSONDecodeError".

(** A flat object of strings, written without escapes. *)
Definition dumps (v : pyval) : pystr :=
  match v with
  | VDict [(k1, VStr v1); (k2, VStr v2)] =>
    lit "{" ++ quoted k1 ++ lit ": " ++ quoted v1 ++ lit ", "
            ++ quoted k2 ++ lit ": " ++ quoted v2 ++ lit "}"
  | _ => lit "null"
  end.

(** Unsigned decimal literals. *)
Definition digits (s : pystr) : option Z :=
  match s with
  | [] => None
  | _ =>
    foldl (fun acc c =>
             n ← acc;
             if ((48 <=? c) && (c <=? 57))%N then Some (10 * n + Z.of_N (c - 48)) else None)
          (Some 0) s
  end.

Definition rows_of (data : pyval) : option (list (list pyval)) :=
  match data with
  | VList rows => mapM (fun r => match r with VList cells => Some cells | _ => None end) rows
  | _ => None
  end.

(** Rectangular data under a fresh range index. *)
Definition frame_of (data columns : pyval) : result FrameContent :=
  match rows_of data, columns with
  | Some rows, VList labels =>
    if forallb (fun r => length r =? length labels)%nat rows
    then Ok (mkFrameContent
               (mkIndex VNone (map (fun i => VInt (Z.of_nat i)) (seq 0 (length rows))))
               labels rows)
    else Raise (PyErr "ValueError")
  | _, _ => Raise (PyErr "ValueError")
  end.

Definition cell (v : pyval) : pystr := py_str (fun _ => []) v.

Definition csv_line (cells : list pyval) : pystr :=
  match cells with
  | [] => nl
  | c :: cs => cell c ++ concat (map (fun x => lit "," ++ cell x) cs) ++ nl
  end.

(** The header, then one line per row, each led by the index. *)
Definition csv_of (fc : FrameContent) : pystr :=
  csv_line (idx_name (fc_index fc) :: fc_columns fc)
  ++ concat (map csv_line (zip_with cons (idx_labels (fc_index fc)) (fc_values fc))).

Definition lib : Library :=
  mkLibrary loads dumps digits (fun _ => [])
            frame_of (fun _ _ => Raise (PyErr "EmptyDataError"))
            csv_of (fun fc => Ok (fc_values fc)).

(** A service that answers every exchange with [rs]. *)
Definition always (rs : response) : nat -> request -> option response :=
  fun _ _ => Some rs.

(** A service that answers the [n]-th exchange with the [n]-th response of
    [rss], and the later ones with the last. *)
Definition script (rss : list response) (last : response) : nat -> request -> option response :=
  fun n _ => Some (nth n rss last).

Definition text_response (code : Z) (text : pystr) : response :=
  mkResponse code (default [] (utf8_encode text)).

Definition start (tok : option pystr) (srv : nat -> request -> option response) : world :=
  mkWorld tok srv 0 [] (fun _ => true) ∅ ∅.

(** A service without the table that is asked for. *)
Definition not_found : response := text_response 404 (lit "no such table").

(** An answer whose body, the single byte [0xff], is not UTF-8 text. *)
Definition garbled (code : Z) : response := mkResponse code [xff].

Definition tables_request : request :=
  mkRequest GET (lit "https://cas/RestApi/contexts/MyDB/Tables") None
            {[ lit "X-Auth-Token" := lit "t"; lit "Content-Type" := lit "application/json" ]}.

(** A job that is seen with the statuses 1, 2, 2, 4, and one that stays at 1. *)
Definition status_response (s : Z) : response := text_response 200 (status_text s).
Definition statuses : list Z := [1; 2; 2; 4].
Definition job_service : nat -> request -> option response :=
  script (map status_response statuses) (status_response 4).
Definition job_answer (k : nat) : response :=
  nth k (map status_response statuses) (status_response 4).
Definition job_status (k : nat) : Z := nth k statuses 4.
Definition job_record (k : nat) : pyval := VDict [(lit "Status", VInt (job_status k))].
Definition pending_service : nat -> request -> option response :=
  always (status_response 1).

(** A profile endpoint, and a query endpoint with a two-column result. *)
Definition profile_service : nat -> request -> option response :=
  always (text_response 200 profile_text).
Definition result_service : nat -> request -> option response :=
  always (text_response 200 result_text).


(** A query endpoint that answers with the first bytes of a FITS file. *)
Definition fits_world : world :=
  start (Some (lit "t")) (always (text_response 200 (lit "SIMPLE  =  T"))).

(** A frame with one column and two rows, in a world that holds its index
    object under the name [name]. *)
Definition frame : DataFrame := mkDataFrame 0 [VStr (lit "a")] [[VInt 1]; [VInt 2]].
Definition frame_world (name : pyval) : world :=
  mkWorld (Some (lit "t")) (always (mkResponse 200 [])) 0 [] (fun _ => true) ∅
          {[ 0%nat := mkIndex name [VInt 0; VInt 1] ]}.

End Mock.


(* ------------------------------------------------------------------ *)
(** ** Notions used in the statements *)
(* ------------------------------------------------------------------ *)

(** The formats [executeQuery] knows. *)
Definition formats : list pystr :=
  map lit ["pandas"; "csv"; "readable"; "fits"; "json"]%string.

(** The operations that test the token before anything else. *)
Definition checks_token (op : operation) : bool :=
  match op with
  | GetSchemaName | GetTables _ | SubmitJob _ _ | GetJobStatus _
  | UploadCSVDataToTable _ _ _ => true
  | _ => false
  end.

(** The operations the specification calls authenticated. *)
Definition authenticated (op : operation) : bool :=
  match op with
  | ExecuteQuery _ _ _ => true
  | _ => checks_token op
  end.

(** Every answered exchange of [evs] was answered with status 200. *)
Definition clean (evs : list event) : Prop :=
  forall rq rs, In (EHttp rq (Some rs)) evs -> status_code rs = 200.

(** What an answer other than 200 makes the module raise.  When the body
    of [rs] is UTF-8 text, [e] is the module's own exception and its message
    shows the status code of [rs] and the text of its body; when it is not,
    [e] is the [UnicodeDecodeError] of [content.decode()], which is raised
    before the message is put together. *)
Definition reports (rs : response) (e : exn) : Prop :=
  match utf8_decode (content rs) with
  | Some text => exists msg, e = Exception msg
                             /\ contains (str_of_Z (status_code rs)) msg
                             /\ contains text msg
  | None => e = PyErr "UnicodeDecodeError"
  end.

(** A computation that lets no answer other than 200 pass: its exchanges
    are all answered with 200, except possibly the last one, which then
    makes it raise an exception that reports the answer. *)
Definition checked {A} (m : M A) : Prop :=
  forall w, exists evs,
    trace (m w).2 = trace w ++ evs
    /\ (clean evs
        \/ exists evs0 rq rs e,
             evs = evs0 ++ [EHttp rq (Some rs)] /\ clean evs0
             /\ status_code rs <> 200 /\ (m w).1 = Raise e /\ reports rs e).

(** The same for a call that may still be running. *)
Definition checked_outcome {A} (w : world) (o : outcome A) : Prop :=
  exists evs,
    trace (final o) = trace w ++ evs
    /\ (clean evs
        \/ exists evs0 rq rs e,
             evs = evs0 ++ [EHttp rq (Some rs)] /\ clean evs0
             /\ status_code rs <> 200 /\ result_of o = Some (Raise e) /\ reports rs e).

(** A computation that leaves no event. *)
Definition silent {A} (m : M A) : Prop := forall w, trace (m w).2 = trace w.

(** The events other than console lines. *)
Definition is_print (e : event) : bool :=
  match e with EPrint _ => true | _ => false end.
Definition quiet (evs : list event) : list event :=
  List.filter (fun e => negb (is_print e)) evs.

(** Two worlds that differ at most in what was printed. *)
Definition same_but_prints (w1 w2 : world) : Prop :=
  token w1 = token w2 /\ server w1 = server w2 /\ ncalls w1 = ncalls w2
  /\ quiet (trace w1) = quiet (trace w2) /\ openable w1 = openable w2
  /\ files w1 = files w2 /\ heap w1 = heap w2.

(** Two computations that, from worlds that differ at most in what was
    printed, give the same result and reach such worlds again. *)
Definition related {A} (m1 m2 : M A) : Prop :=
  forall w1 w2, same_but_prints w1 w2 ->
    (m1 w1).1 = (m2 w2).1 /\ same_but_prints (m1 w1).2 (m2 w2).2.

(** The world after [calls] more exchanges and the events [evs]. *)
Definition advance (w : world) (calls : nat) (evs : list event) : world :=
  mkWorld (token w) (server w) (ncalls w + calls) (trace w ++ evs)
          (openable w) (files w) (heap w).

(** The world with the index objects [h]. *)
Definition with_heap (w : world) (h : gmap nat Index) : world :=
  mkWorld (token w) (server w) (ncalls w) (trace w) (openable w) (files w) h.

(** A computation that leaves the index objects as they are. *)
Definition keeps_heap {A} (m : M A) : Prop := forall w, heap (m w).2 = heap w.




(** The request of [getSchemaName]. *)
Definition profile_request (cfg : Collaborators) (t keystoneUserId : pystr) : request :=
  mkRequest GET (CasJobsRESTUri cfg ++ lit "/users/" ++ keystoneUserId) None
            {[ lit "X-Auth-Token" := t; lit "Content-Type" := lit "application/json" ]}.

(** The request of [getJobStatus]. *)
Definition status_request (cfg : Collaborators) (lib : Library) (t : pystr) (jobid : pyval)
  : request :=
  mkRequest GET (CasJobsRESTUri cfg ++ lit "/jobs/" ++ py_str (repr lib) jobid) None
            {[ lit "X-Auth-Token" := t; lit "Content-Type" := lit "application/json" ]}.

(** [int(jobDesc["Status"])]. *)
Definition status_of (lib : Library) (jobDesc : pyval) : result Z :=
  match getitem jobDesc (lit "Status") with
  | Ok s => py_int (int_of_str lib) s
  | Raise e => Raise e
  end.

(** The [k]-th poll from [w] on is answered with status 200 and a body that
    is the status record [rec], whose status is [s]. *)
Definition polled (cfg : Collaborators) (lib : Library) (w : world) (t : pystr)
  (jobid : pyval) (k : nat) (rs : response) (rec : pyval) (s : Z) : Prop :=
  server w (ncalls w + k)%nat (status_request cfg lib t jobid) = Some rs
  /\ status_code rs = 200
  /\ (exists text, utf8_decode (content rs) = Some text /\ json_loads lib text = Ok rec)
  /\ status_of lib rec = Ok s.

(** The exchanges and sleeps of [n] polls that were not final, then the
    final one. *)
Definition polling (rq : request) (rss : nat -> response) (n : nat) : list event :=
  flat_map (fun k => [EHttp rq (Some (rss k)); ESleep 2]) (seq 0 n)
  ++ [EHttp rq (Some (rss n))].

(* ------------------------------------------------------------------ *)
(** ** Notions for the further properties *)
(* ------------------------------------------------------------------ *)

(** The object [json.dumps] is given by [executeQuery] and [submitJob]: the
    query, and the name of the calling function as the task, with the
    prefix [Compute.] inside the compute environment. *)
Definition query_of (cfg : Collaborators) (function : string) (sql : pystr) : pyval :=
  VDict [(lit "Query", VStr sql);
         (lit "TaskName",
          VStr ((if isSciServerComputeEnvironment cfg then lit "Compute." else [])
                  ++ lit "SciScript-Python.CasJobs." ++ lit function))].

(** The token as a header: present when the token is defined. *)
Definition token_header (tok : option pystr) : option pystr :=
  if defined tok then tok else None.

(** A text result seen as a readable object. *)
Definition as_readable (r : result pyobj) : result pyobj :=
  match r with
  | Ok (OVal (VStr s)) => Ok (OStringIO s)
  | _ => r
  end.

(** The request of [submitJob]. *)
Definition job_request (cfg : Collaborators) (t context : pystr) (data : pybytes) : request :=
  mkRequest PUT (CasJobsRESTUri cfg ++ lit "/contexts/" ++ context ++ lit "/jobs")
            (Some (PBytes data))
            (<[ lit "X-Auth-Token" := t ]>
               {[ lit "Content-Type" := lit "application/json";
                  lit "Accept" := lit "text/plain" ]}).

(** The request of [uploadCSVDataToTable]. *)
Definition table_request (cfg : Collaborators) (t context tableName : pystr)
  (CVSdata : payload) : request :=
  mkRequest POST
            (CasJobsRESTUri cfg ++ lit "/contexts/" ++ context ++ lit "/Tables/" ++ tableName)
            (Some CVSdata) {[ lit "X-Auth-Token" := t ]}.

(** What [uploadPandasDataFrameToTable] serializes: the frame with its
    index, named ["index"] when it had no name. *)
Definition uploaded_frame (dataFrame : DataFrame) (ix : Index) : FrameContent :=
  mkFrameContent (if unnamed (idx_name ix)
                  then mkIndex (VStr (lit "index")) (idx_labels ix) else ix)
                 (df_columns dataFrame) (df_values dataFrame).

(** Concrete cases for the further properties. *)
Module Cases.

Definition select_1 : pybytes :=
  default [] (utf8_encode (json_dumps Mock.lib (query_of Mock.cfg "executeQuery"
                                                          (lit "select 1")))).

Definition submit_1 : pybytes :=
  default [] (utf8_encode (json_dumps Mock.lib (query_of Mock.cfg "submitJob"
                                                          (lit "select 1")))).

(** A service that answers every exchange with status 200 and [text]. *)
Definition answering (text : pystr) : world :=
  Mock.start (Some (lit "t")) (Mock.always (Mock.text_response 200 text)).

(** [{"Result": []}] *)
Definition empty_result_text : pystr :=
  lit "{" ++ Mock.quoted (lit "Result") ++ lit ": []}".

(** [[{"Status": 4}]], the statuses of all jobs when there is one job. *)
Definition status_list_text : pystr := lit "[" ++ Mock.status_text 4 ++ lit "]".

(** The library of [Mock], whose [loads] also knows the documents above. *)
Definition documents : list (pystr * pyval) :=
  [(empty_result_text, VDict [(lit "Result", VList [])]);
   (status_list_text, VList [VDict [(lit "Status", VInt 4)]])].

Definition loads (text : pystr) : result pyval :=
  of_option (assoc text (documents ++ Mock.documents)) "JSONDecodeError".

(** The labels of the first line of a delimited text. *)
Fixpoint labels (csv label : pystr) : list pyval :=
  match csv with
  | [] => [VStr label]
  | c :: rest =>
    if (c =? 44)%N then VStr label :: labels rest []
    else if (c =? 10)%N then [VStr label]
    else labels rest (label ++ [c])
  end.

(** A reader that keeps the header of the text and no row. *)
Definition header_only (buffer : pystr) (index_col : pyval) : result FrameContent :=
  match buffer with
  | [] => Raise (PyErr "EmptyDataError")
  | _ => Ok (mkFrameContent (mkIndex VNone []) (labels buffer []) [])
  end.

Definition lib : Library :=
  mkLibrary loads Mock.dumps Mock.digits (fun _ => [])
            Mock.frame_of header_only
            Mock.csv_of (fun fc => Ok (fc_values fc)).

(** The request [executeQuery] sends for [select 1] in [MyDB] with the
    format pandas and the token [t]. *)
Definition select_1_pandas : request :=
  mkRequest POST (lit "https://cas/RestApi/contexts/MyDB/query")
            (Some (PBytes select_1))
            {[ lit "Content-Type" := lit "application/json";
               lit "Accept" := lit "application/json+array";
               lit "X-Auth-Token" := lit "t" ]}.

(** A world in which [out.fits] exists and holds three bytes. *)
Definition with_old_file : world :=
  mkWorld (Some (lit "t")) (Mock.always (Mock.text_response 200 (lit "SIMPLE"))) 0 []
          (fun _ => true) {[ lit "out.fits" := [x01; x02; x03] ]} ∅.

(** A world with a frame whose index is named [id], and a query endpoint.  *)
Definition with_frame : world :=
  mkWorld (Some (lit "t")) Mock.result_service 0 [] (fun _ => true) ∅
          {[ 0%nat := mkIndex (VStr (lit "id")) [VInt 0; VInt 1] ]}.

(** The same frame, and a query endpoint that answers with the header
    [a,b]. *)
Definition with_frame_csv : world :=
  mkWorld (Some (lit "t")) (Mock.always (Mock.text_response 200 (lit "a,b"))) 0 []
          (fun _ => true) ∅
          {[ 0%nat := mkIndex (VStr (lit "id")) [VInt 0; VInt 1] ]}.

(** A service that does not answer. *)
Definition unreachable : world := Mock.start (Some (lit "t")) (fun _ _ => None).

(** The request [executeQuery] sends for [select 1] in [MyDB] with the
    format csv and the token [t]. *)
Definition select_1_csv : request :=
  mkRequest POST (lit "https://cas/RestApi/contexts/MyDB/query")
            (Some (PBytes select_1))
            {[ lit "Content-Type" := lit "application/json";
               lit "Accept" := lit "text/plain";
               lit "X-Auth-Token" := lit "t" ]}.

(** The bytes uploaded for the frame of [Mock], and a service that answers
    with them. *)
Definition frame_csv : pystr :=
  to_csv Mock.lib (uploaded_frame Mock.frame (mkIndex VNone [VInt 0; VInt 1])).
Definition frame_bytes : pybytes := default [] (utf8_encode frame_csv).
Definition echo : world :=
  Mock.start (Some (lit "t")) (Mock.always (mkResponse 200 frame_bytes)).

(** The world [w] after a logout. *)
Definition logged_out (w : world) : world :=
  mkWorld None (server w) (ncalls w) (trace w) (openable w) (files w) (heap w).

End Cases.

(** A computation that, from a world in which [I] holds, reaches a world in
    which [I] holds again and that is related to the first by [R]. *)
Definition keeps (I : world -> Prop) (R : world -> world -> Prop) {A} (m : M A) : Prop :=
  forall w, I w -> I (m w).2 /\ R w (m w).2.

Definition any_world (w : world) : Prop := True.
Definition has_token (tok : option pystr) (w : world) : Prop := token w = tok.

(** The files are the same. *)
Definition same_files (w w' : world) : Prop := files w' = files w.

(** The index objects of [w] are in [w'] as they were. *)
Definition grows_heap (w w' : world) : Prop :=
  forall a ix, heap w !! a = Some ix -> heap w' !! a = Some ix.

(** The events of [w'] are those of [w] followed by events that satisfy [P]. *)
Definition adds (P : event -> Prop) (w w' : world) : Prop :=
  exists evs, trace w' = trace w ++ evs /\ Forall P evs.

(** What an event of the module looks like: a request to an address under
    the base address, with the token as [X-Auth-Token] when there is one; a
    sleep of two seconds; a printed line when lines were asked for. *)
Definition expected (cfg : Collaborators) (tok : option pystr) (verbose : bool)
  (e : event) : Prop :=
  match e with
  | EHttp rq _ =>
    (exists rest, req_url rq = CasJobsRESTUri cfg ++ rest)
    /\ req_headers rq !! lit "X-Auth-Token" = token_header tok
  | ESleep seconds => seconds = 2
  | EPrint _ => verbose = true
  end.

(** The operation that polls, and whether it prints. *)
Definition polls_job (op : operation) : bool :=
  match op with WaitForJob _ _ => true | _ => false end.
Definition prints (op : operation) : bool :=
  match op with WaitForJob _ verbose => verbose | _ => false end.

(** The operations that touch the files, and those that rename an index. *)
Definition writes_file (op : operation) : bool :=
  match op with GetFitsFileFromQuery _ _ _ => true | _ => false end.
Definition renames_index (op : operation) : bool :=
  match op with UploadPandasDataFrameToTable _ _ _ => true | _ => false end.

(** A computation whose events are at most one exchange. *)
Definition single {A} (m : M A) : Prop :=
  forall w, trace (m w).2 = trace w
            \/ exists rq rs, trace (m w).2 = trace w ++ [EHttp rq rs].

(** An event that lets an operation go on: anything but an exchange that
    was not answered, or answered with a status other than 200. *)
Definition goes_on (e : event) : Prop :=
  match e with
  | EHttp _ rs => exists r, rs = Some r /\ status_code r = 200
  | _ => True
  end.

(** A computation that stops at the first exchange that does not let it go
    on: such an exchange is its last event and makes it raise, with
    [ConnectionError] when there was no answer. *)
Definition halting {A} (m : M A) : Prop :=
  forall w, exists evs,
    trace (m w).2 = trace w ++ evs
    /\ (Forall goes_on evs
        \/ exists evs0 rq rs e,
             evs = evs0 ++ [EHttp rq rs] /\ Forall goes_on evs0
             /\ ~ goes_on (EHttp rq rs) /\ (m w).1 = Raise e
             /\ (rs = None -> e = PyErr "ConnectionError")).

Definition halting_outcome {A} (w : world) (o : outcome A) : Prop :=
  exists evs,
    trace (final o) = trace w ++ evs
    /\ (Forall goes_on evs
        \/ exists evs0 rq rs e,
             evs = evs0 ++ [EHttp rq rs] /\ Forall goes_on evs0
             /\ ~ goes_on (EHttp rq rs) /\ result_of o = Some (Raise e)
             /\ (rs = None -> e = PyErr "ConnectionError")).

(** The lines printed among the events [evs]. *)
Definition printed (evs : list event) : list pystr :=
  flat_map (fun e => match e with EPrint line => [line] | _ => [] end) evs.

(** The events of [waitForJob] with [verbose=True] from its loop on: [n]
    polls that were not final and the final one, each announced. *)
Definition announced_polling (rq : request) (rss : nat -> response) (n : nat)
  : list event :=
  flat_map (fun k => [EPrint back; EPrint waitingStr; EHttp rq (Some (rss k)); ESleep 2])
           (seq 0 n)
  ++ [EPrint back; EPrint waitingStr; EHttp rq (Some (rss n));
      EPrint back; EPrint (lit "Done!")].

(* ------------------------------------------------------------------ *)
(** ** Proof support *)
(* ------------------------------------------------------------------ *)

Arguments lit : simpl never.

Ltac unfold_py :=
  unfold returning, try_reraise, http_error, requests_get, requests_post, requests_put,
         exchange, decode, encode, print, time_sleep, emit, getToken, when,
         bind, ret, raise, lift in *.

Lemma try_reraise_id {A} (m : M A) (w : world) : try_reraise m w = m w.
Proof. unfold try_reraise. destruct (m w) as [[a|e] w']; reflexivity. Qed.

Lemma defined_false (tok : option pystr) :
  defined tok = false <-> tok = None \/ tok = Some [].
Proof.
  destruct tok as [t|]; simpl.
  - rewrite negb_false_iff, bool_decide_eq_true. split.
    + intros ->. now right.
    + intros [H|H]; congruence.
  - split; auto.
Qed.

Lemma defined_true (tok : option pystr) :
  defined tok = true <-> exists t, tok = Some t /\ t <> [].
Proof.
  destruct tok as [t|]; simpl.
  - rewrite negb_true_iff, bool_decide_eq_false. split.
    + intros H. exists t. auto.
    + intros (t' & [= <-] & H). exact H.
  - split; [discriminate | intros (t & H & _); discriminate].
Qed.

(** *** Stepping through a computation *)

Lemma bind_ret {A B} (a : A) (k : A -> M B) (w : world) : bind (ret a) k w = k a w.
Proof. reflexivity. Qed.

Lemma bind_raise {A B} (e : exn) (k : A -> M B) (w : world) :
  bind (raise e) k w = (Raise e, w).
Proof. reflexivity. Qed.

Lemma bind_lift_ok {A B} (a : A) (k : A -> M B) (w : world) :
  bind (lift (Ok a)) k w = k a w.
Proof. reflexivity. Qed.

Lemma bind_lift_raise {A B} (e : exn) (k : A -> M B) (w : world) :
  bind (lift (Raise e)) k w = (Raise e, w).
Proof. reflexivity. Qed.

Lemma bind_getToken {B} (k : option pystr -> M B) (w : world) :
  bind getToken k w = k (token w) w.
Proof. reflexivity. Qed.

Lemma bind_encode {B} (s : pystr) (k : pybytes -> M B) (w : world) :
  bind (encode s) k w
  = match utf8_encode s with
    | Some b => k b w
    | None => (Raise (PyErr "UnicodeEncodeError"), w)
    end.
Proof. unfold bind, encode, lift. destruct (utf8_encode s); reflexivity. Qed.

Lemma bind_decode {B} (r : response) (k : pystr -> M B) (w : world) :
  bind (decode r) k w
  = match utf8_decode (content r) with
    | Some text => k text w
    | None => (Raise (PyErr "UnicodeDecodeError"), w)
    end.
Proof. unfold bind, decode, lift. destruct (utf8_decode (content r)); reflexivity. Qed.

Lemma bind_exchange {B} (rq : request) (k : response -> M B) (w : world) :
  bind (exchange rq) k w
  = let w' := mkWorld (token w) (server w) (S (ncalls w))
                      (trace w ++ [EHttp rq (server w (ncalls w) rq)])
                      (openable w) (files w) (heap w) in
    match server w (ncalls w) rq with
    | Some r => k r w'
    | None => (Raise (PyErr "ConnectionError"), w')
    end.
Proof. unfold bind, exchange. destruct (server w (ncalls w) rq); reflexivity. Qed.

(** Decide the tests on a literal format. *)
Ltac eval_formats :=
  repeat match goal with
  | |- context [is_format (lit ?a) ?b] =>
    let v := eval vm_compute in (is_format (lit a) b) in
    change (is_format (lit a) b) with v
  end; cbn [orb andb negb].

(** *** Computations that leave no event *)

Lemma silent_ret {A} (a : A) : silent (ret a).
Proof. intros w. reflexivity. Qed.

Lemma silent_raise {A} (e : exn) : silent (@raise A e).
Proof. intros w. reflexivity. Qed.

Lemma silent_lift {A} (r : result A) : silent (lift r).
Proof. intros w. reflexivity. Qed.

Lemma silent_bind {A B} (m : M A) (k : A -> M B) :
  silent m -> (forall a, silent (k a)) -> silent (bind m k).
Proof.
  intros Hm Hk w. unfold bind. specialize (Hm w).
  destruct (m w) as [[a|e] w']; simpl in *.
  - rewrite Hk. exact Hm.
  - exact Hm.
Qed.

Lemma silent_try_reraise {A} (m : M A) : silent m -> silent (try_reraise m).
Proof. intros Hm w. rewrite try_reraise_id. apply Hm. Qed.

Lemma silent_getToken : silent getToken.
Proof. intros w. reflexivity. Qed.

Lemma silent_decode (r : response) : silent (decode r).
Proof. apply silent_lift. Qed.

Lemma silent_encode (s : pystr) : silent (encode s).
Proof. apply silent_lift. Qed.

Lemma silent_new_frame (fc : FrameContent) : silent (new_frame fc).
Proof. intros w. reflexivity. Qed.

Lemma silent_frame_index (df : DataFrame) : silent (frame_index df).
Proof. intros w. reflexivity. Qed.

Lemma silent_set_index_name (df : DataFrame) (name : pyval) :
  silent (set_index_name df name).
Proof. intros w. unfold set_index_name. destruct (heap w !! df_index df); reflexivity. Qed.

Lemma silent_frame_content (df : DataFrame) : silent (frame_content df).
Proof.
  apply silent_bind; [apply silent_frame_index | intros; apply silent_ret].
Qed.

Lemma silent_open_wb (name : pystr) : silent (open_wb name).
Proof. intros w. unfold open_wb. destruct (openable w name); reflexivity. Qed.

Lemma silent_file_write (f : pystr) (d : payload) : silent (file_write f d).
Proof. intros w. destruct d; reflexivity. Qed.

Lemma silent_file_close (f : pystr) : silent (file_close f).
Proof. apply silent_ret. Qed.

Lemma silent_read (o : pyobj) : silent (read o).
Proof. destruct o; first [apply silent_ret | apply silent_raise]. Qed.

Lemma silent_when (b : bool) (m : M unit) : silent m -> silent (when b m).
Proof. intros Hm. destruct b; [exact Hm | apply silent_ret]. Qed.

Lemma silent_http_error (what : pystr) (r : response) : silent (http_error what r).
Proof. apply silent_bind; [apply silent_decode | intros; apply silent_ret]. Qed.

Ltac silence :=
  repeat first
    [ apply silent_ret | apply silent_raise | apply silent_lift | apply silent_getToken
    | apply silent_decode | apply silent_encode | apply silent_new_frame
    | apply silent_frame_index | apply silent_set_index_name | apply silent_frame_content
    | apply silent_open_wb | apply silent_file_write | apply silent_file_close
    | apply silent_read | apply silent_http_error
    | apply silent_when | apply silent_try_reraise
    | apply silent_bind; [| intros ?]
    | match goal with
      | |- silent (if ?b then _ else _) => destruct b
      | |- silent (match ?x with _ => _ end) => destruct x
      end ].

(** One exchange followed by steps that leave no event. *)
Lemma exchange_then_silent {A} (rq : request) (k : response -> M A) (w : world) :
  (forall r, silent (k r)) ->
  trace (bind (exchange rq) k w).2 = trace w ++ [EHttp rq (server w (ncalls w) rq)].
Proof.
  intros Hk. unfold bind, exchange.
  destruct (server w (ncalls w) rq) as [r|]; simpl.
  - rewrite Hk. reflexivity.
  - reflexivity.
Qed.

(** *** Computations that let no answer other than 200 pass *)

Lemma clean_nil : clean [].
Proof. intros rq rs []. Qed.

Lemma clean_app (evs1 evs2 : list event) : clean evs1 -> clean evs2 -> clean (evs1 ++ evs2).
Proof.
  intros H1 H2 rq rs Hin. apply in_app_or in Hin as [Hin|Hin]; eauto.
Qed.

Lemma clean_one (e : event) :
  match e with EHttp _ (Some rs) => status_code rs = 200 | _ => True end -> clean [e].
Proof. intros H rq rs [Heq|[]]. subst e. exact H. Qed.

Lemma contains_here (pre sub post : pystr) : contains sub (pre ++ sub ++ post).
Proof. exists pre, post. reflexivity. Qed.

Lemma contains_end (pre sub : pystr) : contains sub (pre ++ sub).
Proof. exists pre, []. now rewrite app_nil_r. Qed.

(** The message of [http_error] shows the status code and the body. *)
Lemma http_error_reports (what text : pystr) (r : response) :
  utf8_decode (content r) = Some text ->
  reports r (Exception (what ++ lit "Http Response from CasJobs API returned status code "
                             ++ str_of_Z (status_code r) ++ lit ":" ++ nl ++ text)).
Proof.
  intros Hd. unfold reports. rewrite Hd.
  eexists. split; [reflexivity | split].
  - rewrite app_assoc. apply contains_here.
  - rewrite !app_assoc. apply contains_end.
Qed.

Lemma raise_http_error {A} (what : pystr) (r : response) (w : world) :
  bind (http_error what r) (fun msg => @raise A (Exception msg)) w
  = match utf8_decode (content r) with
    | Some text =>
      (Raise (Exception (what ++ lit "Http Response from CasJobs API returned status code "
                              ++ str_of_Z (status_code r) ++ lit ":" ++ nl ++ text)), w)
    | None => (Raise (PyErr "UnicodeDecodeError"), w)
    end.
Proof.
  unfold http_error, bind, decode, lift, ret, raise.
  destruct (utf8_decode (content r)); reflexivity.
Qed.

Lemma checked_silent {A} (m : M A) : silent m -> checked m.
Proof.
  intros Hm w. exists []. rewrite app_nil_r. split; [apply Hm | left; apply clean_nil].
Qed.

Lemma checked_print (line : pystr) : checked (print line).
Proof. intros w. exists [EPrint line]. split; [reflexivity | left; now apply clean_one]. Qed.

Lemma checked_time_sleep (seconds : Z) : checked (time_sleep seconds).
Proof. intros w. exists [ESleep seconds]. split; [reflexivity | left; now apply clean_one]. Qed.

Lemma checked_bind {A B} (m : M A) (k : A -> M B) :
  checked m -> (forall a, checked (k a)) -> checked (bind m k).
Proof.
  intros Hm Hk w. unfold bind.
  destruct (Hm w) as (evs1 & Ht1 & H1).
  destruct (m w) as [[a|e] w1]; simpl in *.
  - destruct H1 as [H1 | (? & ? & ? & ? & _ & _ & _ & [=] & _)].
    destruct (Hk a w1) as (evs2 & Ht2 & H2).
    exists (evs1 ++ evs2). split.
    + rewrite Ht2, Ht1. now rewrite app_assoc.
    + destruct H2 as [H2 | (evs0 & rq & rs & e & -> & Hc & Hs & Hr & Hrep)].
      * left. now apply clean_app.
      * right. exists (evs1 ++ evs0), rq, rs, e.
        split; [now rewrite app_assoc | split; [now apply clean_app | auto]].
  - exists evs1. split; [exact Ht1 |].
    destruct H1 as [H1 | (evs0 & rq & rs & e0 & -> & Hc & Hs & [= <-] & Hrep)].
    + now left.
    + right. exists evs0, rq, rs, e. auto.
Qed.

Lemma checked_when (b : bool) (m : M unit) : checked m -> checked (when b m).
Proof. intros Hm. destruct b; [exact Hm | apply checked_silent, silent_ret]. Qed.

Lemma checked_try_reraise {A} (m : M A) : checked m -> checked (try_reraise m).
Proof. intros Hm w. rewrite try_reraise_id. apply Hm. Qed.

(** The pattern of every exchange of the module: send, then raise unless
    the status is 200. *)
Lemma checked_exchange {A} (rq : request) (what : pystr) (k : response -> M A) :
  (forall r, checked (k r)) ->
  checked (bind (exchange rq)
                (fun r => if negb (status_code r =? 200)
                          then bind (http_error what r) (fun msg => raise (Exception msg))
                          else k r)).
Proof.
  intros Hk w. rewrite bind_exchange. cbv zeta.
  set (w1 := mkWorld _ _ _ _ _ _ _).
  destruct (server w (ncalls w) rq) as [r|] eqn:Hs.
  - destruct (status_code r =? 200) eqn:Hc; cbn [negb].
    + apply Z.eqb_eq in Hc.
      destruct (Hk r w1) as (evs2 & Ht2 & H2).
      exists ([EHttp rq (Some r)] ++ evs2). split.
      * rewrite Ht2. subst w1. cbn [trace]. now rewrite <- app_assoc.
      * destruct H2 as [H2 | (evs0 & rq' & rs' & e & -> & Hcl & Hne & Hr & Hrep)].
        -- left. apply clean_app; [now apply clean_one | exact H2].
        -- right. exists ([EHttp rq (Some r)] ++ evs0), rq', rs', e.
           split; [now rewrite app_assoc |].
           split; [apply clean_app; [now apply clean_one | exact Hcl] | auto].
    + apply Z.eqb_neq in Hc.
      exists [EHttp rq (Some r)]. split.
      * rewrite raise_http_error.
        destruct (utf8_decode (content r)); reflexivity.
      * right. exists [], rq, r.
        rewrite raise_http_error.
        destruct (utf8_decode (content r)) as [text|] eqn:Hd.
        -- eexists. split; [reflexivity|]. split; [apply clean_nil|].
           split; [exact Hc|]. split; [reflexivity|].
           now apply http_error_reports.
        -- eexists. split; [reflexivity|]. split; [apply clean_nil|].
           split; [exact Hc|]. split; [reflexivity|].
           unfold reports. now rewrite Hd.
  - exists [EHttp rq None]. split; [reflexivity | left; now apply clean_one].
Qed.

Ltac check :=
  repeat first
    [ apply checked_exchange; intros ?
    | apply checked_print | apply checked_time_sleep
    | apply checked_when | apply checked_try_reraise
    | apply checked_bind; [| intros ?]
    | match goal with
      | |- checked (if ?b then _ else _) => destruct b
      | |- checked (match ?x with _ => _ end) => destruct x
      end
    | solve [apply checked_silent; silence] ].

Section Checked.

Variable cfg : Collaborators.
Variable lib : Library.

Lemma checked_getSchemaName : checked (getSchemaName cfg lib).
Proof. unfold getSchemaName, requests_get. check. Qed.

Lemma checked_getTables context : checked (getTables cfg lib context).
Proof. unfold getTables, requests_get. check. Qed.

Lemma checked_executeQuery sql context format :
  checked (executeQuery cfg lib sql context format).
Proof. unfold executeQuery, requests_post. check. Qed.

Lemma checked_submitJob sql context : checked (submitJob cfg lib sql context).
Proof. unfold submitJob, requests_put. check. Qed.

Lemma checked_getJobStatus jobid : checked (getJobStatus cfg lib jobid).
Proof. unfold getJobStatus, requests_get. check. Qed.

Lemma checked_uploadCSVDataToTable CVSdata tableName context :
  checked (uploadCSVDataToTable cfg CVSdata tableName context).
Proof. unfold uploadCSVDataToTable, requests_post. check. Qed.

End Checked.

Section CheckedOperations.

Variable cfg : Collaborators.
Variable lib : Library.

Lemma checked_waitForJob_turn jobid verbose :
  checked (waitForJob_turn cfg lib jobid verbose).
Proof.
  unfold waitForJob_turn. apply checked_bind; [check | intros _].
  apply checked_bind; [apply checked_getJobStatus | intros jobDesc]. check.
Qed.

Lemma checked_getFitsFileFromQuery fileName queryString context :
  checked (getFitsFileFromQuery cfg lib fileName queryString context).
Proof.
  unfold getFitsFileFromQuery. apply checked_try_reraise.
  apply checked_bind; [apply checked_executeQuery | intros fitsResponse]. check.
Qed.

Lemma checked_getPandasDataFrameFromQuery queryString context index_col :
  checked (getPandasDataFrameFromQuery cfg lib queryString context index_col).
Proof.
  unfold getPandasDataFrameFromQuery. apply checked_try_reraise.
  apply checked_bind; [apply checked_executeQuery | intros cvsResponse]. check.
Qed.

Lemma checked_getNumpyArrayFromQuery queryString context :
  checked (getNumpyArrayFromQuery cfg lib queryString context).
Proof.
  unfold getNumpyArrayFromQuery. apply checked_try_reraise.
  apply checked_bind; [apply checked_getPandasDataFrameFromQuery | intros dataFrame]. check.
Qed.

Lemma checked_uploadPandasDataFrameToTable dataFrame tableName context :
  checked (uploadPandasDataFrameToTable cfg lib dataFrame tableName context).
Proof.
  unfold uploadPandasDataFrameToTable. apply checked_try_reraise.
  apply checked_bind; [check | intros ix].
  apply checked_bind; [check | intros _].
  apply checked_bind; [check | intros fc].
  apply checked_bind; [check | intros sio].
  apply checked_uploadCSVDataToTable.
Qed.

Lemma checked_outcome_after {A} (w w1 : world) (evs1 : list event) (o : outcome A) :
  trace w1 = trace w ++ evs1 -> clean evs1 ->
  checked_outcome w1 o -> checked_outcome w o.
Proof.
  intros Ht1 Hc1 (evs2 & Ht2 & H2). exists (evs1 ++ evs2). split.
  - rewrite Ht2, Ht1. now rewrite app_assoc.
  - destruct H2 as [H2 | (evs0 & rq & rs & e & -> & Hc & Hs & Hr & Hrep)].
    + left. now apply clean_app.
    + right. exists (evs1 ++ evs0), rq, rs, e.
      split; [now rewrite app_assoc | split; [now apply clean_app | auto]].
Qed.

Lemma checked_outcome_Done {A} (m : M A) (w : world) :
  checked m -> checked_outcome w (Done (m w).1 (m w).2).
Proof.
  intros Hm. destruct (Hm w) as (evs & Ht & H). exists evs. split; [exact Ht|].
  destruct H as [H | (evs0 & rq & rs & e & -> & Hc & Hs & Hr & Hrep)].
  - now left.
  - right. exists evs0, rq, rs, e. simpl. rewrite Hr. auto.
Qed.

Lemma checked_waitForJob_loop fuel jobid verbose w :
  checked_outcome w (waitForJob_loop cfg lib fuel jobid verbose w).
Proof.
  revert w. induction fuel as [|fuel IH]; intros w; simpl.
  - exists []. rewrite app_nil_r. split; [reflexivity | left; apply clean_nil].
  - pose proof (checked_outcome_Done _ w (checked_waitForJob_turn jobid verbose)) as H.
    destruct (waitForJob_turn cfg lib jobid verbose w) as [[[[|] jobDesc]|e] w1]; simpl in H.
    + destruct H as (evs & Ht & [H | (? & ? & ? & ? & _ & _ & _ & [=] & _)]).
      exists evs. split; [exact Ht | now left].
    + destruct H as (evs & Ht & [H | (? & ? & ? & ? & _ & _ & _ & [=] & _)]).
      apply (checked_outcome_after w w1 evs); auto.
    + destruct H as (evs & Ht & H). exists evs. split; [exact Ht|].
      destruct H as [H | (evs0 & rq & rs & e0 & -> & Hc & Hs & [= <-] & Hrep)].
      * now left.
      * right. exists evs0, rq, rs, e. auto.
Qed.

Lemma checked_waitForJob fuel jobid verbose w :
  checked_outcome w (waitForJob cfg lib fuel jobid verbose w).
Proof.
  unfold waitForJob. destruct verbose; simpl.
  - unfold print, emit. eapply checked_outcome_after; [| | apply checked_waitForJob_loop].
    + reflexivity.
    + now apply clean_one.
  - apply checked_waitForJob_loop.
Qed.

Lemma checked_returning {A} (f : A -> pyobj) (m : M A) (w : world) :
  checked m -> checked_outcome w (returning f m w).
Proof.
  intros Hm. pose proof (checked_outcome_Done m w Hm) as (evs & Ht & H).
  unfold returning. destruct (m w) as [[a|e] w1]; simpl in *.
  - exists evs. split; [exact Ht|].
    destruct H as [H | (? & ? & ? & ? & _ & _ & _ & [=] & _)]. now left.
  - exists evs. split; [exact Ht|].
    destruct H as [H | (evs0 & rq & rs & e0 & -> & Hc & Hs & [= <-] & Hrep)].
    + now left.
    + right. exists evs0, rq, rs, e. auto.
Qed.

Lemma checked_run fuel op w : checked_outcome w (run cfg lib fuel op w).
Proof.
  destruct op; simpl;
    try (apply checked_returning;
         first [ apply checked_getSchemaName | apply checked_getTables
               | apply checked_executeQuery | apply checked_submitJob
               | apply checked_getJobStatus | apply checked_getFitsFileFromQuery
               | apply checked_getPandasDataFrameFromQuery
               | apply checked_getNumpyArrayFromQuery
               | apply checked_uploadPandasDataFrameToTable
               | apply checked_uploadCSVDataToTable ]).
  pose proof (checked_waitForJob fuel jobid verbose w) as (evs & Ht & H).
  destruct (waitForJob cfg lib fuel jobid verbose w) as [[v|e] w1|w1]; simpl in *;
    exists evs; (split; [exact Ht|]).
  - destruct H as [H | (? & ? & ? & ? & _ & _ & _ & [=] & _)]. now left.
  - destruct H as [H | (evs0 & rq & rs & e0 & -> & Hc & Hs & [= <-] & Hrep)].
    + now left.
    + right. exists evs0, rq, rs, e. auto.
  - destruct H as [H | (? & ? & ? & ? & _ & _ & _ & [=] & _)]. now left.
Qed.

End CheckedOperations.

(* ------------------------------------------------------------------ *)
(** ** The model on known values *)
(* ------------------------------------------------------------------ *)

Example utf8_decode_two_bytes : utf8_decode [xc3; xa9] = Some [0xE9%N].
Proof. reflexivity. Qed.

Example utf8_decode_invalid_start : utf8_decode [xff] = None.
Proof. reflexivity. Qed.

Example utf8_decode_overlong : utf8_decode [xc0; x80] = None.
Proof. reflexivity. Qed.

Example utf8_decode_surrogate : utf8_decode [xed; xa0; x80] = None.
Proof. reflexivity. Qed.

Example utf8_encode_euro : utf8_encode [0x20AC%N] = Some [xe2; x82; xac].
Proof. reflexivity. Qed.

Example utf8_round_trip :
  utf8_encode [0x20AC%N; 0x1F600%N; 0xE9%N; 65%N] ≫= utf8_decode
  = Some [0x20AC%N; 0x1F600%N; 0xE9%N; 65%N].
Proof. vm_compute. reflexivity. Qed.

Example str_of_Z_values :
  str_of_Z 0 = lit "0" /\ str_of_Z 404 = lit "404" /\ str_of_Z (-12) = lit "-12".
Proof. repeat split. Qed.

Example back_is_ten_backspaces : back = replicate 10 8%N.
Proof. reflexivity. Qed.

(** The message of [getTables] for an answer 404 with the body
    [no such table]. *)
Example getTables_not_found :
  (getTables Mock.cfg Mock.lib (lit "MyDB")
             (Mock.start (Some (lit "t")) (Mock.always Mock.not_found))).1
  = Raise (Exception
             (lit "Error when getting table description from database context MyDB."
                ++ nl
                ++ lit "Http Response from CasJobs API returned status code 404:"
                ++ nl ++ lit "no such table")).
Proof. vm_compute. reflexivity. Qed.

(** The sequence 1, 2, 2, 4 of statuses: four polls, three sleeps. *)
Example waitForJob_four_polls :
  quiet (trace (final (waitForJob Mock.cfg Mock.lib 10 (VInt 7) false
                                  (Mock.start (Some (lit "t")) Mock.job_service))))
  = polling (status_request Mock.cfg Mock.lib (lit "t") (VInt 7)) Mock.job_answer 3.
Proof. vm_compute. reflexivity. Qed.

(* ------------------------------------------------------------------ *)
(** ** The format is checked before anything is sent *)
(* ------------------------------------------------------------------ *)

(** C4. For every sql string, context and world, [executeQuery] called with
    a format outside pandas, csv, readable, fits, json raises the illegal
    format exception and leaves the world as it was: nothing was sent. *)
Theorem executeQuery_illegal_format
  (cfg : Collaborators) (lib : Library) (sql context format : pystr) (w : world) :
  ~ In format formats ->
  executeQuery cfg lib sql context format w = (Raise (illegal_format format), w).
Proof.
  intros H. unfold formats in H. simpl in H.
  unfold executeQuery, is_format.
  repeat (rewrite bool_decide_eq_false_2 by (intros ->; tauto)).
  reflexivity.
Qed.

Lemma executeQuery_illegal_format_witness :
  executeQuery Mock.cfg Mock.lib (lit "select 1") (lit "MyDB") (lit "xml")
               (Mock.start (Some (lit "t")) (Mock.always (mkResponse 200 [])))
  = (Raise (illegal_format (lit "xml")),
     Mock.start (Some (lit "t")) (Mock.always (mkResponse 200 []))).
Proof.
  apply (executeQuery_illegal_format Mock.cfg Mock.lib).
  vm_compute. intuition discriminate.
Defined.

(* ------------------------------------------------------------------ *)
(** ** Without a token *)
(* ------------------------------------------------------------------ *)

(** With a missing or empty token, [getSchemaName], [getTables],
    [submitJob], [getJobStatus] and [uploadCSVDataToTable] raise the
    not-logged-in exception and leave the world as it was: nothing was
    sent. *)
Lemma token_tested (cfg : Collaborators) (lib : Library) (fuel : nat) (w : world)
  (op : operation) :
  token w = None \/ token w = Some [] ->
  checks_token op = true ->
  run cfg lib fuel op w = Done (Raise not_logged_in) w.
Proof.
  intros Htok Hop. apply defined_false in Htok.
  destruct op; try discriminate; simpl;
    unfold getSchemaName, getTables, submitJob, getJobStatus, uploadCSVDataToTable;
    unfold_py; rewrite Htok; destruct (token w); reflexivity.
Qed.

Example getTables_without_token :
  run Mock.cfg Mock.lib 0 (GetTables (lit "MyDB"))
      (Mock.start None (Mock.always (Mock.text_response 200 (lit "1"))))
  = Done (Raise not_logged_in)
         (Mock.start None (Mock.always (Mock.text_response 200 (lit "1")))).
Proof. apply token_tested; [left|]; reflexivity. Qed.

(** C1 fails on the code, for [executeQuery]. Without a token and with the
    format csv, against a service that answers 200 with the body [1],
    [executeQuery] does not raise the not-logged-in exception that the claim
    and its own docstring announce and that the other five operations
    raise: it sends its request and returns the body, after one exchange. *)
Theorem executeQuery_runs_without_token :
  authenticated (ExecuteQuery (lit "select 1") (lit "MyDB") (lit "csv")) = true
  /\ token (Mock.start None (Mock.always (Mock.text_response 200 (lit "1")))) = None
  /\ result_of (run Mock.cfg Mock.lib 0
                    (ExecuteQuery (lit "select 1") (lit "MyDB") (lit "csv"))
                    (Mock.start None (Mock.always (Mock.text_response 200 (lit "1")))))
     = Some (Ok (OVal (VStr (lit "1"))))
  /\ ncalls (final (run Mock.cfg Mock.lib 0
                        (ExecuteQuery (lit "select 1") (lit "MyDB") (lit "csv"))
                        (Mock.start None (Mock.always (Mock.text_response 200 (lit "1"))))))
     = 1%nat.
Proof. vm_compute. repeat split. Qed.

(* ------------------------------------------------------------------ *)
(** ** An answer other than 200 *)
(* ------------------------------------------------------------------ *)

(** C5, as stated, fails when the body of the answer is not UTF-8 text.
    [getTables], answered 404 with the single byte [0xff] as body, has one
    exchange, answered with a status other than 200, and raises the
    [UnicodeDecodeError] of [content.decode()]: no exception of the module
    with a message is raised, so nothing shows the status code 404. *)
Lemma non_200_undecodable_body :
  trace (final (run Mock.cfg Mock.lib 0 (GetTables (lit "MyDB"))
                    (Mock.start (Some (lit "t")) (Mock.always (Mock.garbled 404)))))
  = [EHttp Mock.tables_request (Some (Mock.garbled 404))]
  /\ status_code (Mock.garbled 404) <> 200
  /\ result_of (run Mock.cfg Mock.lib 0 (GetTables (lit "MyDB"))
                    (Mock.start (Some (lit "t")) (Mock.always (Mock.garbled 404))))
     = Some (Raise (PyErr "UnicodeDecodeError"))
  /\ ~ (exists msg,
          result_of (run Mock.cfg Mock.lib 0 (GetTables (lit "MyDB"))
                         (Mock.start (Some (lit "t")) (Mock.always (Mock.garbled 404))))
          = Some (Raise (Exception msg))
          /\ contains (str_of_Z 404) msg).
Proof.
  split; [vm_compute; reflexivity |].
  split; [vm_compute; discriminate |].
  split; [vm_compute; reflexivity |].
  intros (msg & H & _). vm_compute in H. discriminate.
Qed.

(** C5, amended. For every operation of the module and every world: if,
    among the events the operation has added so far, an exchange was
    answered with a status other than 200, then the operation has ended by
    raising.  When the body of that answer is UTF-8 text, what it raised is
    the module's own exception with a message that contains the decimal
    status code and the text of the body; when the body is not UTF-8 text,
    what it raised is the [UnicodeDecodeError] of decoding it. *)
Theorem non_200_fails
  (cfg : Collaborators) (lib : Library) (fuel : nat) (op : operation) (w : world)
  (evs : list event) (rq : request) (rs : response) :
  trace (final (run cfg lib fuel op w)) = trace w ++ evs ->
  In (EHttp rq (Some rs)) evs ->
  status_code rs <> 200 ->
  exists e,
    result_of (run cfg lib fuel op w) = Some (Raise e)
    /\ (forall text, utf8_decode (content rs) = Some text ->
          exists msg, e = Exception msg
                      /\ contains (str_of_Z (status_code rs)) msg
                      /\ contains text msg)
    /\ (utf8_decode (content rs) = None -> e = PyErr "UnicodeDecodeError").
Proof.
  intros Ht Hin Hne.
  destruct (checked_run cfg lib fuel op w) as (evs' & Ht' & H).
  rewrite Ht in Ht'. apply app_inv_head in Ht'. subst evs'.
  destruct H as [H | (evs0 & rq' & rs' & e & -> & Hc & Hs & Hr & Hrep)].
  - exfalso. apply Hne. eapply H. exact Hin.
  - apply in_app_or in Hin as [Hin | [Heq | []]].
    + exfalso. apply Hne. eapply Hc. exact Hin.
    + injection Heq as <- <-. exists e. split; [exact Hr |].
      unfold reports in Hrep.
      destruct (utf8_decode (content rs')) as [text|].
      * split; [intros text' [= <-]; exact Hrep | discriminate].
      * split; [discriminate | intros _; exact Hrep].
Qed.

Lemma non_200_fails_witness :
  exists e,
    result_of (run Mock.cfg Mock.lib 0 (GetTables (lit "MyDB"))
                   (Mock.start (Some (lit "t")) (Mock.always Mock.not_found)))
    = Some (Raise e)
    /\ (forall text, utf8_decode (content Mock.not_found) = Some text ->
          exists msg, e = Exception msg
                      /\ contains (str_of_Z (status_code Mock.not_found)) msg
                      /\ contains text msg)
    /\ (utf8_decode (content Mock.not_found) = None -> e = PyErr "UnicodeDecodeError").
Proof.
  apply (non_200_fails Mock.cfg Mock.lib 0 (GetTables (lit "MyDB"))
           (Mock.start (Some (lit "t")) (Mock.always Mock.not_found))
           [EHttp Mock.tables_request (Some Mock.not_found)]
           Mock.tables_request Mock.not_found).
  - vm_compute. reflexivity.
  - left. reflexivity.
  - vm_compute. discriminate.
Defined.

(* ------------------------------------------------------------------ *)
(** ** Waiting for a job *)
(* ------------------------------------------------------------------ *)

Lemma quiet_app (evs1 evs2 : list event) : quiet (evs1 ++ evs2) = quiet evs1 ++ quiet evs2.
Proof. unfold quiet. now rewrite List.filter_app. Qed.

Lemma same_but_prints_refl (w : world) : same_but_prints w w.
Proof. repeat split. Qed.

Lemma related_ret {A} (a : A) : related (ret a) (ret a).
Proof. intros w1 w2 H. split; [reflexivity | exact H]. Qed.

Lemma related_raise {A} (e : exn) : related (@raise A e) (raise e).
Proof. intros w1 w2 H. split; [reflexivity | exact H]. Qed.

Lemma related_lift {A} (r : result A) : related (lift r) (lift r).
Proof. intros w1 w2 H. split; [reflexivity | exact H]. Qed.

Lemma related_bind {A B} (m1 m2 : M A) (k1 k2 : A -> M B) :
  related m1 m2 -> (forall a, related (k1 a) (k2 a)) -> related (bind m1 k1) (bind m2 k2).
Proof.
  intros Hm Hk w1 w2 H. unfold bind. destruct (Hm w1 w2 H) as [Hr Hw].
  destruct (m1 w1) as [r1 w1'], (m2 w2) as [r2 w2']. simpl in Hr, Hw. subst r2.
  destruct r1 as [a|e]; [apply Hk; exact Hw | split; [reflexivity | exact Hw]].
Qed.

Lemma related_emit (e : event) : related (emit e) (emit e).
Proof.
  intros w1 w2 (Ht & Hs & Hn & Hq & Ho & Hf & Hh). split; [reflexivity|].
  unfold emit, same_but_prints. simpl. rewrite !quiet_app, Hq. auto 10.
Qed.

(** A printed line on one side only. *)
Lemma related_print_left (line : pystr) : related (print line) (ret tt).
Proof.
  intros w1 w2 (Ht & Hs & Hn & Hq & Ho & Hf & Hh). split; [reflexivity|].
  unfold print, emit, ret, same_but_prints. simpl.
  rewrite quiet_app. simpl. rewrite app_nil_r. auto 10.
Qed.

Lemma related_prints_left (l1 l2 : pystr) : related (print l1 ;;; print l2) (ret tt).
Proof.
  change (@ret unit tt) with (ret tt ;;; @ret unit tt).
  apply related_bind; [apply related_print_left | intros _; apply related_print_left].
Qed.

Lemma related_getToken : related getToken getToken.
Proof.
  intros w1 w2 H. split; [| exact H].
  unfold getToken. simpl. destruct H as [-> _]. reflexivity.
Qed.

Lemma related_exchange (rq : request) : related (exchange rq) (exchange rq).
Proof.
  intros w1 w2 (Ht & Hs & Hn & Hq & Ho & Hf & Hh).
  unfold exchange, same_but_prints. simpl. rewrite Hs, Hn.
  split; [reflexivity|]. rewrite !quiet_app, Hq. auto 10.
Qed.

Ltac relate :=
  repeat first
    [ apply related_ret | apply related_raise | apply related_lift | apply related_getToken
    | apply related_exchange | apply related_emit
    | apply related_bind; [| intros ?]
    | match goal with
      | |- related (if ?b then _ else _) (if ?b then _ else _) => destruct b
      | |- related (match ?x with _ => _ end) (match ?x with _ => _ end) => destruct x
      end ].

Section Waiting.

Variable cfg : Collaborators.
Variable lib : Library.

Lemma related_getJobStatus jobid :
  related (getJobStatus cfg lib jobid) (getJobStatus cfg lib jobid).
Proof.
  unfold getJobStatus, requests_get, http_error, decode. relate.
Qed.

Lemma related_waitForJob_turn jobid :
  related (waitForJob_turn cfg lib jobid true) (waitForJob_turn cfg lib jobid false).
Proof.
  unfold waitForJob_turn, when.
  apply related_bind; [apply related_prints_left | intros _].
  apply related_bind; [apply related_getJobStatus | intros jobDesc].
  apply related_bind; [apply related_lift | intros status].
  apply related_bind; [apply related_lift | intros jobStatus].
  destruct (terminal jobStatus).
  - apply related_bind; [apply related_prints_left | intros _; apply related_ret].
  - unfold time_sleep. relate.
Qed.

Lemma waitForJob_loop_verbose fuel jobid w1 w2 :
  same_but_prints w1 w2 ->
  result_of (waitForJob_loop cfg lib fuel jobid true w1)
  = result_of (waitForJob_loop cfg lib fuel jobid false w2)
  /\ same_but_prints (final (waitForJob_loop cfg lib fuel jobid true w1))
                     (final (waitForJob_loop cfg lib fuel jobid false w2)).
Proof.
  revert w1 w2. induction fuel as [|fuel IH]; intros w1 w2 H; simpl.
  - split; [reflexivity | exact H].
  - destruct (related_waitForJob_turn jobid w1 w2 H) as [Hr Hw].
    destruct (waitForJob_turn cfg lib jobid true w1) as [r1 w1'],
             (waitForJob_turn cfg lib jobid false w2) as [r2 w2'].
    simpl in Hr, Hw. subst r2.
    destruct r1 as [[[|] jobDesc]|e]; simpl; auto.
Qed.

Lemma waitForJob_verbose fuel jobid w :
  result_of (waitForJob cfg lib fuel jobid true w)
  = result_of (waitForJob cfg lib fuel jobid false w)
  /\ same_but_prints (final (waitForJob cfg lib fuel jobid true w))
                     (final (waitForJob cfg lib fuel jobid false w)).
Proof.
  unfold waitForJob. simpl. apply waitForJob_loop_verbose.
  apply (related_print_left waitingStr w w (same_but_prints_refl w)).
Qed.

End Waiting.

(** C8. For every job id, world and number of turns, [waitForJob] gives the
    same result with [verbose=True] as with [verbose=False] (the same value
    returned, the same exception raised, or both still running), and the two
    runs differ at most in the lines printed: they make the same exchanges
    and the same sleeps, in the same order. *)
Theorem waitForJob_verbose_same_result
  (cfg : Collaborators) (lib : Library) (fuel : nat) (jobid : pyval) (w : world) :
  result_of (waitForJob cfg lib fuel jobid true w)
  = result_of (waitForJob cfg lib fuel jobid false w)
  /\ quiet (trace (final (waitForJob cfg lib fuel jobid true w)))
     = quiet (trace (final (waitForJob cfg lib fuel jobid false w))).
Proof.
  destruct (waitForJob_verbose cfg lib fuel jobid w) as [Hr Hw].
  split; [exact Hr | apply Hw].
Qed.

Lemma advance_advance (w : world) (c1 c2 : nat) (evs1 evs2 : list event) :
  advance (advance w c1 evs1) c2 evs2 = advance w (c1 + c2) (evs1 ++ evs2).
Proof.
  unfold advance. simpl. f_equal; [lia | now rewrite app_assoc].
Qed.

Lemma flat_map_seq_shift {A} (f : nat -> list A) (a n : nat) :
  flat_map f (seq (S a) n) = flat_map (fun k => f (S k)) (seq a n).
Proof.
  revert a. induction n as [|n IH]; intros a; [reflexivity|].
  cbn [seq flat_map]. now rewrite IH.
Qed.

Lemma polling_S (rq : request) (rss : nat -> response) (n : nat) :
  polling rq rss (S n)
  = [EHttp rq (Some (rss 0%nat)); ESleep 2] ++ polling rq (fun k => rss (S k)) n.
Proof.
  unfold polling. cbn [seq flat_map]. rewrite flat_map_seq_shift.
  now rewrite <- !app_assoc.
Qed.

Lemma quiet_polling (rq : request) (rss : nat -> response) (n : nat) :
  quiet (polling rq rss n) = polling rq rss n.
Proof.
  revert rss. induction n as [|n IH]; intros rss; [reflexivity|].
  rewrite polling_S, quiet_app, IH. reflexivity.
Qed.

Section Polling.

Variable cfg : Collaborators.
Variable lib : Library.

(** A poll that is answered with a status record. *)
Lemma getJobStatus_polled jobid w t rs rec s :
  token w = Some t -> t <> [] ->
  polled cfg lib w t jobid 0 rs rec s ->
  getJobStatus cfg lib jobid w
  = (Ok rec, advance w 1 [EHttp (status_request cfg lib t jobid) (Some rs)]).
Proof.
  intros Htok Hne (Hsrv & Hcode & (text & Hdec & Hload) & _).
  rewrite Nat.add_0_r in Hsrv.
  unfold getJobStatus. rewrite bind_getToken, Htok.
  replace (defined (Some t)) with true
    by (symmetry; apply defined_true; eauto).
  unfold requests_get. fold (status_request cfg lib t jobid).
  rewrite bind_exchange, Hsrv. cbv zeta. rewrite Hcode. cbn [Z.eqb Pos.eqb negb].
  rewrite bind_decode, Hdec. unfold lift. rewrite Hload.
  unfold advance. now rewrite Nat.add_1_r.
Qed.

Lemma waitForJob_turn_polled jobid w t rs rec s :
  token w = Some t -> t <> [] ->
  polled cfg lib w t jobid 0 rs rec s ->
  waitForJob_turn cfg lib jobid false w
  = (Ok (terminal s, rec),
     advance w 1 (EHttp (status_request cfg lib t jobid) (Some rs)
                    :: if terminal s then [] else [ESleep 2])).
Proof.
  intros Htok Hne Hp.
  pose proof (getJobStatus_polled jobid w t rs rec s Htok Hne Hp) as Hg.
  destruct Hp as (_ & _ & _ & Hst). unfold status_of in Hst.
  unfold waitForJob_turn, when. rewrite bind_ret.
  unfold bind at 1. rewrite Hg.
  destruct (getitem rec (lit "Status")) as [status|e]; [|discriminate].
  rewrite bind_lift_ok. rewrite Hst, bind_lift_ok.
  destruct (terminal s).
  - reflexivity.
  - unfold time_sleep, emit, bind, ret, advance. simpl.
    now rewrite <- app_assoc.
Qed.

Lemma polled_advance jobid w t k rs rec s evs :
  polled cfg lib (advance w 1 evs) t jobid k rs rec s
  <-> polled cfg lib w t jobid (S k) rs rec s.
Proof.
  unfold polled, advance. simpl.
  replace (ncalls w + 1 + k)%nat with (ncalls w + S k)%nat by lia. reflexivity.
Qed.

(** The loop without progress lines, on polls of which the [n]-th is the
    first with a terminal status. *)
Lemma waitForJob_loop_polled jobid t n :
  forall w rss recs sts,
    token w = Some t -> t <> [] ->
    (forall k, (k <= n)%nat -> polled cfg lib w t jobid k (rss k) (recs k) (sts k)) ->
    terminal (sts n) = true ->
    (forall k, (k < n)%nat -> terminal (sts k) = false) ->
    forall fuel,
      waitForJob_loop cfg lib fuel jobid false w
      = if decide (n < fuel)%nat
        then Done (Ok (recs n))
                  (advance w (S n) (polling (status_request cfg lib t jobid) rss n))
        else Running (advance w fuel
                        (flat_map (fun k => [EHttp (status_request cfg lib t jobid)
                                                   (Some (rss k)); ESleep 2])
                                  (seq 0 fuel))).
Proof.
  induction n as [|n IH]; intros w rss recs sts Htok Hne Hp Hterm Hnot fuel.
  - destruct fuel as [|fuel]; simpl.
    + unfold advance. rewrite Nat.add_0_r, app_nil_r. now destruct w.
    + rewrite (waitForJob_turn_polled jobid w t (rss 0%nat) (recs 0%nat) (sts 0%nat))
        by auto.
      rewrite Hterm. destruct (decide (0 < S fuel)%nat); [reflexivity | lia].
  - destruct fuel as [|fuel].
    + simpl. unfold advance. rewrite Nat.add_0_r, app_nil_r. now destruct w.
    + cbn [waitForJob_loop].
      rewrite (waitForJob_turn_polled jobid w t (rss 0%nat) (recs 0%nat) (sts 0%nat))
        by (auto; apply Hp; lia).
      rewrite (Hnot 0%nat) by lia.
      rewrite (IH _ (fun k => rss (S k)) (fun k => recs (S k)) (fun k => sts (S k)));
        try assumption.
      * rewrite !advance_advance.
        destruct (decide (n < fuel)%nat), (decide (S n < S fuel)%nat); try lia.
        -- now rewrite polling_S.
        -- cbn [seq flat_map]. now rewrite flat_map_seq_shift.
      * intros k Hk. apply polled_advance. apply Hp. lia.
      * intros k Hk. apply Hnot. lia.
Qed.

(** The loop on polls none of which has a terminal status. *)
Lemma waitForJob_loop_pending jobid t :
  forall fuel w rss recs sts,
    token w = Some t -> t <> [] ->
    (forall k, polled cfg lib w t jobid k (rss k) (recs k) (sts k)) ->
    (forall k, terminal (sts k) = false) ->
    waitForJob_loop cfg lib fuel jobid false w
    = Running (advance w fuel
                 (flat_map (fun k => [EHttp (status_request cfg lib t jobid)
                                            (Some (rss k)); ESleep 2])
                           (seq 0 fuel))).
Proof.
  induction fuel as [|fuel IH]; intros w rss recs sts Htok Hne Hp Hnot.
  - simpl. unfold advance. rewrite Nat.add_0_r, app_nil_r. now destruct w.
  - cbn [waitForJob_loop].
    rewrite (waitForJob_turn_polled jobid w t (rss 0%nat) (recs 0%nat) (sts 0%nat))
      by auto.
    rewrite Hnot.
    rewrite (IH _ (fun k => rss (S k)) (fun k => recs (S k)) (fun k => sts (S k)));
      try assumption.
    + rewrite !advance_advance. cbn [seq flat_map]. now rewrite flat_map_seq_shift.
    + intros k. apply polled_advance. apply Hp.
    + intros k. apply Hnot.
Qed.

End Polling.

(** C3. Take a logged-in world and polls that are answered with status
    records [recs 0], [recs 1], ... whose statuses are [sts 0], [sts 1], ...
    If the [n]-th poll is the first whose status is 3, 4 or 5, then
    [waitForJob] returns [recs n] as soon as it is given more than [n] turns
    and is still running with [n] turns or fewer; by then it has made [n + 1]
    exchanges, and apart from printed lines its events are the [n] polls
    that were not final, each followed by a sleep of 2 seconds, and the
    final poll.  If no poll has such a status, [waitForJob] is still running
    after any number of turns.  This holds for either value of [verbose]. *)
Theorem waitForJob_first_terminal
  (cfg : Collaborators) (lib : Library) (jobid : pyval) (verbose : bool) (w : world)
  (t : pystr) (rss : nat -> response) (recs : nat -> pyval) (sts : nat -> Z) :
  token w = Some t -> t <> [] ->
  (forall n,
     (forall k, (k <= n)%nat -> polled cfg lib w t jobid k (rss k) (recs k) (sts k)) ->
     terminal (sts n) = true ->
     (forall k, (k < n)%nat -> terminal (sts k) = false) ->
     forall fuel,
       ((n < fuel)%nat ->
        result_of (waitForJob cfg lib fuel jobid verbose w) = Some (Ok (recs n))
        /\ ncalls (final (waitForJob cfg lib fuel jobid verbose w)) = (ncalls w + S n)%nat
        /\ quiet (trace (final (waitForJob cfg lib fuel jobid verbose w)))
           = quiet (trace w) ++ polling (status_request cfg lib t jobid) rss n)
       /\ ((fuel <= n)%nat ->
           result_of (waitForJob cfg lib fuel jobid verbose w) = None))
  /\ ((forall k, polled cfg lib w t jobid k (rss k) (recs k) (sts k)) ->
      (forall k, terminal (sts k) = false) ->
      forall fuel, result_of (waitForJob cfg lib fuel jobid verbose w) = None).
Proof.
  intros Htok Hne.
  assert (Hv : forall fuel,
             result_of (waitForJob cfg lib fuel jobid verbose w)
             = result_of (waitForJob_loop cfg lib fuel jobid false w)
             /\ same_but_prints (final (waitForJob cfg lib fuel jobid verbose w))
                                (final (waitForJob_loop cfg lib fuel jobid false w))).
  { intros fuel. destruct verbose.
    - apply waitForJob_verbose.
    - split; [reflexivity | apply same_but_prints_refl]. }
  split.
  - intros n Hp Hterm Hnot fuel.
    destruct (Hv fuel) as [Hr (_ & _ & Hn & Hq & _)].
    rewrite Hr, Hn, Hq.
    rewrite (waitForJob_loop_polled cfg lib jobid t n w rss recs sts) by assumption.
    split; intros Hfuel.
    + destruct (decide (n < fuel)%nat); [|lia]. simpl.
      rewrite quiet_app, quiet_polling. auto.
    + destruct (decide (n < fuel)%nat); [lia|]. reflexivity.
  - intros Hp Hnot fuel. destruct (Hv fuel) as [-> _].
    now rewrite (waitForJob_loop_pending cfg lib jobid t fuel w rss recs sts).
Qed.

Lemma waitForJob_first_terminal_witness :
  (result_of (waitForJob Mock.cfg Mock.lib 4 (VInt 7) true
                         (Mock.start (Some (lit "t")) Mock.job_service))
   = Some (Ok (VDict [(lit "Status", VInt 4)]))
   /\ ncalls (final (waitForJob Mock.cfg Mock.lib 4 (VInt 7) true
                                (Mock.start (Some (lit "t")) Mock.job_service)))
      = 4%nat)
  /\ result_of (waitForJob Mock.cfg Mock.lib 3 (VInt 7) true
                           (Mock.start (Some (lit "t")) Mock.job_service))
     = None
  /\ result_of (waitForJob Mock.cfg Mock.lib 50 (VInt 7) true
                           (Mock.start (Some (lit "t")) Mock.pending_service))
     = None.
Proof.
  assert (Hne : lit "t" <> []) by discriminate.
  destruct (waitForJob_first_terminal Mock.cfg Mock.lib (VInt 7) true
              (Mock.start (Some (lit "t")) Mock.job_service) (lit "t")
              Mock.job_answer Mock.job_record Mock.job_status eq_refl Hne) as [Hfirst _].
  destruct (waitForJob_first_terminal Mock.cfg Mock.lib (VInt 7) true
              (Mock.start (Some (lit "t")) Mock.pending_service) (lit "t")
              (fun _ => Mock.status_response 1)
              (fun _ => VDict [(lit "Status", VInt 1)]) (fun _ => 1) eq_refl Hne)
    as [_ Hnever].
  assert (Hp : forall k, (k <= 3)%nat ->
             polled Mock.cfg Mock.lib (Mock.start (Some (lit "t")) Mock.job_service)
                    (lit "t") (VInt 7) k
                    (Mock.job_answer k) (Mock.job_record k) (Mock.job_status k)).
  { intros k Hk.
    destruct k as [|[|[|[|k]]]]; [| | | | lia];
      (split; [reflexivity | split; [reflexivity | split; [| reflexivity]]]);
      eexists; (split; [vm_compute; reflexivity | vm_compute; reflexivity]). }
  assert (Hnot : forall k, (k < 3)%nat -> terminal (Mock.job_status k) = false).
  { intros k Hk. destruct k as [|[|[|k]]]; [reflexivity .. | lia]. }
  split; [| split].
  - destruct (Hfirst 3%nat Hp eq_refl Hnot 4%nat) as [H _].
    destruct H as (Hr & Hn & _); [lia|]. split; [exact Hr | exact Hn].
  - destruct (Hfirst 3%nat Hp eq_refl Hnot 3%nat) as [_ H]. apply H. lia.
  - apply Hnever.
    + intros k. split; [reflexivity | split; [reflexivity | split; [| reflexivity]]].
      eexists; (split; [vm_compute; reflexivity | vm_compute; reflexivity]).
    + intros k. reflexivity.
Defined.

(* ------------------------------------------------------------------ *)
(** ** The schema name *)
(* ------------------------------------------------------------------ *)

(** C9, as stated, fails when the body of the answer is not UTF-8 text.
    [getSchemaName], with the token [t] and a profile endpoint that answers
    500 with the single byte [0xff] as body, sends its one request and
    raises the [UnicodeDecodeError] of [content.decode()]: what it raises
    carries neither the status nor the body. *)
Lemma getSchemaName_undecodable_body :
  server (Mock.start (Some (lit "t")) (Mock.always (Mock.garbled 500))) 0
         (profile_request Mock.cfg (lit "t") (lit "u7"))
  = Some (Mock.garbled 500)
  /\ status_code (Mock.garbled 500) <> 200
  /\ getSchemaName Mock.cfg Mock.lib
                    (Mock.start (Some (lit "t")) (Mock.always (Mock.garbled 500)))
     = (Raise (PyErr "UnicodeDecodeError"),
        advance (Mock.start (Some (lit "t")) (Mock.always (Mock.garbled 500))) 1
                [EHttp (profile_request Mock.cfg (lit "t") (lit "u7"))
                       (Some (Mock.garbled 500))])
  /\ ~ (exists msg,
          (getSchemaName Mock.cfg Mock.lib
                         (Mock.start (Some (lit "t")) (Mock.always (Mock.garbled 500)))).1
          = Raise (Exception msg)
          /\ contains (str_of_Z 500) msg).
Proof.
  split; [reflexivity |].
  split; [vm_compute; discriminate |].
  split; [vm_compute; reflexivity |].
  intros (msg & H & _). vm_compute in H. discriminate.
Qed.

(** C9, amended. [getSchemaName] in a world [w]:
    - without a token, or with the empty one, it raises the not-logged-in
      exception and nothing is sent;
    - with a token for which the identity is resolved, if the profile
      endpoint answers with a status other than 200 it raises: when the body
      is UTF-8 text, the module's own exception with the decimal status code
      and the body in its message; when the body is not UTF-8 text, the
      [UnicodeDecodeError] of decoding it;
    - if the endpoint answers 200 with a body that is the text of a JSON
      object whose [WebServicesId] is a number, it returns ["wsid_"]
      followed by [str] of that number: the decimal digits of [n] for the
      integer [n], the [repr] of [f] for the float [f]. *)
Theorem getSchemaName_spec (cfg : Collaborators) (lib : Library) (w : world) :
  (token w = None \/ token w = Some [] ->
   getSchemaName cfg lib w = (Raise not_logged_in, w))
  /\ (forall t keystoneUserId rs,
        token w = Some t -> t <> [] ->
        getKeystoneUserWithToken cfg t = Ok keystoneUserId ->
        server w (ncalls w) (profile_request cfg t keystoneUserId) = Some rs ->
        (status_code rs <> 200 ->
         exists e,
           (getSchemaName cfg lib w).1 = Raise e
           /\ (forall text, utf8_decode (content rs) = Some text ->
                 e = Exception
                       (lit "Error when getting schema name. Http Response from CasJobs API returned status code "
                          ++ str_of_Z (status_code rs) ++ lit ":" ++ nl ++ text))
           /\ (utf8_decode (content rs) = None -> e = PyErr "UnicodeDecodeError"))
        /\ (forall text d,
              status_code rs = 200 ->
              utf8_decode (content rs) = Some text ->
              json_loads lib text = Ok (VDict d) ->
              (forall n, assoc (lit "WebServicesId") d = Some (VInt n) ->
                 (getSchemaName cfg lib w).1 = Ok (lit "wsid_" ++ str_of_Z n))
              /\ (forall f, assoc (lit "WebServicesId") d = Some (VFloat f) ->
                    (getSchemaName cfg lib w).1
                    = Ok (lit "wsid_" ++ repr lib (VFloat f))))).
Proof.
  split.
  - intros Htok. apply defined_false in Htok.
    unfold getSchemaName. rewrite bind_getToken, Htok. now destruct (token w).
  - intros t keystoneUserId rs Htok Hne Hid Hsrv.
    assert (Hrun : getSchemaName cfg lib w
                   = let w' := advance w 1 [EHttp (profile_request cfg t keystoneUserId)
                                                  (Some rs)] in
                     if negb (status_code rs =? 200)
                     then bind (http_error (lit "Error when getting schema name. ") rs)
                               (fun msg => raise (Exception msg)) w'
                     else bind (decode rs)
                               (fun text =>
                                  jsonResponse <- lift (json_loads lib text) ;;
                                  wsid <- lift (getitem jsonResponse (lit "WebServicesId")) ;;
                                  ret (lit "wsid_" ++ py_str (repr lib) wsid)) w').
    { unfold getSchemaName. rewrite bind_getToken, Htok.
      replace (defined (Some t)) with true by (symmetry; apply defined_true; eauto).
      rewrite Hid, bind_lift_ok. unfold requests_get.
      fold (profile_request cfg t keystoneUserId).
      rewrite bind_exchange, Hsrv. cbv zeta. unfold advance. rewrite Nat.add_1_r.
      now destruct (negb (status_code rs =? 200)). }
    rewrite Hrun. cbv zeta. split.
    + intros Hcode. apply Z.eqb_neq in Hcode. rewrite Hcode. cbn [negb].
      rewrite raise_http_error.
      destruct (utf8_decode (content rs)) as [text|]; eexists; (split; [reflexivity|]).
      * split; [intros text' [= <-]; reflexivity | discriminate].
      * split; [discriminate | reflexivity].
    + intros text d Hcode Hdec Hload. rewrite Hcode. cbn [Z.eqb Pos.eqb negb].
      rewrite bind_decode, Hdec, Hload, bind_lift_ok.
      unfold getitem.
      split; [intros n Hid' | intros f Hid']; rewrite Hid'; reflexivity.
Qed.

Lemma getSchemaName_spec_witness :
  (getSchemaName Mock.cfg Mock.lib (Mock.start (Some (lit "t")) Mock.profile_service)).1
  = Ok (lit "wsid_42").
Proof.
  destruct (getSchemaName_spec Mock.cfg Mock.lib
              (Mock.start (Some (lit "t")) Mock.profile_service)) as [_ H].
  assert (Hne : lit "t" <> []) by discriminate.
  destruct (H (lit "t") (lit "u7") (Mock.text_response 200 Mock.profile_text)
              eq_refl Hne eq_refl eq_refl) as [_ Hok].
  destruct (Hok Mock.profile_text [(lit "WebServicesId", VInt 42)]) as [Hint _];
    [vm_compute; reflexivity .. |].
  apply (Hint 42). vm_compute. reflexivity.
Defined.

(* ------------------------------------------------------------------ *)
(** ** What a query returns *)
(* ------------------------------------------------------------------ *)

Lemma not_self_app {A} (l : list A) (x : A) : l = l ++ [x] -> False.
Proof.
  intros H. apply (f_equal length) in H. rewrite length_app in H. simpl in H. lia.
Qed.

Section Query.

Variable cfg : Collaborators.
Variable lib : Library.

(** With a known format whose test is [known], a run of [executeQuery]
    whose only event is an exchange answered 200 with the text [text] gives
    what the branch of the format makes of [text], in the world right after
    the exchange. *)
Lemma executeQuery_answered sql context format w rq rs text :
  In format formats ->
  trace (executeQuery cfg lib sql context format w).2 = trace w ++ [EHttp rq (Some rs)] ->
  status_code rs = 200 ->
  utf8_decode (content rs) = Some text ->
  executeQuery cfg lib sql context format w
  = (if is_format format "readable" then ret (OStringIO text)
     else if is_format format "pandas" then
       r <- lift (json_loads lib text) ;;
       res <- lift (getitem r (lit "Result")) ;;
       res0 <- lift (getitem0 res) ;;
       rows <- lift (getitem res0 (lit "Data")) ;;
       res <- lift (getitem r (lit "Result")) ;;
       res0 <- lift (getitem0 res) ;;
       columns <- lift (getitem res0 (lit "Columns")) ;;
       fc <- lift (pandas_DataFrame lib rows columns) ;;
       frame <- new_frame fc ;;
       ret (OFrame frame)
     else if is_format format "csv" then ret (OVal (VStr text))
     else if is_format format "json" then
       r <- lift (json_loads lib text) ;;
       ret (OVal r)
     else ret (OStringIO text))
      (advance w 1 [EHttp rq (Some rs)]).
Proof.
  intros Hf. unfold formats in Hf. simpl in Hf.
  unfold executeQuery.
  destruct Hf as [<-|[<-|[<-|[<-|[<-|[]]]]]]; eval_formats;
    rewrite !bind_ret, !bind_encode;
    (destruct (utf8_encode _) as [data|];
     [| intros H; simpl in H; now apply not_self_app in H]);
    rewrite !bind_getToken; unfold requests_post; rewrite !bind_exchange; cbv zeta;
    (destruct (server w (ncalls w) _) as [r|] eqn:Hsrv;
     [| intros H; simpl in H; apply app_inv_head in H; discriminate]);
    intros H Hcode Hdec;
    match type of H with
    | trace (?K ?W).2 = _ =>
      let HK := fresh "HK" in
      assert (HK : silent K) by silence; rewrite (HK W) in H
    end;
    simpl in H; apply app_inv_head in H; injection H as <- <-;
    rewrite Hcode; cbn [Z.eqb Pos.eqb negb]; rewrite bind_decode, Hdec;
    unfold advance; rewrite Nat.add_1_r; reflexivity.
Qed.

End Query.



(* ------------------------------------------------------------------ *)
(** ** Writing a FITS file *)
(* ------------------------------------------------------------------ *)

Section Fits.

Variable cfg : Collaborators.
Variable lib : Library.

(** With the format fits, what [executeQuery] returns is a [StringIO] over
    the decoded body: text, not bytes. *)
Lemma executeQuery_fits_StringIO sql context w o w' :
  executeQuery cfg lib sql context (lit "fits") w = (Ok o, w') ->
  exists buffer, o = OStringIO buffer.
Proof.
  unfold executeQuery. eval_formats. rewrite bind_ret, bind_encode.
  destruct (utf8_encode _) as [data|]; [|discriminate].
  rewrite bind_getToken. unfold requests_post. rewrite bind_exchange. cbv zeta.
  destruct (server w (ncalls w) _) as [r|]; [|discriminate].
  destruct (negb (status_code r =? 200)).
  - rewrite raise_http_error. destruct (utf8_decode (content r)); discriminate.
  - rewrite bind_decode. destruct (utf8_decode (content r)) as [text|]; [|discriminate].
    intros [= <- _]. eauto.
Qed.

(** Whatever the service answers, [getFitsFileFromQuery] raises: when the
    query succeeds, the text it read is refused by the file, which was
    opened for bytes. *)
Lemma getFitsFileFromQuery_always_raises fileName queryString context w :
  exists e, (getFitsFileFromQuery cfg lib fileName queryString context w).1 = Raise e.
Proof.
  unfold getFitsFileFromQuery. rewrite try_reraise_id. unfold bind at 1.
  destruct (executeQuery cfg lib queryString context (lit "fits") w) as [[o|e] w1] eqn:Hq;
    [| eexists; reflexivity].
  apply executeQuery_fits_StringIO in Hq as [buffer ->].
  unfold bind at 1, open_wb.
  destruct (openable w1 fileName); eexists; reflexivity.
Qed.

End Fits.

(** C2 fails on the code. With a token, a service that answers the query
    with status 200 and the body [SIMPLE  =  T], and a path that can be
    opened, [getFitsFileFromQuery] does not return [True]: it raises a
    [TypeError], after one exchange, and leaves the file created and empty. *)
Theorem getFitsFileFromQuery_raises_TypeError :
  (getFitsFileFromQuery Mock.cfg Mock.lib (lit "out.fits") (lit "select 1") (lit "MyDB")
                        Mock.fits_world).1
  = Raise (PyErr "TypeError")
  /\ ncalls (getFitsFileFromQuery Mock.cfg Mock.lib (lit "out.fits") (lit "select 1")
                                  (lit "MyDB") Mock.fits_world).2 = 1%nat
  /\ files (getFitsFileFromQuery Mock.cfg Mock.lib (lit "out.fits") (lit "select 1")
                                 (lit "MyDB") Mock.fits_world).2 !! lit "out.fits"
     = Some [].
Proof. vm_compute. repeat split. Qed.

(* ------------------------------------------------------------------ *)
(** ** Uploading a frame *)
(* ------------------------------------------------------------------ *)

Lemma keeps_heap_ret {A} (a : A) : keeps_heap (ret a).
Proof. intros w. reflexivity. Qed.

Lemma keeps_heap_raise {A} (e : exn) : keeps_heap (@raise A e).
Proof. intros w. reflexivity. Qed.

Lemma keeps_heap_lift {A} (r : result A) : keeps_heap (lift r).
Proof. intros w. reflexivity. Qed.

Lemma keeps_heap_getToken : keeps_heap getToken.
Proof. intros w. reflexivity. Qed.

Lemma keeps_heap_exchange (rq : request) : keeps_heap (exchange rq).
Proof. intros w. reflexivity. Qed.

Lemma keeps_heap_frame_index (df : DataFrame) : keeps_heap (frame_index df).
Proof. intros w. reflexivity. Qed.

Lemma keeps_heap_bind {A B} (m : M A) (k : A -> M B) :
  keeps_heap m -> (forall a, keeps_heap (k a)) -> keeps_heap (bind m k).
Proof.
  intros Hm Hk w. unfold bind. specialize (Hm w).
  destruct (m w) as [[a|e] w']; simpl in *.
  - rewrite Hk. exact Hm.
  - exact Hm.
Qed.

Ltac keep_heap :=
  repeat first
    [ apply keeps_heap_ret | apply keeps_heap_raise | apply keeps_heap_lift
    | apply keeps_heap_getToken | apply keeps_heap_exchange | apply keeps_heap_frame_index
    | apply keeps_heap_bind; [| intros ?]
    | match goal with
      | |- keeps_heap (if ?b then _ else _) => destruct b
      | |- keeps_heap (match ?x with _ => _ end) => destruct x
      end ].


Section Upload.

Variable cfg : Collaborators.
Variable lib : Library.

Lemma keeps_heap_uploadCSVDataToTable CVSdata tableName context :
  keeps_heap (uploadCSVDataToTable cfg CVSdata tableName context).
Proof.
  unfold uploadCSVDataToTable, requests_post, http_error, decode. keep_heap.
Qed.

(** What [uploadPandasDataFrameToTable] does once the index object of the
    frame is found: name it if it has no name, then serialize, encode and
    upload. *)
Lemma uploadPandasDataFrameToTable_run dataFrame tableName context w ix :
  heap w !! df_index dataFrame = Some ix ->
  let ix' := if unnamed (idx_name ix)
             then mkIndex (VStr (lit "index")) (idx_labels ix) else ix in
  let w' := if unnamed (idx_name ix)
            then with_heap w (<[df_index dataFrame := ix']> (heap w)) else w in
  uploadPandasDataFrameToTable cfg lib dataFrame tableName context w
  = match utf8_encode
            (to_csv lib (mkFrameContent ix' (df_columns dataFrame) (df_values dataFrame)))
    with
    | Some sio => uploadCSVDataToTable cfg (PBytes sio) tableName context w'
    | None => (Raise (PyErr "UnicodeEncodeError"), w')
    end.
Proof.
  intros Hix. cbv zeta.
  unfold uploadPandasDataFrameToTable. rewrite try_reraise_id.
  unfold bind at 1, frame_index. rewrite Hix. cbn [of_option].
  destruct (unnamed (idx_name ix)); cbn [when].
  - unfold bind at 1, set_index_name. rewrite Hix.
    unfold frame_content, frame_index, bind at 1 2. cbn [heap].
    rewrite lookup_insert_eq. cbn [of_option]. unfold ret at 1.
    rewrite bind_encode. reflexivity.
  - rewrite bind_ret.
    unfold frame_content, frame_index, bind at 1 2. rewrite Hix. cbn [of_option].
    unfold ret at 1. rewrite bind_encode. reflexivity.
Qed.

End Upload.

(** C10. [uploadPandasDataFrameToTable] works on the index object of the
    caller's frame.  When the name of that index is [None] or the empty
    string, after the call - whether it returned or raised - the object is
    named ["index"], with its labels as before, and the other index objects
    are as they were.  When the index has any other name, all index objects
    are as they were. *)
Theorem uploadPandasDataFrameToTable_names_index
  (cfg : Collaborators) (lib : Library) (dataFrame : DataFrame)
  (tableName context : pystr) (w : world) (ix : Index) :
  heap w !! df_index dataFrame = Some ix ->
  (idx_name ix = VNone \/ idx_name ix = VStr [] ->
   heap (uploadPandasDataFrameToTable cfg lib dataFrame tableName context w).2
   = <[df_index dataFrame := mkIndex (VStr (lit "index")) (idx_labels ix)]> (heap w))
  /\ (idx_name ix <> VNone -> idx_name ix <> VStr [] ->
      heap (uploadPandasDataFrameToTable cfg lib dataFrame tableName context w).2
      = heap w).
Proof.
  intros Hix.
  rewrite (uploadPandasDataFrameToTable_run cfg lib dataFrame tableName context w ix Hix).
  cbv zeta. split.
  - intros Hname.
    replace (unnamed (idx_name ix)) with true by (now destruct Hname as [-> | ->]).
    destruct (utf8_encode _); [| reflexivity].
    now rewrite keeps_heap_uploadCSVDataToTable.
  - intros Hn1 Hn2.
    replace (unnamed (idx_name ix)) with false
      by (destruct (idx_name ix) as [| | | |[|]| |] eqn:E; simpl; congruence).
    destruct (utf8_encode _); [| reflexivity].
    now rewrite keeps_heap_uploadCSVDataToTable.
Qed.

Lemma uploadPandasDataFrameToTable_names_index_witness :
  heap (uploadPandasDataFrameToTable Mock.cfg Mock.lib Mock.frame (lit "T") (lit "MyDB")
                                     (Mock.frame_world VNone)).2
  = <[0%nat := mkIndex (VStr (lit "index")) [VInt 0; VInt 1]]>
      (heap (Mock.frame_world VNone))
  /\ heap (uploadPandasDataFrameToTable Mock.cfg Mock.lib Mock.frame (lit "T") (lit "MyDB")
                                        (Mock.frame_world (VStr (lit "id")))).2
     = heap (Mock.frame_world (VStr (lit "id"))).
Proof.
  split.
  - apply (uploadPandasDataFrameToTable_names_index Mock.cfg Mock.lib Mock.frame
             (lit "T") (lit "MyDB") (Mock.frame_world VNone)
             (mkIndex VNone [VInt 0; VInt 1])).
    + reflexivity.
    + left. reflexivity.
  - apply (uploadPandasDataFrameToTable_names_index Mock.cfg Mock.lib Mock.frame
             (lit "T") (lit "MyDB") (Mock.frame_world (VStr (lit "id")))
             (mkIndex (VStr (lit "id")) [VInt 0; VInt 1])).
    + reflexivity.
    + discriminate.
    + discriminate.
Defined.




(* ------------------------------------------------------------------ *)
(** ** Further properties: the requests of queries and jobs *)
(* ------------------------------------------------------------------ *)

Lemma query_of_executeQuery (cfg : Collaborators) (sql : pystr) :
  VDict [(lit "Query", VStr sql);
         (lit "TaskName",
          VStr (if isSciServerComputeEnvironment cfg
                then lit "Compute.SciScript-Python.CasJobs.executeQuery"
                else lit "SciScript-Python.CasJobs.executeQuery"))]
  = query_of cfg "executeQuery" sql.
Proof. unfold query_of. now destruct (isSciServerComputeEnvironment cfg). Qed.

Lemma query_of_submitJob (cfg : Collaborators) (sql : pystr) :
  VDict [(lit "Query", VStr sql);
         (lit "TaskName",
          VStr (if isSciServerComputeEnvironment cfg
                then lit "Compute.SciScript-Python.CasJobs.submitJob"
                else lit "SciScript-Python.CasJobs.submitJob"))]
  = query_of cfg "submitJob" sql.
Proof. unfold query_of. now destruct (isSciServerComputeEnvironment cfg). Qed.

Lemma token_header_lookup (tok : option pystr) (headers : gmap pystr pystr) :
  headers !! lit "X-Auth-Token" = None ->
  match tok with
  | Some t => if defined tok then <[ lit "X-Auth-Token" := t ]> headers else headers
  | None => headers
  end !! lit "X-Auth-Token" = token_header tok.
Proof.
  intros Hh. unfold token_header. destruct tok as [t|]; [|exact Hh].
  destruct (defined (Some t)); [apply lookup_insert_eq | exact Hh].
Qed.

Lemma token_header_other (tok : option pystr) (headers : gmap pystr pystr) (k : pystr) :
  k <> lit "X-Auth-Token" ->
  match tok with
  | Some t => if defined tok then <[ lit "X-Auth-Token" := t ]> headers else headers
  | None => headers
  end !! k = headers !! k.
Proof.
  intros Hk. destruct tok as [t|]; [|reflexivity].
  destruct (defined (Some t)); [now rewrite lookup_insert_ne | reflexivity].
Qed.

(** X1. With a known format and a query that can be encoded,
    [executeQuery] leaves exactly one event: a POST to
    [<base>/contexts/<context>/query] whose body is the encoded JSON of the
    query and the task name, with the content type [application/json], the
    token as [X-Auth-Token] when there is one, and an [Accept] header chosen
    by the format: [application/json+array] for pandas and json,
    [text/plain] for csv and readable, [application/fits] for fits. *)
Theorem executeQuery_request
  (cfg : Collaborators) (lib : Library) (sql context format : pystr) (w : world)
  (data : pybytes) :
  In format formats ->
  utf8_encode (json_dumps lib (query_of cfg "executeQuery" sql)) = Some data ->
  exists rq,
    trace (executeQuery cfg lib sql context format w).2
    = trace w ++ [EHttp rq (server w (ncalls w) rq)]
    /\ req_method rq = POST
    /\ req_url rq = CasJobsRESTUri cfg ++ lit "/contexts/" ++ context ++ lit "/query"
    /\ req_data rq = Some (PBytes data)
    /\ req_headers rq !! lit "Content-Type" = Some (lit "application/json")
    /\ req_headers rq !! lit "X-Auth-Token" = token_header (token w)
    /\ req_headers rq !! lit "Accept"
       = Some (if bool_decide (format = lit "fits") then lit "application/fits"
               else if bool_decide (format = lit "csv" \/ format = lit "readable")
                    then lit "text/plain"
                    else lit "application/json+array").
Proof.
  intros Hf Hdata. unfold formats in Hf. simpl in Hf.
  unfold executeQuery. rewrite query_of_executeQuery.
  destruct Hf as [<-|[<-|[<-|[<-|[<-|[]]]]]]; eval_formats;
    rewrite bind_ret, bind_encode, Hdata, bind_getToken;
    (eexists; split; [apply exchange_then_silent; intros r; silence |]);
    cbn [req_method req_url req_data req_headers];
    (split; [reflexivity |]); (split; [reflexivity |]); (split; [reflexivity |]);
    (split; [rewrite token_header_other by discriminate; reflexivity |]);
    (split; [apply token_header_lookup; reflexivity |]);
    (rewrite token_header_other by discriminate; reflexivity).
Qed.

Lemma executeQuery_request_witness :
  exists rq,
    trace (executeQuery Mock.cfg Mock.lib (lit "select 1") (lit "MyDB") (lit "fits")
                        (Cases.answering (lit "SIMPLE"))).2
    = [EHttp rq (Some (Mock.text_response 200 (lit "SIMPLE")))]
    /\ req_headers rq !! lit "Accept" = Some (lit "application/fits")
    /\ req_headers rq !! lit "X-Auth-Token" = Some (lit "t").
Proof.
  destruct (executeQuery_request Mock.cfg Mock.lib (lit "select 1") (lit "MyDB")
              (lit "fits") (Cases.answering (lit "SIMPLE")) Cases.select_1)
    as (rq & Ht & _ & _ & _ & _ & Htok & Hacc).
  - unfold formats. simpl. tauto.
  - vm_compute. reflexivity.
  - exists rq. split; [exact Ht | split; [exact Hacc | exact Htok]].
Defined.

(** X2. [submitJob] with a token and a query that can be encoded leaves
    exactly one event, a PUT to [<base>/contexts/<context>/jobs] with the
    token, the content type [application/json] and [Accept: text/plain].
    When the answer has status 200 and a text body, the body is read with
    [int]: the job id when it is an integer literal, a [ValueError]
    otherwise. *)
Theorem submitJob_spec
  (cfg : Collaborators) (lib : Library) (sql context : pystr) (w : world)
  (t : pystr) (data : pybytes) :
  token w = Some t -> t <> [] ->
  utf8_encode (json_dumps lib (query_of cfg "submitJob" sql)) = Some data ->
  trace (submitJob cfg lib sql context w).2
  = trace w ++ [EHttp (job_request cfg t context data)
                      (server w (ncalls w) (job_request cfg t context data))]
  /\ forall r text,
       server w (ncalls w) (job_request cfg t context data) = Some r ->
       status_code r = 200 ->
       utf8_decode (content r) = Some text ->
       (submitJob cfg lib sql context w).1
       = match int_of_str lib text with
         | Some n => Ok n
         | None => Raise (PyErr "ValueError")
         end.
Proof.
  intros Htok Hne Hdata.
  assert (Hrun : submitJob cfg lib sql context w
                 = bind (exchange (job_request cfg t context data))
                        (fun putResponse =>
                           if negb (status_code putResponse =? 200) then
                             msg <- http_error (lit "Error when submitting a job. ")
                                               putResponse ;;
                             raise (Exception msg)
                           else
                             text <- decode putResponse ;;
                             lift (of_option (int_of_str lib text) "ValueError")) w).
  { unfold submitJob. rewrite bind_getToken, Htok.
    replace (defined (Some t)) with true by (symmetry; apply defined_true; eauto).
    rewrite query_of_submitJob, bind_encode, Hdata. reflexivity. }
  rewrite Hrun. split.
  - apply exchange_then_silent. intros r. silence.
  - intros r text Hsrv Hcode Hdec. rewrite bind_exchange, Hsrv. cbv zeta.
    rewrite Hcode. cbn [Z.eqb Pos.eqb negb]. rewrite bind_decode, Hdec.
    now destruct (int_of_str lib text).
Qed.

Lemma submitJob_spec_witness :
  (submitJob Mock.cfg Mock.lib (lit "select 1") (lit "MyDB") (Cases.answering (lit "1234"))).1
  = Ok 1234
  /\ (submitJob Mock.cfg Mock.lib (lit "select 1") (lit "MyDB")
                (Cases.answering (lit "queued"))).1
     = Raise (PyErr "ValueError").
Proof.
  assert (Hne : lit "t" <> []) by discriminate.
  split.
  - destruct (submitJob_spec Mock.cfg Mock.lib (lit "select 1") (lit "MyDB")
                (Cases.answering (lit "1234")) (lit "t") Cases.submit_1 eq_refl Hne)
      as [_ H]; [vm_compute; reflexivity |].
    apply (H (Mock.text_response 200 (lit "1234")) (lit "1234"));
      vm_compute; reflexivity.
  - destruct (submitJob_spec Mock.cfg Mock.lib (lit "select 1") (lit "MyDB")
                (Cases.answering (lit "queued")) (lit "t") Cases.submit_1 eq_refl Hne)
      as [_ H]; [vm_compute; reflexivity |].
    apply (H (Mock.text_response 200 (lit "queued")) (lit "queued"));
      vm_compute; reflexivity.
Defined.

(** X3. The formats readable and csv differ only in the wrapping of the
    result: in every world the two calls send the same request and end in
    the same world, and readable returns the text that csv returns as a
    [StringIO], or raises what csv raises. *)
Theorem executeQuery_readable_is_csv
  (cfg : Collaborators) (lib : Library) (sql context : pystr) (w : world) :
  (executeQuery cfg lib sql context (lit "readable") w).2
  = (executeQuery cfg lib sql context (lit "csv") w).2
  /\ (executeQuery cfg lib sql context (lit "readable") w).1
     = as_readable (executeQuery cfg lib sql context (lit "csv") w).1.
Proof.
  unfold executeQuery. eval_formats. rewrite !bind_ret, !bind_encode.
  destruct (utf8_encode _) as [data|]; [| split; reflexivity].
  rewrite !bind_getToken. unfold requests_post. rewrite !bind_exchange. cbv zeta.
  destruct (server w (ncalls w) _) as [r|]; [| split; reflexivity].
  destruct (negb (status_code r =? 200)).
  - rewrite !raise_http_error. destruct (utf8_decode (content r)); split; reflexivity.
  - rewrite !bind_decode. destruct (utf8_decode (content r)); split; reflexivity.
Qed.

(** X4. The formats pandas and json send the same request: in every world
    the two calls leave the same events and the same number of exchanges,
    and whenever json raises, pandas raises the same exception in the same
    world.  The frame is built from what json returns. *)
Theorem executeQuery_pandas_from_json
  (cfg : Collaborators) (lib : Library) (sql context : pystr) (w : world) :
  trace (executeQuery cfg lib sql context (lit "pandas") w).2
  = trace (executeQuery cfg lib sql context (lit "json") w).2
  /\ ncalls (executeQuery cfg lib sql context (lit "pandas") w).2
     = ncalls (executeQuery cfg lib sql context (lit "json") w).2
  /\ (forall e w',
        executeQuery cfg lib sql context (lit "json") w = (Raise e, w') ->
        executeQuery cfg lib sql context (lit "pandas") w = (Raise e, w'))
  /\ (forall r w',
        executeQuery cfg lib sql context (lit "json") w = (Ok (OVal r), w') ->
        executeQuery cfg lib sql context (lit "pandas") w
        = (res <- lift (getitem r (lit "Result")) ;;
           res0 <- lift (getitem0 res) ;;
           rows <- lift (getitem res0 (lit "Data")) ;;
           res <- lift (getitem r (lit "Result")) ;;
           res0 <- lift (getitem0 res) ;;
           columns <- lift (getitem res0 (lit "Columns")) ;;
           fc <- lift (pandas_DataFrame lib rows columns) ;;
           frame <- new_frame fc ;;
           ret (OFrame frame)) w').
Proof.
  unfold executeQuery. eval_formats. rewrite !bind_ret, !bind_encode.
  destruct (utf8_encode _) as [data|];
    [| repeat split; [intros e w' [= <- <-]; reflexivity | discriminate]].
  rewrite !bind_getToken. unfold requests_post. rewrite !bind_exchange. cbv zeta.
  destruct (server w (ncalls w) _) as [r|];
    [| repeat split; [intros e w' [= <- <-]; reflexivity | discriminate]].
  destruct (negb (status_code r =? 200)).
  - rewrite !raise_http_error.
    destruct (utf8_decode (content r));
      (repeat split; [intros e w' [= <- <-]; reflexivity | discriminate]).
  - rewrite !bind_decode.
    destruct (utf8_decode (content r)) as [text|];
      [| repeat split; [intros e w' [= <- <-]; reflexivity | discriminate]].
    destruct (json_loads lib text) as [v|e0].
    + rewrite !bind_lift_ok.
      match goal with
      | |- context [bind ?m ?k ?w0] =>
        assert (Hs : silent (bind m k)) by silence;
        assert (Hn : ncalls (bind m k w0).2 = ncalls w0)
      end.
      { unfold bind, lift, new_frame, ret.
        repeat (match goal with
                | |- context [match ?x with _ => _ end] => destruct x
                end; try reflexivity). }
      repeat split.
      * rewrite Hs. reflexivity.
      * rewrite Hn. reflexivity.
      * discriminate.
      * intros r0 w' [= <- <-]. reflexivity.
    + rewrite !bind_lift_raise.
      repeat split; [intros e w' [= <- <-]; reflexivity | discriminate].
Qed.

(* ------------------------------------------------------------------ *)
(** ** Further properties: answers that are not as expected *)
(* ------------------------------------------------------------------ *)

Lemma getitem_not_dict (v : pyval) (k : pystr) :
  (forall d, v <> VDict d) -> getitem v k = Raise (PyErr "TypeError").
Proof. intros H. destruct v; try reflexivity. now destruct (H d). Qed.

(** X5. The format pandas on a 200 answer whose JSON value has not the
    expected shape: a value that is not an object raises [TypeError], an
    object without [Result] raises [KeyError], an empty [Result] list raises
    [IndexError], and a first result without [Data], or with [Data] but
    without [Columns], raises [KeyError].  No index object is created in
    any of these cases. *)
Theorem executeQuery_pandas_malformed
  (cfg : Collaborators) (lib : Library) (sql context : pystr) (w : world)
  (rq : request) (rs : response) (text : pystr) (v : pyval) :
  trace (executeQuery cfg lib sql context (lit "pandas") w).2
  = trace w ++ [EHttp rq (Some rs)] ->
  status_code rs = 200 ->
  utf8_decode (content rs) = Some text ->
  json_loads lib text = Ok v ->
  ((forall d, v <> VDict d) ->
   executeQuery cfg lib sql context (lit "pandas") w
   = (Raise (PyErr "TypeError"), advance w 1 [EHttp rq (Some rs)]))
  /\ (forall d, v = VDict d -> assoc (lit "Result") d = None ->
        executeQuery cfg lib sql context (lit "pandas") w
        = (Raise (PyErr "KeyError"), advance w 1 [EHttp rq (Some rs)]))
  /\ (forall d, v = VDict d -> assoc (lit "Result") d = Some (VList []) ->
        executeQuery cfg lib sql context (lit "pandas") w
        = (Raise (PyErr "IndexError"), advance w 1 [EHttp rq (Some rs)]))
  /\ (forall d d0 rest, v = VDict d ->
        assoc (lit "Result") d = Some (VList (VDict d0 :: rest)) ->
        assoc (lit "Data") d0 = None
        \/ (is_Some (assoc (lit "Data") d0) /\ assoc (lit "Columns") d0 = None) ->
        executeQuery cfg lib sql context (lit "pandas") w
        = (Raise (PyErr "KeyError"), advance w 1 [EHttp rq (Some rs)])).
Proof.
  intros Htrace Hcode Hdec Hload.
  rewrite (executeQuery_answered cfg lib sql context (lit "pandas") w rq rs text)
    by (try assumption; unfold formats; simpl; tauto).
  eval_formats. rewrite Hload, bind_lift_ok.
  split; [| split; [| split]].
  - intros Hv. now rewrite (getitem_not_dict v _ Hv).
  - intros d -> Hres. unfold getitem. now rewrite Hres.
  - intros d -> Hres. unfold getitem. now rewrite Hres.
  - intros d d0 rest -> Hres Hmiss. unfold getitem. rewrite Hres. cbn [of_option].
    rewrite bind_lift_ok. cbn [getitem0 head of_option]. rewrite bind_lift_ok.
    destruct Hmiss as [Hd | [[rows Hd] Hc]]; rewrite Hd; cbn [of_option].
    + reflexivity.
    + rewrite bind_lift_ok, bind_lift_ok. cbn [getitem0 head of_option].
      rewrite bind_lift_ok, Hc. reflexivity.
Qed.

Lemma executeQuery_pandas_malformed_witness :
  (executeQuery Mock.cfg Cases.lib (lit "select 1") (lit "MyDB") (lit "pandas")
                (Cases.answering Cases.empty_result_text)).1
  = Raise (PyErr "IndexError").
Proof.
  destruct (executeQuery_pandas_malformed Mock.cfg Cases.lib
              (lit "select 1") (lit "MyDB")
              (Cases.answering Cases.empty_result_text)
              Cases.select_1_pandas
              (Mock.text_response 200 Cases.empty_result_text)
              Cases.empty_result_text (VDict [(lit "Result", VList [])]))
    as (_ & _ & H & _); [vm_compute; reflexivity .. |].
  now rewrite (H [(lit "Result", VList [])] eq_refl eq_refl).
Defined.

(** X6. [getSchemaName] with a token: when the identity cannot be resolved,
    the exception of the resolver is raised and nothing is sent.  When the
    profile endpoint answers 200 with a text body that [json.loads] reads,
    a value that is not an object raises [TypeError], an object without
    [WebServicesId] raises [KeyError], and an id that is a string is
    appended as it is. *)
Theorem getSchemaName_edges (cfg : Collaborators) (lib : Library) (w : world) (t : pystr) :
  token w = Some t -> t <> [] ->
  (forall e, getKeystoneUserWithToken cfg t = Raise e ->
     getSchemaName cfg lib w = (Raise e, w))
  /\ (forall keystoneUserId rs text v,
        getKeystoneUserWithToken cfg t = Ok keystoneUserId ->
        server w (ncalls w) (profile_request cfg t keystoneUserId) = Some rs ->
        status_code rs = 200 ->
        utf8_decode (content rs) = Some text ->
        json_loads lib text = Ok v ->
        ((forall d, v <> VDict d) ->
         (getSchemaName cfg lib w).1 = Raise (PyErr "TypeError"))
        /\ (forall d, v = VDict d -> assoc (lit "WebServicesId") d = None ->
              (getSchemaName cfg lib w).1 = Raise (PyErr "KeyError"))
        /\ (forall d s, v = VDict d -> assoc (lit "WebServicesId") d = Some (VStr s) ->
              (getSchemaName cfg lib w).1 = Ok (lit "wsid_" ++ s))).
Proof.
  intros Htok Hne.
  assert (Hdef : defined (Some t) = true) by (apply defined_true; eauto).
  split.
  - intros e Hid. unfold getSchemaName. rewrite bind_getToken, Htok, Hdef, Hid.
    reflexivity.
  - intros keystoneUserId rs text v Hid Hsrv Hcode Hdec Hload.
    unfold getSchemaName. rewrite bind_getToken, Htok, Hdef, Hid, bind_lift_ok.
    unfold requests_get. fold (profile_request cfg t keystoneUserId).
    rewrite bind_exchange, Hsrv. cbv zeta. rewrite Hcode. cbn [Z.eqb Pos.eqb negb].
    rewrite bind_decode, Hdec, Hload, bind_lift_ok.
    split; [| split].
    + intros Hv. now rewrite (getitem_not_dict v _ Hv).
    + intros d -> Hmiss. unfold getitem. now rewrite Hmiss.
    + intros d s -> Hid'. unfold getitem. now rewrite Hid'.
Qed.

Lemma getSchemaName_edges_witness :
  (getSchemaName Mock.cfg Mock.lib (Cases.answering (Mock.status_text 4))).1
  = Raise (PyErr "KeyError").
Proof.
  assert (Hne : lit "t" <> []) by discriminate.
  destruct (getSchemaName_edges Mock.cfg Mock.lib (Cases.answering (Mock.status_text 4))
              (lit "t") eq_refl Hne) as [_ H].
  destruct (H (lit "u7") (Mock.text_response 200 (Mock.status_text 4))
              (Mock.status_text 4) (VDict [(lit "Status", VInt 4)]))
    as (_ & Hkey & _); [vm_compute; reflexivity .. |].
  apply (Hkey [(lit "Status", VInt 4)]); reflexivity.
Defined.

(** X7. [uploadCSVDataToTable] with a token leaves exactly one event, a POST
    of the data as it was given to [<base>/contexts/<context>/Tables/<name>]
    with the token as its only header.  On an answer with status 200 it
    returns [True] whatever the body is: the body is not read. *)
Theorem uploadCSVDataToTable_spec
  (cfg : Collaborators) (CVSdata : payload) (tableName context : pystr) (w : world)
  (t : pystr) :
  token w = Some t -> t <> [] ->
  trace (uploadCSVDataToTable cfg CVSdata tableName context w).2
  = trace w ++ [EHttp (table_request cfg t context tableName CVSdata)
                      (server w (ncalls w)
                              (table_request cfg t context tableName CVSdata))]
  /\ forall r,
       server w (ncalls w) (table_request cfg t context tableName CVSdata) = Some r ->
       status_code r = 200 ->
       (uploadCSVDataToTable cfg CVSdata tableName context w).1 = Ok true.
Proof.
  intros Htok Hne.
  assert (Hdef : defined (Some t) = true) by (apply defined_true; eauto).
  unfold uploadCSVDataToTable. rewrite bind_getToken, Htok, Hdef.
  unfold requests_post. fold (table_request cfg t context tableName CVSdata).
  split.
  - apply exchange_then_silent. intros r. silence.
  - intros r Hsrv Hcode. rewrite bind_exchange, Hsrv. cbv zeta.
    rewrite Hcode. reflexivity.
Qed.

Lemma uploadCSVDataToTable_spec_witness :
  (uploadCSVDataToTable Mock.cfg (PBytes [xff]) (lit "T") (lit "MyDB")
                        (Mock.start (Some (lit "t")) (Mock.always (mkResponse 200 [xff])))).1
  = Ok true.
Proof.
  assert (Hne : lit "t" <> []) by discriminate.
  destruct (uploadCSVDataToTable_spec Mock.cfg (PBytes [xff]) (lit "T") (lit "MyDB")
              (Mock.start (Some (lit "t")) (Mock.always (mkResponse 200 [xff])))
              (lit "t") eq_refl Hne) as [_ H].
  apply (H (mkResponse 200 [xff])); reflexivity.
Defined.

(* ------------------------------------------------------------------ *)
(** ** Further properties: callers *)
(* ------------------------------------------------------------------ *)

Section Callers.

Variable cfg : Collaborators.
Variable lib : Library.

(** [waitForJob] seen through the loop without progress lines. *)
Lemma waitForJob_quiet fuel jobid verbose w :
  result_of (waitForJob cfg lib fuel jobid verbose w)
  = result_of (waitForJob_loop cfg lib fuel jobid false w)
  /\ same_but_prints (final (waitForJob cfg lib fuel jobid verbose w))
                     (final (waitForJob_loop cfg lib fuel jobid false w)).
Proof.
  destruct verbose.
  - apply waitForJob_verbose.
  - split; [reflexivity | apply same_but_prints_refl].
Qed.

(** A poll that is answered 200 with a text body. *)
Lemma getJobStatus_answered jobid w t rs text :
  token w = Some t -> t <> [] ->
  server w (ncalls w) (status_request cfg lib t jobid) = Some rs ->
  status_code rs = 200 ->
  utf8_decode (content rs) = Some text ->
  getJobStatus cfg lib jobid w
  = (json_loads lib text, advance w 1 [EHttp (status_request cfg lib t jobid) (Some rs)]).
Proof.
  intros Htok Hne Hsrv Hcode Hdec.
  unfold getJobStatus. rewrite bind_getToken, Htok.
  replace (defined (Some t)) with true by (symmetry; apply defined_true; eauto).
  unfold requests_get. fold (status_request cfg lib t jobid).
  rewrite bind_exchange, Hsrv. cbv zeta. rewrite Hcode. cbn [Z.eqb Pos.eqb negb].
  rewrite bind_decode, Hdec. unfold lift, advance. now rewrite Nat.add_1_r.
Qed.

Lemma getJobStatus_without_token jobid w :
  defined (token w) = false -> getJobStatus cfg lib jobid w = (Raise not_logged_in, w).
Proof.
  intros Hd. unfold getJobStatus. rewrite bind_getToken, Hd. now destruct (token w).
Qed.

End Callers.

(** X8. [waitForJob] on a first poll whose record has no usable status.
    When the poll is answered 200 with a JSON value [v] for which
    [int(v["Status"])] raises [e], [waitForJob] raises [e] in its first
    turn, after that one exchange and without sleeping, for either value of
    [verbose].  In particular a value that is not an object - such as the
    list of all jobs that the service returns for an empty job id - raises
    [TypeError], and an object without [Status] raises [KeyError]. *)
Theorem waitForJob_bad_record
  (cfg : Collaborators) (lib : Library) (jobid : pyval) (verbose : bool) (w : world)
  (t : pystr) (rs : response) (text : pystr) (v : pyval) (e : exn) (fuel : nat) :
  token w = Some t -> t <> [] ->
  server w (ncalls w) (status_request cfg lib t jobid) = Some rs ->
  status_code rs = 200 ->
  utf8_decode (content rs) = Some text ->
  json_loads lib text = Ok v ->
  status_of lib v = Raise e ->
  (result_of (waitForJob cfg lib (S fuel) jobid verbose w) = Some (Raise e)
   /\ ncalls (final (waitForJob cfg lib (S fuel) jobid verbose w)) = S (ncalls w)
   /\ quiet (trace (final (waitForJob cfg lib (S fuel) jobid verbose w)))
      = quiet (trace w) ++ [EHttp (status_request cfg lib t jobid) (Some rs)])
  /\ ((forall d, v <> VDict d) -> e = PyErr "TypeError")
  /\ (forall d, v = VDict d -> assoc (lit "Status") d = None -> e = PyErr "KeyError").
Proof.
  intros Htok Hne Hsrv Hcode Hdec Hload Hst. split; [| split].
  - assert (Hloop : waitForJob_loop cfg lib (S fuel) jobid false w
                    = Done (Raise e)
                           (advance w 1 [EHttp (status_request cfg lib t jobid) (Some rs)])).
    { cbn [waitForJob_loop].
      unfold waitForJob_turn, when. rewrite bind_ret. unfold bind at 1.
      rewrite (getJobStatus_answered cfg lib jobid w t rs text) by assumption.
      rewrite Hload. unfold status_of in Hst.
      destruct (getitem v (lit "Status")) as [status|e'].
      - now rewrite bind_lift_ok, Hst, bind_lift_raise.
      - injection Hst as ->. now rewrite bind_lift_raise. }
    destruct (waitForJob_quiet cfg lib (S fuel) jobid verbose w)
      as [Hr (_ & _ & Hn & Hq & _)].
    rewrite Hr, Hn, Hq, Hloop. cbn [result_of final advance ncalls trace].
    rewrite quiet_app, Nat.add_1_r. auto.
  - intros Hv. unfold status_of in Hst. rewrite (getitem_not_dict v _ Hv) in Hst.
    congruence.
  - intros d -> Hmiss. unfold status_of, getitem in Hst. rewrite Hmiss in Hst.
    cbn in Hst. congruence.
Qed.

Lemma waitForJob_bad_record_witness :
  result_of (waitForJob Mock.cfg Cases.lib 3 (VStr []) true
                        (Cases.answering Cases.status_list_text))
  = Some (Raise (PyErr "TypeError")).
Proof.
  assert (Hne : lit "t" <> []) by discriminate.
  destruct (waitForJob_bad_record Mock.cfg Cases.lib (VStr []) true
              (Cases.answering Cases.status_list_text) (lit "t")
              (Mock.text_response 200 Cases.status_list_text)
              Cases.status_list_text (VList [VDict [(lit "Status", VInt 4)]])
              (PyErr "TypeError") 2 eq_refl Hne)
    as [(H & _) _]; [vm_compute; reflexivity .. |].
  exact H.
Defined.

(** X9. The callers that inherit the test of the token.  With a missing or
    empty token, [waitForJob] raises the not-logged-in exception in its
    first turn, and [uploadPandasDataFrameToTable], once the frame is
    serialized, raises it too; neither sends anything. *)
Theorem callers_without_token (cfg : Collaborators) (lib : Library) (w : world) :
  token w = None \/ token w = Some [] ->
  (forall fuel jobid verbose,
     result_of (waitForJob cfg lib (S fuel) jobid verbose w) = Some (Raise not_logged_in)
     /\ ncalls (final (waitForJob cfg lib (S fuel) jobid verbose w)) = ncalls w
     /\ quiet (trace (final (waitForJob cfg lib (S fuel) jobid verbose w)))
        = quiet (trace w))
  /\ (forall dataFrame tableName context ix,
        heap w !! df_index dataFrame = Some ix ->
        is_Some (utf8_encode
                   (to_csv lib (mkFrameContent
                                  (if unnamed (idx_name ix)
                                   then mkIndex (VStr (lit "index")) (idx_labels ix)
                                   else ix)
                                  (df_columns dataFrame) (df_values dataFrame)))) ->
        (uploadPandasDataFrameToTable cfg lib dataFrame tableName context w).1
        = Raise not_logged_in
        /\ trace (uploadPandasDataFrameToTable cfg lib dataFrame tableName context w).2
           = trace w
        /\ ncalls (uploadPandasDataFrameToTable cfg lib dataFrame tableName context w).2
           = ncalls w).
Proof.
  intros Htok. apply defined_false in Htok. split.
  - intros fuel jobid verbose.
    destruct (waitForJob_quiet cfg lib (S fuel) jobid verbose w)
      as [Hr (_ & _ & Hn & Hq & _)].
    assert (Hloop : waitForJob_loop cfg lib (S fuel) jobid false w
                    = Done (Raise not_logged_in) w).
    { cbn [waitForJob_loop].
      unfold waitForJob_turn, when. rewrite bind_ret. unfold bind at 1.
      now rewrite (getJobStatus_without_token cfg lib jobid w Htok). }
    rewrite Hr, Hn, Hq, Hloop. auto.
  - intros dataFrame tableName context ix Hix [sio Hsio].
    rewrite (uploadPandasDataFrameToTable_run cfg lib dataFrame tableName context w ix Hix).
    cbv zeta. rewrite Hsio.
    unfold uploadCSVDataToTable. rewrite bind_getToken.
    destruct (unnamed (idx_name ix)); cbn [with_heap token];
      rewrite Htok; destruct (token w); auto.
Qed.

Lemma callers_without_token_witness :
  (uploadPandasDataFrameToTable Mock.cfg Mock.lib Mock.frame (lit "T") (lit "MyDB")
                                (Cases.logged_out (Mock.frame_world VNone))).1
  = Raise not_logged_in.
Proof.
  destruct (callers_without_token Mock.cfg Mock.lib
              (Cases.logged_out (Mock.frame_world VNone)) (or_introl eq_refl))
    as [_ H].
  destruct (H Mock.frame (lit "T") (lit "MyDB") (mkIndex VNone [VInt 0; VInt 1]) eq_refl)
    as [Hr _]; [vm_compute; eauto | exact Hr].
Defined.

(** X10. Naming the index is done once.  After a call of
    [uploadPandasDataFrameToTable] on a frame, whatever its outcome, the
    index of the frame has a name and the labels it had, and a further call
    on that frame, with any table and context, changes no index object. *)
Theorem uploadPandasDataFrameToTable_twice
  (cfg : Collaborators) (lib : Library) (dataFrame : DataFrame)
  (tableName context tableName' context' : pystr) (w : world) (ix : Index) :
  heap w !! df_index dataFrame = Some ix ->
  (exists ix1,
     heap (uploadPandasDataFrameToTable cfg lib dataFrame tableName context w).2
       !! df_index dataFrame = Some ix1
     /\ unnamed (idx_name ix1) = false
     /\ idx_labels ix1 = idx_labels ix)
  /\ heap (uploadPandasDataFrameToTable cfg lib dataFrame tableName' context'
             (uploadPandasDataFrameToTable cfg lib dataFrame tableName context w).2).2
     = heap (uploadPandasDataFrameToTable cfg lib dataFrame tableName context w).2.
Proof.
  intros Hix.
  assert (Hheap : forall tn ctx w0 ix0,
             heap w0 !! df_index dataFrame = Some ix0 ->
             heap (uploadPandasDataFrameToTable cfg lib dataFrame tn ctx w0).2
             = if unnamed (idx_name ix0)
               then <[df_index dataFrame := mkIndex (VStr (lit "index")) (idx_labels ix0)]>
                      (heap w0)
               else heap w0).
  { intros tn ctx w0 ix0 H0.
    rewrite (uploadPandasDataFrameToTable_run cfg lib dataFrame tn ctx w0 ix0 H0).
    cbv zeta.
    destruct (utf8_encode _);
      [rewrite keeps_heap_uploadCSVDataToTable |];
      destruct (unnamed (idx_name ix0)); reflexivity. }
  assert (Hfirst : exists ix1,
             heap (uploadPandasDataFrameToTable cfg lib dataFrame tableName context w).2
               !! df_index dataFrame = Some ix1
             /\ unnamed (idx_name ix1) = false
             /\ idx_labels ix1 = idx_labels ix).
  { rewrite (Hheap tableName context w ix Hix).
    destruct (unnamed (idx_name ix)) eqn:Hu.
    - eexists. split; [apply lookup_insert_eq | split; reflexivity].
    - exists ix. auto. }
  split; [exact Hfirst |].
  destruct Hfirst as (ix1 & H1 & Hu & _).
  rewrite (Hheap tableName' context' _ ix1 H1), Hu. reflexivity.
Qed.

Lemma uploadPandasDataFrameToTable_twice_witness :
  heap (uploadPandasDataFrameToTable Mock.cfg Mock.lib Mock.frame (lit "U") (lit "MyDB")
          (uploadPandasDataFrameToTable Mock.cfg Mock.lib Mock.frame (lit "T") (lit "MyDB")
                                        (Mock.frame_world VNone)).2).2
  = heap (uploadPandasDataFrameToTable Mock.cfg Mock.lib Mock.frame (lit "T") (lit "MyDB")
                                       (Mock.frame_world VNone)).2.
Proof.
  apply (uploadPandasDataFrameToTable_twice Mock.cfg Mock.lib Mock.frame
           (lit "T") (lit "MyDB") (lit "U") (lit "MyDB") (Mock.frame_world VNone)
           (mkIndex VNone [VInt 0; VInt 1]) eq_refl).
Defined.

(* ------------------------------------------------------------------ *)
(** ** Further properties: what an operation leaves alone *)
(* ------------------------------------------------------------------ *)

Section Keeps.

Variable I : world -> Prop.
Variable R : world -> world -> Prop.
Hypothesis R_refl : forall w, R w w.
Hypothesis R_trans : forall w1 w2 w3, R w1 w2 -> R w2 w3 -> R w1 w3.

Lemma keeps_ret {A} (a : A) : keeps I R (ret a).
Proof. intros w Hw. split; [exact Hw | apply R_refl]. Qed.

Lemma keeps_raise {A} (e : exn) : keeps I R (@raise A e).
Proof. intros w Hw. split; [exact Hw | apply R_refl]. Qed.

Lemma keeps_lift {A} (r : result A) : keeps I R (lift r).
Proof. intros w Hw. split; [exact Hw | apply R_refl]. Qed.

Lemma keeps_getToken : keeps I R getToken.
Proof. intros w Hw. split; [exact Hw | apply R_refl]. Qed.

Lemma keeps_frame_index (df : DataFrame) : keeps I R (frame_index df).
Proof. intros w Hw. split; [exact Hw | apply R_refl]. Qed.

Lemma keeps_bind {A B} (m : M A) (k : A -> M B) :
  keeps I R m -> (forall a, keeps I R (k a)) -> keeps I R (bind m k).
Proof.
  intros Hm Hk w Hw. unfold bind. destruct (Hm w Hw) as [Hi Hr].
  destruct (m w) as [[a|e] w1]; simpl in *.
  - destruct (Hk a w1 Hi) as [Hi2 Hr2]. split; [exact Hi2 | eapply R_trans; eauto].
  - auto.
Qed.

Lemma keeps_try_reraise {A} (m : M A) : keeps I R m -> keeps I R (try_reraise m).
Proof. intros Hm w Hw. rewrite try_reraise_id. now apply Hm. Qed.

Lemma keeps_when (b : bool) (m : M unit) : keeps I R m -> keeps I R (when b m).
Proof. intros Hm. destruct b; [exact Hm | apply keeps_ret]. Qed.

Lemma keeps_read (o : pyobj) : keeps I R (read o).
Proof. destruct o; first [apply keeps_ret | apply keeps_raise]. Qed.

(** The loop keeps what its turns keep. *)
Lemma keeps_loop (turn : M (bool * pyval)) :
  keeps I R turn ->
  forall (loop : nat -> world -> outcome pyval),
    (forall w, loop O w = Running w) ->
    (forall fuel w, loop (S fuel) w
                    = match turn w with
                      | (Raise e, w') => Done (Raise e) w'
                      | (Ok (true, jobDesc), w') => Done (Ok jobDesc) w'
                      | (Ok (false, _), w') => loop fuel w'
                      end) ->
    forall fuel w, I w -> I (final (loop fuel w)) /\ R w (final (loop fuel w)).
Proof.
  intros Hturn loop H0 HS fuel. induction fuel as [|fuel IH]; intros w Hw.
  - rewrite H0. split; [exact Hw | apply R_refl].
  - rewrite HS. destruct (Hturn w Hw) as [Hi Hr].
    destruct (turn w) as [[[[|] jobDesc]|e] w1]; simpl in *; auto.
    destruct (IH w1 Hi) as [Hi2 Hr2]. split; [exact Hi2 | eapply R_trans; eauto].
Qed.

End Keeps.

(** Steps through a computation, leaving the steps that change the world
    to [prim]. *)
Ltac keeping prim :=
  repeat first
    [ apply keeps_ret; solve [eauto] | apply keeps_raise; solve [eauto]
    | apply keeps_lift; solve [eauto] | apply keeps_getToken; solve [eauto]
    | apply keeps_frame_index; solve [eauto] | apply keeps_read; solve [eauto]
    | apply keeps_try_reraise | apply keeps_when; [solve [eauto] |]
    | solve [prim]
    | apply keeps_bind; [solve [eauto] | | intros ?]
    | match goal with
      | |- keeps _ _ (if ?b then _ else _) => destruct b
      | |- keeps _ _ (match ?x with _ => _ end) => destruct x
      end ].

(** *** The operations, given what the steps that change the world keep *)

Section KeepsOperations.

Variable I : world -> Prop.
Variable R : world -> world -> Prop.
Hypothesis R_refl : forall w, R w w.
Hypothesis R_trans : forall w1 w2 w3, R w1 w2 -> R w2 w3 -> R w1 w3.

Hypothesis keeps_exchange : forall rq, keeps I R (exchange rq).
Hypothesis keeps_emit : forall e, keeps I R (emit e).
Hypothesis keeps_new_frame : forall fc, keeps I R (new_frame fc).
Hypothesis keeps_open_wb : forall name, keeps I R (open_wb name).
Hypothesis keeps_file_write : forall f d, keeps I R (file_write f d).
Hypothesis keeps_set_index_name : forall df name, keeps I R (set_index_name df name).

Variable cfg : Collaborators.
Variable lib : Library.

Ltac walk :=
  unfold requests_get, requests_post, requests_put, http_error, decode, encode,
         print, time_sleep, frame_content, file_close;
  keeping ltac:(eauto).

Lemma keeps_getSchemaName : keeps I R (getSchemaName cfg lib).
Proof. unfold getSchemaName. walk. Qed.

Lemma keeps_getTables context : keeps I R (getTables cfg lib context).
Proof. unfold getTables. walk. Qed.

Lemma keeps_executeQuery sql context format :
  keeps I R (executeQuery cfg lib sql context format).
Proof. unfold executeQuery. walk. Qed.

Lemma keeps_submitJob sql context : keeps I R (submitJob cfg lib sql context).
Proof. unfold submitJob. walk. Qed.

Lemma keeps_getJobStatus jobid : keeps I R (getJobStatus cfg lib jobid).
Proof. unfold getJobStatus. walk. Qed.

Lemma keeps_uploadCSVDataToTable CVSdata tableName context :
  keeps I R (uploadCSVDataToTable cfg CVSdata tableName context).
Proof. unfold uploadCSVDataToTable. walk. Qed.

Lemma keeps_waitForJob_turn jobid verbose :
  keeps I R (waitForJob_turn cfg lib jobid verbose).
Proof.
  unfold waitForJob_turn.
  apply keeps_bind; [eauto | walk | intros _].
  apply keeps_bind; [eauto | apply keeps_getJobStatus | intros jobDesc].
  walk.
Qed.

Lemma keeps_waitForJob fuel jobid verbose w :
  I w ->
  I (final (waitForJob cfg lib fuel jobid verbose w))
  /\ R w (final (waitForJob cfg lib fuel jobid verbose w)).
Proof.
  intros Hw. unfold waitForJob.
  assert (Hl : forall w0, I w0 ->
             I (final (waitForJob_loop cfg lib fuel jobid verbose w0))
             /\ R w0 (final (waitForJob_loop cfg lib fuel jobid verbose w0))).
  { intros w0.
    apply (keeps_loop I R R_refl R_trans (waitForJob_turn cfg lib jobid verbose)
             (keeps_waitForJob_turn jobid verbose)
             (fun fuel w => waitForJob_loop cfg lib fuel jobid verbose w));
      reflexivity. }
  destruct verbose; simpl.
  - destruct (keeps_emit (EPrint waitingStr) w Hw) as [Hi Hr].
    unfold print. destruct (Hl _ Hi) as [Hi2 Hr2]. split; [exact Hi2 | eauto].
  - apply Hl, Hw.
Qed.

Lemma keeps_getFitsFileFromQuery fileName queryString context :
  keeps I R (getFitsFileFromQuery cfg lib fileName queryString context).
Proof.
  unfold getFitsFileFromQuery. apply keeps_try_reraise.
  apply keeps_bind; [eauto | apply keeps_executeQuery | intros o]. walk.
Qed.

Lemma keeps_getPandasDataFrameFromQuery queryString context index_col :
  keeps I R (getPandasDataFrameFromQuery cfg lib queryString context index_col).
Proof.
  unfold getPandasDataFrameFromQuery. apply keeps_try_reraise.
  apply keeps_bind; [eauto | apply keeps_executeQuery | intros o]. walk.
Qed.

Lemma keeps_getNumpyArrayFromQuery queryString context :
  keeps I R (getNumpyArrayFromQuery cfg lib queryString context).
Proof.
  unfold getNumpyArrayFromQuery. apply keeps_try_reraise.
  apply keeps_bind; [eauto | apply keeps_getPandasDataFrameFromQuery | intros df]. walk.
Qed.

Lemma keeps_uploadPandasDataFrameToTable dataFrame tableName context :
  keeps I R (uploadPandasDataFrameToTable cfg lib dataFrame tableName context).
Proof.
  unfold uploadPandasDataFrameToTable. apply keeps_try_reraise.
  apply keeps_bind; [eauto | walk | intros ix].
  apply keeps_bind; [eauto | walk | intros _].
  apply keeps_bind; [eauto | walk | intros fc].
  apply keeps_bind; [eauto | walk | intros sio].
  apply keeps_uploadCSVDataToTable.
Qed.

Lemma keeps_returning {A} (f : A -> pyobj) (m : M A) (w : world) :
  keeps I R m -> I w -> I (final (returning f m w)) /\ R w (final (returning f m w)).
Proof.
  intros Hm Hw. destruct (Hm w Hw) as [Hi Hr]. unfold returning.
  destruct (m w) as [[a|e] w1]; auto.
Qed.

End KeepsOperations.

(** *** Files *)

Lemma same_files_refl (w : world) : same_files w w.
Proof. reflexivity. Qed.

Lemma same_files_trans (w1 w2 w3 : world) :
  same_files w1 w2 -> same_files w2 w3 -> same_files w1 w3.
Proof. unfold same_files. congruence. Qed.

Lemma files_exchange rq : keeps any_world same_files (exchange rq).
Proof. intros w _. split; [exact Logic.I | reflexivity]. Qed.

Lemma files_emit e : keeps any_world same_files (emit e).
Proof. intros w _. split; [exact Logic.I | reflexivity]. Qed.

Lemma files_new_frame fc : keeps any_world same_files (new_frame fc).
Proof. intros w _. split; [exact Logic.I | reflexivity]. Qed.

Lemma files_set_index_name df name : keeps any_world same_files (set_index_name df name).
Proof.
  intros w _. split; [exact Logic.I |]. unfold same_files, set_index_name.
  now destruct (heap w !! df_index df).
Qed.

Lemma files_executeQuery cfg lib sql context format :
  keeps any_world same_files (executeQuery cfg lib sql context format).
Proof.
  apply keeps_executeQuery;
    eauto using same_files_refl, same_files_trans, files_exchange, files_new_frame.
Qed.

Lemma files_run cfg lib fuel op w :
  writes_file op = false -> files (final (run cfg lib fuel op w)) = files w.
Proof.
  intros Hop. change (same_files w (final (run cfg lib fuel op w))).
  assert (Hw : any_world w) by exact Logic.I.
  destruct op as [ | ? | ? ? ? | ? ? | ? | jobid verbose | ? ? ? | ? ? ? | ? ? | ? ? ? | ? ? ? ];
    try discriminate; simpl;
    try (apply (keeps_returning any_world same_files); [| exact Hw]).
  all: try solve
    [ first [ apply keeps_getSchemaName | apply keeps_getTables | apply keeps_executeQuery
            | apply keeps_submitJob | apply keeps_getJobStatus
            | apply keeps_getPandasDataFrameFromQuery | apply keeps_getNumpyArrayFromQuery
            | apply keeps_uploadPandasDataFrameToTable | apply keeps_uploadCSVDataToTable ];
      eauto using same_files_refl, same_files_trans, files_exchange, files_emit,
                 files_new_frame, files_set_index_name ].
  assert (H : same_files w (final (waitForJob cfg lib fuel jobid verbose w))).
  { apply (keeps_waitForJob any_world same_files);
      eauto using same_files_refl, same_files_trans, files_exchange, files_emit. }
  destruct (waitForJob cfg lib fuel jobid verbose w) as [[v|e] w1|w1]; exact H.
Qed.

(** X11. No operation other than [getFitsFileFromQuery] touches the file
    system: after any number of turns the files are as they were. *)
Theorem only_getFitsFileFromQuery_writes
  (cfg : Collaborators) (lib : Library) (fuel : nat) (op : operation) (w : world) :
  writes_file op = false ->
  files (final (run cfg lib fuel op w)) = files w.
Proof.
  apply files_run.
Qed.

Lemma only_getFitsFileFromQuery_writes_witness :
  files (final (run Mock.cfg Mock.lib 5 (WaitForJob (VInt 7) true)
                    (Mock.start (Some (lit "t")) Mock.job_service)))
  = files (Mock.start (Some (lit "t")) Mock.job_service).
Proof.
  apply (only_getFitsFileFromQuery_writes Mock.cfg Mock.lib 5 (WaitForJob (VInt 7) true)
           (Mock.start (Some (lit "t")) Mock.job_service)).
  reflexivity.
Defined.

Lemma getFitsFileFromQuery_run
  (cfg : Collaborators) (lib : Library) (fileName queryString context : pystr)
  (w : world) :
  getFitsFileFromQuery cfg lib fileName queryString context w
  = match executeQuery cfg lib queryString context (lit "fits") w with
    | (Raise e, w1) => (Raise e, w1)
    | (Ok _, w1) =>
      if openable w1 fileName
      then (Raise (PyErr "TypeError"),
            mkWorld (token w1) (server w1) (ncalls w1) (trace w1) (openable w1)
                    (<[fileName := []]> (files w1)) (heap w1))
      else (Raise (PyErr "OSError"), w1)
    end.
Proof.
  unfold getFitsFileFromQuery. rewrite try_reraise_id. unfold bind at 1.
  destruct (executeQuery cfg lib queryString context (lit "fits") w) as [[o|e] w1] eqn:Hrun;
    [| reflexivity].
  apply executeQuery_fits_StringIO in Hrun as [buffer ->].
  unfold bind at 1, open_wb. now destruct (openable w1 fileName).
Qed.

(** X12. What [getFitsFileFromQuery] does to the files.  When the query
    raises, the exception is handed on and no file is touched.  When the
    query returns, the file is opened first: if that fails, [OSError] is
    raised and no file is touched; otherwise the file is created, or
    emptied when it existed, no other file is touched, and the write raises
    [TypeError] - what the file held before is lost. *)
Theorem getFitsFileFromQuery_files
  (cfg : Collaborators) (lib : Library) (fileName queryString context : pystr)
  (w : world) :
  (forall e,
     (executeQuery cfg lib queryString context (lit "fits") w).1 = Raise e ->
     (getFitsFileFromQuery cfg lib fileName queryString context w).1 = Raise e
     /\ files (getFitsFileFromQuery cfg lib fileName queryString context w).2 = files w)
  /\ (forall o,
        (executeQuery cfg lib queryString context (lit "fits") w).1 = Ok o ->
        if openable w fileName
        then (getFitsFileFromQuery cfg lib fileName queryString context w).1
             = Raise (PyErr "TypeError")
             /\ files (getFitsFileFromQuery cfg lib fileName queryString context w).2
                = <[fileName := []]> (files w)
        else (getFitsFileFromQuery cfg lib fileName queryString context w).1
             = Raise (PyErr "OSError")
             /\ files (getFitsFileFromQuery cfg lib fileName queryString context w).2
                = files w).
Proof.
  assert (Hq : files (executeQuery cfg lib queryString context (lit "fits") w).2 = files w
               /\ openable (executeQuery cfg lib queryString context (lit "fits") w).2
                  = openable w).
  { split; [apply (files_executeQuery cfg lib queryString context (lit "fits") w Logic.I) |].
    unfold executeQuery. eval_formats. rewrite bind_ret, bind_encode.
    destruct (utf8_encode _); [| reflexivity].
    rewrite bind_getToken. unfold requests_post. rewrite bind_exchange. cbv zeta.
    destruct (server w (ncalls w) _) as [r|]; [| reflexivity].
    destruct (negb (status_code r =? 200)).
    - rewrite raise_http_error. now destruct (utf8_decode (content r)).
    - rewrite bind_decode. now destruct (utf8_decode (content r)). }
  destruct Hq as [Hfiles Hopen].
  rewrite getFitsFileFromQuery_run.
  destruct (executeQuery cfg lib queryString context (lit "fits") w) as [[o|e] w1];
    simpl in Hfiles, Hopen.
  - split; [discriminate |]. intros o' _. rewrite Hopen.
    destruct (openable w fileName); simpl; rewrite Hfiles; auto.
  - split; [| discriminate]. intros e' [= <-]. auto.
Qed.

Lemma getFitsFileFromQuery_files_witness :
  files (getFitsFileFromQuery Mock.cfg Mock.lib (lit "out.fits") (lit "select 1")
                              (lit "MyDB") Cases.with_old_file).2 !! lit "out.fits"
  = Some [].
Proof.
  destruct (getFitsFileFromQuery_files Mock.cfg Mock.lib (lit "out.fits")
              (lit "select 1") (lit "MyDB") Cases.with_old_file) as [_ H].
  specialize (H (OStringIO (lit "SIMPLE")) eq_refl).
  change (openable Cases.with_old_file (lit "out.fits")) with true in H.
  destruct H as [_ ->]. apply lookup_insert_eq.
Defined.

(** *** Index objects *)

Lemma grows_heap_refl (w : world) : grows_heap w w.
Proof. intros a ix H. exact H. Qed.

Lemma grows_heap_trans (w1 w2 w3 : world) :
  grows_heap w1 w2 -> grows_heap w2 w3 -> grows_heap w1 w3.
Proof. intros H12 H23 a ix H. apply H23, H12, H. Qed.

Lemma heap_exchange rq : keeps any_world grows_heap (exchange rq).
Proof. intros w _. split; [exact Logic.I | intros a ix H; exact H]. Qed.

Lemma heap_emit e : keeps any_world grows_heap (emit e).
Proof. intros w _. split; [exact Logic.I | intros a ix H; exact H]. Qed.

Lemma heap_open_wb name : keeps any_world grows_heap (open_wb name).
Proof.
  intros w _. split; [exact Logic.I |]. unfold open_wb.
  destruct (openable w name); intros a ix H; exact H.
Qed.

Lemma heap_file_write f d : keeps any_world grows_heap (file_write f d).
Proof.
  intros w _. split; [exact Logic.I |]. destruct d; intros a ix H; exact H.
Qed.

(** A new frame gets an address that holds no object yet. *)
Lemma heap_new_frame fc : keeps any_world grows_heap (new_frame fc).
Proof.
  intros w _. split; [exact Logic.I |]. intros a ix H. simpl.
  rewrite lookup_insert_ne; [exact H |].
  intros <-. pose proof (is_fresh (dom (heap w))) as Hf.
  apply not_elem_of_dom in Hf. congruence.
Qed.

Lemma heap_run cfg lib fuel op w :
  renames_index op = false -> grows_heap w (final (run cfg lib fuel op w)).
Proof.
  intros Hop.
  assert (Hw : any_world w) by exact Logic.I.
  destruct op as [ | ? | ? ? ? | ? ? | ? | jobid verbose | ? ? ? | ? ? ? | ? ? | ? ? ? | ? ? ? ];
    try discriminate; simpl;
    try (apply (keeps_returning any_world grows_heap); [| exact Hw]).
  all: try solve
    [ first [ apply keeps_getSchemaName | apply keeps_getTables | apply keeps_executeQuery
            | apply keeps_submitJob | apply keeps_getJobStatus
            | apply keeps_getFitsFileFromQuery
            | apply keeps_getPandasDataFrameFromQuery | apply keeps_getNumpyArrayFromQuery
            | apply keeps_uploadCSVDataToTable ];
      eauto using grows_heap_refl, grows_heap_trans, heap_exchange, heap_emit,
                  heap_new_frame, heap_open_wb, heap_file_write ].
  assert (H : grows_heap w (final (waitForJob cfg lib fuel jobid verbose w))).
  { apply (keeps_waitForJob any_world grows_heap);
      eauto using grows_heap_refl, grows_heap_trans, heap_exchange, heap_emit. }
  destruct (waitForJob cfg lib fuel jobid verbose w) as [[v|e] w1|w1]; exact H.
Qed.

(** X13. No operation other than [uploadPandasDataFrameToTable] changes an
    index object that exists: after any number of turns every index object
    of the world is where it was, with its name and labels.  The queries
    that build frames only add objects. *)
Theorem existing_indexes_untouched
  (cfg : Collaborators) (lib : Library) (fuel : nat) (op : operation) (w : world)
  (a : nat) (ix : Index) :
  renames_index op = false ->
  heap w !! a = Some ix ->
  heap (final (run cfg lib fuel op w)) !! a = Some ix.
Proof.
  intros Hop. apply heap_run, Hop.
Qed.

Lemma existing_indexes_untouched_witness :
  heap (final (run Mock.cfg Mock.lib 0
                   (ExecuteQuery (lit "select a, b from t") (lit "MyDB") (lit "pandas"))
                   Cases.with_frame)) !! 0%nat
  = Some (mkIndex (VStr (lit "id")) [VInt 0; VInt 1]).
Proof.
  apply (existing_indexes_untouched Mock.cfg Mock.lib 0
           (ExecuteQuery (lit "select a, b from t") (lit "MyDB") (lit "pandas"))
           Cases.with_frame 0%nat (mkIndex (VStr (lit "id")) [VInt 0; VInt 1]));
    reflexivity.
Defined.

Section Composition.

Variable cfg : Collaborators.
Variable lib : Library.

Lemma heap_executeQuery_readable sql context w :
  heap (executeQuery cfg lib sql context (lit "readable") w).2 = heap w.
Proof.
  unfold executeQuery. eval_formats. rewrite bind_ret, bind_encode.
  destruct (utf8_encode _); [| reflexivity].
  rewrite bind_getToken. unfold requests_post. rewrite bind_exchange. cbv zeta.
  destruct (server w (ncalls w) _) as [r|]; [| reflexivity].
  destruct (negb (status_code r =? 200)).
  - rewrite raise_http_error. now destruct (utf8_decode (content r)).
  - rewrite bind_decode. now destruct (utf8_decode (content r)).
Qed.

(** The frame that [getPandasDataFrameFromQuery] returns has an index
    object of its own, at an address that held nothing. *)
Lemma getPandasDataFrameFromQuery_fresh queryString context index_col w df w1 :
  getPandasDataFrameFromQuery cfg lib queryString context index_col w = (Ok df, w1) ->
  heap w !! df_index df = None
  /\ exists ix, heap w1 = <[df_index df := ix]> (heap w).
Proof.
  unfold getPandasDataFrameFromQuery. rewrite try_reraise_id. unfold bind at 1.
  pose proof (heap_executeQuery_readable queryString context w) as Hh.
  destruct (executeQuery cfg lib queryString context (lit "readable") w) as [[o|e] w0];
    [| discriminate].
  simpl in Hh. destruct o as [v|buffer|f|arr]; try discriminate.
  destruct (pandas_read_csv lib buffer index_col) as [fc|e]; [| discriminate].
  rewrite bind_lift_ok. unfold new_frame. rewrite Hh. intros [= <- <-]. simpl. split.
  - apply not_elem_of_dom, is_fresh.
  - eauto.
Qed.

End Composition.

(** X14. A frame that comes from [getPandasDataFrameFromQuery] shares its
    index with no frame that existed: its index object is at an address
    that held nothing before the query.  So uploading that frame with
    [uploadPandasDataFrameToTable], which may name its index, leaves every
    index object that existed before the query as it was. *)
Theorem query_then_upload_keeps_other_frames
  (cfg : Collaborators) (lib : Library) (queryString context : pystr)
  (index_col : pyval) (tableName context' : pystr) (w w1 : world) (df : DataFrame)
  (a : nat) (ix : Index) :
  getPandasDataFrameFromQuery cfg lib queryString context index_col w = (Ok df, w1) ->
  heap w !! a = Some ix ->
  a <> df_index df
  /\ heap (uploadPandasDataFrameToTable cfg lib df tableName context' w1).2 !! a = Some ix.
Proof.
  intros Hq Ha.
  destruct (getPandasDataFrameFromQuery_fresh cfg lib _ _ _ _ _ _ Hq) as [Hnew [ix1 Hh]].
  assert (Hne : a <> df_index df) by congruence.
  split; [exact Hne |].
  assert (H1 : heap w1 !! df_index df = Some ix1) by (rewrite Hh; apply lookup_insert_eq).
  rewrite (uploadPandasDataFrameToTable_run cfg lib df tableName context' w1 ix1 H1).
  cbv zeta.
  destruct (utf8_encode _); [rewrite keeps_heap_uploadCSVDataToTable |];
    destruct (unnamed (idx_name ix1)); cbn [with_heap heap snd];
    rewrite ?lookup_insert_ne by congruence;
    rewrite Hh; rewrite lookup_insert_ne by congruence; exact Ha.
Qed.

Lemma query_then_upload_keeps_other_frames_witness :
  heap (uploadPandasDataFrameToTable Mock.cfg Cases.lib
          (mkDataFrame 1 [VStr (lit "a"); VStr (lit "b")] []) (lit "T") (lit "MyDB")
          (getPandasDataFrameFromQuery Mock.cfg Cases.lib (lit "select a, b from t")
                                       (lit "MyDB") VNone Cases.with_frame_csv).2).2
    !! 0%nat
  = Some (mkIndex (VStr (lit "id")) [VInt 0; VInt 1]).
Proof.
  destruct (query_then_upload_keeps_other_frames Mock.cfg Cases.lib
              (lit "select a, b from t") (lit "MyDB") VNone (lit "T") (lit "MyDB")
              Cases.with_frame_csv
              (getPandasDataFrameFromQuery Mock.cfg Cases.lib (lit "select a, b from t")
                                           (lit "MyDB") VNone Cases.with_frame_csv).2
              (mkDataFrame 1 [VStr (lit "a"); VStr (lit "b")] [])
              0%nat (mkIndex (VStr (lit "id")) [VInt 0; VInt 1])) as [_ H].
  - vm_compute. reflexivity.
  - reflexivity.
  - exact H.
Defined.

(* ------------------------------------------------------------------ *)
(** ** Further properties: what is sent, slept and printed *)
(* ------------------------------------------------------------------ *)

Lemma adds_refl (P : event -> Prop) (w : world) : adds P w w.
Proof. exists []. now rewrite app_nil_r. Qed.

Lemma adds_trans (P : event -> Prop) (w1 w2 w3 : world) :
  adds P w1 w2 -> adds P w2 w3 -> adds P w1 w3.
Proof.
  intros (evs1 & H1 & F1) (evs2 & H2 & F2). exists (evs1 ++ evs2). split.
  - rewrite H2, H1. now rewrite app_assoc.
  - now apply Forall_app.
Qed.

Lemma adds_silently (P : event -> Prop) (w w' : world) : trace w' = trace w -> adds P w w'.
Proof. intros H. exists []. now rewrite app_nil_r. Qed.

Section Expected.

Variable cfg : Collaborators.
Variable lib : Library.

Lemma expected_getToken tok verbose {B} (k : option pystr -> M B) :
  keeps (has_token tok) (adds (expected cfg tok verbose)) (k tok) -> keeps (has_token tok) (adds (expected cfg tok verbose)) (bind getToken k).
Proof.
  intros Hk w Hw. rewrite bind_getToken. unfold has_token in Hw. rewrite Hw.
  now apply Hk.
Qed.

Lemma expected_exchange tok verbose (rq : request) :
  (exists rest, req_url rq = CasJobsRESTUri cfg ++ rest) ->
  req_headers rq !! lit "X-Auth-Token" = token_header tok ->
  keeps (has_token tok) (adds (expected cfg tok verbose)) (exchange rq).
Proof.
  intros Hurl Hh w Hw. split; [exact Hw |].
  exists [EHttp rq (server w (ncalls w) rq)]. split; [reflexivity |].
  constructor; [| constructor]. split; assumption.
Qed.

Lemma expected_sleep tok verbose : keeps (has_token tok) (adds (expected cfg tok verbose)) (time_sleep 2).
Proof.
  intros w Hw. split; [exact Hw |]. exists [ESleep 2]. split; [reflexivity |].
  constructor; [reflexivity | constructor].
Qed.

Lemma expected_print tok verbose (line : pystr) : verbose = true -> keeps (has_token tok) (adds (expected cfg tok verbose)) (print line).
Proof.
  intros Hv w Hw. split; [exact Hw |]. exists [EPrint line]. split; [reflexivity |].
  constructor; [exact Hv | constructor].
Qed.

Lemma expected_quiet tok verbose (m : M unit) :
  (verbose = true -> keeps (has_token tok) (adds (expected cfg tok verbose)) m) -> keeps (has_token tok) (adds (expected cfg tok verbose)) (when verbose m).
Proof.
  intros Hm. destruct verbose; [now apply Hm |].
  apply keeps_ret. apply adds_refl.
Qed.

Lemma expected_new_frame tok verbose fc : keeps (has_token tok) (adds (expected cfg tok verbose)) (new_frame fc).
Proof. intros w Hw. split; [exact Hw | now apply adds_silently]. Qed.

Lemma expected_open_wb tok verbose name : keeps (has_token tok) (adds (expected cfg tok verbose)) (open_wb name).
Proof.
  intros w Hw. unfold open_wb. destruct (openable w name);
    (split; [exact Hw | now apply adds_silently]).
Qed.

Lemma expected_file_write tok verbose f d : keeps (has_token tok) (adds (expected cfg tok verbose)) (file_write f d).
Proof. intros w Hw. destruct d; (split; [exact Hw | now apply adds_silently]). Qed.

Lemma expected_set_index_name tok verbose df name : keeps (has_token tok) (adds (expected cfg tok verbose)) (set_index_name df name).
Proof.
  intros w Hw. unfold set_index_name. destruct (heap w !! df_index df);
    (split; [exact Hw | now apply adds_silently]).
Qed.

(** The header of a request built for a defined token [t]. *)
Ltac header :=
  first
    [ apply token_header_lookup; reflexivity
    | unfold token_header;
      match goal with H : defined ?t = true |- _ => rewrite H end;
      first [apply lookup_insert_eq | apply lookup_singleton_eq] ].

Ltac expecting :=
  unfold requests_get, requests_post, requests_put, http_error, decode, encode,
         frame_content, file_close;
  repeat first
    [ apply expected_getToken
    | apply keeps_ret; solve [apply adds_refl]
    | apply keeps_raise; solve [apply adds_refl]
    | apply keeps_lift; solve [apply adds_refl]
    | apply keeps_frame_index; solve [apply adds_refl]
    | apply keeps_read; solve [apply adds_refl]
    | apply keeps_try_reraise
    | apply expected_new_frame | apply expected_open_wb | apply expected_file_write
    | apply expected_set_index_name | apply expected_sleep
    | apply expected_print; assumption
    | apply expected_quiet; intros ?
    | apply keeps_when; [solve [apply adds_refl] |]
    | apply expected_exchange; cbn [req_url req_headers];
      [eexists; reflexivity | header]
    | apply keeps_bind; [solve [apply adds_trans] | | intros ?]
    | match goal with
      | |- keeps _ _ (if ?b then _ else _) => destruct b eqn:?
      | |- keeps _ _ (match ?x with _ => _ end) => destruct x eqn:?
      end ].

Lemma expected_getSchemaName tok verbose : keeps (has_token tok) (adds (expected cfg tok verbose)) (getSchemaName cfg lib).
Proof. unfold getSchemaName. expecting. Qed.

Lemma expected_getTables tok verbose context : keeps (has_token tok) (adds (expected cfg tok verbose)) (getTables cfg lib context).
Proof. unfold getTables. expecting. Qed.

Lemma expected_executeQuery tok verbose sql context format :
  keeps (has_token tok) (adds (expected cfg tok verbose)) (executeQuery cfg lib sql context format).
Proof. unfold executeQuery. expecting. Qed.

Lemma expected_submitJob tok verbose sql context : keeps (has_token tok) (adds (expected cfg tok verbose)) (submitJob cfg lib sql context).
Proof. unfold submitJob. expecting. Qed.

Lemma expected_getJobStatus tok verbose jobid : keeps (has_token tok) (adds (expected cfg tok verbose)) (getJobStatus cfg lib jobid).
Proof. unfold getJobStatus. expecting. Qed.

Lemma expected_uploadCSVDataToTable tok verbose CVSdata tableName context :
  keeps (has_token tok) (adds (expected cfg tok verbose)) (uploadCSVDataToTable cfg CVSdata tableName context).
Proof. unfold uploadCSVDataToTable. expecting. Qed.

Lemma expected_waitForJob_turn tok verbose jobid :
  keeps (has_token tok) (adds (expected cfg tok verbose)) (waitForJob_turn cfg lib jobid verbose).
Proof.
  unfold waitForJob_turn.
  apply keeps_bind; [apply adds_trans | expecting | intros _].
  apply keeps_bind; [apply adds_trans | apply expected_getJobStatus | intros jobDesc].
  expecting.
Qed.

Lemma expected_waitForJob tok verbose fuel jobid w :
  has_token tok w -> adds (expected cfg tok verbose) w (final (waitForJob cfg lib fuel jobid verbose w)).
Proof.
  intros Hw. unfold waitForJob.
  assert (Hl : forall w0, has_token tok w0 ->
             has_token tok (final (waitForJob_loop cfg lib fuel jobid verbose w0))
             /\ adds (expected cfg tok verbose) w0 (final (waitForJob_loop cfg lib fuel jobid verbose w0))).
  { intros w0.
    apply (keeps_loop (has_token tok) (adds (expected cfg tok verbose)) (adds_refl _) (adds_trans _)
             (waitForJob_turn cfg lib jobid verbose)
             (expected_waitForJob_turn tok verbose jobid)
             (fun fuel w => waitForJob_loop cfg lib fuel jobid verbose w));
      reflexivity. }
  pose proof (expected_quiet tok verbose (print waitingStr)
                (fun Hv => expected_print tok verbose waitingStr Hv) w Hw) as [Hi Hr].
  destruct (when verbose (print waitingStr) w) as [[u|e] w0]; simpl in Hi, Hr.
  - eapply adds_trans; [exact Hr | apply Hl, Hi].
  - exact Hr.
Qed.

Lemma expected_getFitsFileFromQuery tok verbose fileName queryString context :
  keeps (has_token tok) (adds (expected cfg tok verbose))
        (getFitsFileFromQuery cfg lib fileName queryString context).
Proof.
  unfold getFitsFileFromQuery. apply keeps_try_reraise.
  apply keeps_bind; [apply adds_trans | apply expected_executeQuery | intros o].
  expecting.
Qed.

Lemma expected_getPandasDataFrameFromQuery tok verbose queryString context index_col :
  keeps (has_token tok) (adds (expected cfg tok verbose))
        (getPandasDataFrameFromQuery cfg lib queryString context index_col).
Proof.
  unfold getPandasDataFrameFromQuery. apply keeps_try_reraise.
  apply keeps_bind; [apply adds_trans | apply expected_executeQuery | intros o].
  expecting.
Qed.

Lemma expected_getNumpyArrayFromQuery tok verbose queryString context :
  keeps (has_token tok) (adds (expected cfg tok verbose))
        (getNumpyArrayFromQuery cfg lib queryString context).
Proof.
  unfold getNumpyArrayFromQuery. apply keeps_try_reraise.
  apply keeps_bind;
    [apply adds_trans | apply expected_getPandasDataFrameFromQuery | intros df].
  expecting.
Qed.

Lemma expected_uploadPandasDataFrameToTable tok verbose dataFrame tableName context :
  keeps (has_token tok) (adds (expected cfg tok verbose))
        (uploadPandasDataFrameToTable cfg lib dataFrame tableName context).
Proof.
  unfold uploadPandasDataFrameToTable. apply keeps_try_reraise.
  apply keeps_bind; [apply adds_trans | expecting | intros ix].
  apply keeps_bind; [apply adds_trans | expecting | intros _].
  apply keeps_bind; [apply adds_trans | expecting | intros fc].
  apply keeps_bind; [apply adds_trans | expecting | intros sio].
  apply expected_uploadCSVDataToTable.
Qed.

Lemma expected_run fuel op w :
  adds (expected cfg (token w) (prints op)) w (final (run cfg lib fuel op w)).
Proof.
  assert (Hw : has_token (token w) w) by reflexivity.
  destruct op as [ | ? | ? ? ? | ? ? | ? | jobid verbose | ? ? ? | ? ? ? | ? ? | ? ? ? | ? ? ? ];
    simpl;
    try (apply (keeps_returning (has_token (token w))
                                (adds (expected cfg (token w) false)));
         [| exact Hw]).
  all: try solve
    [ first [ apply expected_getSchemaName | apply expected_getTables
            | apply expected_executeQuery | apply expected_submitJob
            | apply expected_getJobStatus | apply expected_getFitsFileFromQuery
            | apply expected_getPandasDataFrameFromQuery
            | apply expected_getNumpyArrayFromQuery
            | apply expected_uploadPandasDataFrameToTable
            | apply expected_uploadCSVDataToTable ] ].
  pose proof (expected_waitForJob (token w) verbose fuel jobid w Hw) as H.
  destruct (waitForJob cfg lib fuel jobid verbose w) as [[v|e] w1|w1]; exact H.
Qed.

End Expected.

(** X15. Every request of every operation goes to an address that starts
    with [Config.CasJobsRESTUri], and carries the token of the session as
    [X-Auth-Token] when that token is defined; when it is not, no request
    carries the header. *)
Theorem requests_go_to_base_with_token
  (cfg : Collaborators) (lib : Library) (fuel : nat) (op : operation) (w : world)
  (evs : list event) (rq : request) (rs : option response) :
  trace (final (run cfg lib fuel op w)) = trace w ++ evs ->
  In (EHttp rq rs) evs ->
  (exists rest, req_url rq = CasJobsRESTUri cfg ++ rest)
  /\ req_headers rq !! lit "X-Auth-Token" = token_header (token w).
Proof.
  intros Ht Hin.
  destruct (expected_run cfg lib fuel op w) as (evs' & Ht' & Hall).
  rewrite Ht in Ht'. apply app_inv_head in Ht'. subst evs'.
  rewrite List.Forall_forall in Hall. exact (Hall _ Hin).
Qed.

Lemma requests_go_to_base_with_token_witness :
  req_headers (status_request Mock.cfg Mock.lib (lit "t") (VInt 7)) !! lit "X-Auth-Token"
  = Some (lit "t").
Proof.
  destruct (requests_go_to_base_with_token Mock.cfg Mock.lib 10
              (WaitForJob (VInt 7) false)
              (Mock.start (Some (lit "t")) Mock.job_service)
              (polling (status_request Mock.cfg Mock.lib (lit "t") (VInt 7))
                       Mock.job_answer 3)
              (status_request Mock.cfg Mock.lib (lit "t") (VInt 7))
              (Some (Mock.job_answer 3))) as [_ H].
  - vm_compute. reflexivity.
  - apply in_or_app. right. left. reflexivity.
  - exact H.
Defined.

(** X16. Every sleep of every operation lasts two seconds, and a line is
    printed only by [waitForJob] called with [verbose=True]: with
    [verbose=False], and in every other operation, nothing is printed. *)
Theorem sleeps_and_prints
  (cfg : Collaborators) (lib : Library) (fuel : nat) (op : operation) (w : world)
  (evs : list event) :
  trace (final (run cfg lib fuel op w)) = trace w ++ evs ->
  (forall seconds, In (ESleep seconds) evs -> seconds = 2)
  /\ (forall line, In (EPrint line) evs -> prints op = true).
Proof.
  intros Ht.
  destruct (expected_run cfg lib fuel op w) as (evs' & Ht' & Hall).
  rewrite Ht in Ht'. apply app_inv_head in Ht'. subst evs'.
  rewrite List.Forall_forall in Hall.
  split; [intros s Hin | intros l Hin]; exact (Hall _ Hin).
Qed.

Lemma sleeps_and_prints_witness :
  In (EPrint waitingStr)
     (trace (final (run Mock.cfg Mock.lib 10 (WaitForJob (VInt 7) true)
                        (Mock.start (Some (lit "t")) Mock.job_service))))
  /\ prints (WaitForJob (VInt 7) true) = true.
Proof.
  assert (Hin : In (EPrint waitingStr)
                   (trace (final (run Mock.cfg Mock.lib 10 (WaitForJob (VInt 7) true)
                                      (Mock.start (Some (lit "t")) Mock.job_service)))))
    by (vm_compute; left; reflexivity).
  split; [exact Hin |].
  destruct (sleeps_and_prints Mock.cfg Mock.lib 10 (WaitForJob (VInt 7) true)
              (Mock.start (Some (lit "t")) Mock.job_service)
              (trace (final (run Mock.cfg Mock.lib 10 (WaitForJob (VInt 7) true)
                                 (Mock.start (Some (lit "t")) Mock.job_service))))
              eq_refl) as [_ H].
  exact (H waitingStr Hin).
Defined.

(* ------------------------------------------------------------------ *)
(** ** Further properties: one exchange, and where an operation stops *)
(* ------------------------------------------------------------------ *)

Lemma single_silent {A} (m : M A) : silent m -> single m.
Proof. intros Hm w. left. apply Hm. Qed.

Lemma single_exchange {A} (rq : request) (k : response -> M A) :
  (forall r, silent (k r)) -> single (bind (exchange rq) k).
Proof.
  intros Hk w. right. exists rq, (server w (ncalls w) rq).
  now apply exchange_then_silent.
Qed.

Lemma single_after_silent {A B} (m : M A) (k : A -> M B) :
  silent m -> (forall a, single (k a)) -> single (bind m k).
Proof.
  intros Hm Hk w. unfold bind. specialize (Hm w).
  destruct (m w) as [[a|e] w1]; simpl in *.
  - rewrite <- Hm. apply Hk.
  - now left.
Qed.

Lemma single_then_silent {A B} (m : M A) (k : A -> M B) :
  single m -> (forall a, silent (k a)) -> single (bind m k).
Proof.
  intros Hm Hk w. unfold bind. specialize (Hm w).
  destruct (m w) as [[a|e] w1]; simpl in *.
  - rewrite !Hk. exact Hm.
  - exact Hm.
Qed.

Lemma single_try_reraise {A} (m : M A) : single m -> single (try_reraise m).
Proof. intros Hm w. rewrite try_reraise_id. apply Hm. Qed.

Ltac singly :=
  unfold requests_get, requests_post, requests_put;
  repeat first
    [ apply single_try_reraise
    | apply single_exchange; intros ?; solve [silence]
    | apply single_after_silent; [solve [silence] | intros ?]
    | match goal with
      | |- single (if ?b then _ else _) => destruct b
      | |- single (match ?x with _ => _ end) => destruct x
      end
    | solve [apply single_silent; silence] ].

Section Single.

Variable cfg : Collaborators.
Variable lib : Library.

Lemma single_executeQuery sql context format :
  single (executeQuery cfg lib sql context format).
Proof. unfold executeQuery. singly. Qed.

Lemma single_uploadCSVDataToTable CVSdata tableName context :
  single (uploadCSVDataToTable cfg CVSdata tableName context).
Proof. unfold uploadCSVDataToTable. singly. Qed.

Lemma single_getPandasDataFrameFromQuery queryString context index_col :
  single (getPandasDataFrameFromQuery cfg lib queryString context index_col).
Proof.
  unfold getPandasDataFrameFromQuery. apply single_try_reraise.
  apply single_then_silent; [apply single_executeQuery | intros o; silence].
Qed.

Lemma single_run fuel op w :
  polls_job op = false ->
  trace (final (run cfg lib fuel op w)) = trace w
  \/ exists rq rs, trace (final (run cfg lib fuel op w)) = trace w ++ [EHttp rq rs].
Proof.
  intros Hop.
  assert (Hret : forall A (f : A -> pyobj) (m : M A),
             single m ->
             trace (final (returning f m w)) = trace w
             \/ exists rq rs, trace (final (returning f m w)) = trace w ++ [EHttp rq rs]).
  { intros A f m Hm. specialize (Hm w). unfold returning.
    destruct (m w) as [[a|e] w1]; exact Hm. }
  destruct op; try discriminate; simpl; apply Hret.
  - unfold getSchemaName. singly.
  - unfold getTables. singly.
  - apply single_executeQuery.
  - unfold submitJob. singly.
  - unfold getJobStatus. singly.
  - unfold getFitsFileFromQuery. apply single_try_reraise.
    apply single_then_silent; [apply single_executeQuery | intros o; silence].
  - apply single_getPandasDataFrameFromQuery.
  - unfold getNumpyArrayFromQuery. apply single_try_reraise.
    apply single_then_silent;
      [apply single_getPandasDataFrameFromQuery | intros df; silence].
  - unfold uploadPandasDataFrameToTable. apply single_try_reraise.
    apply single_after_silent; [silence | intros ix].
    apply single_after_silent; [silence | intros _].
    apply single_after_silent; [silence | intros fc].
    apply single_after_silent; [silence | intros sio].
    apply single_uploadCSVDataToTable.
  - apply single_uploadCSVDataToTable.
Qed.

End Single.

(** X17. Every operation other than [waitForJob] leaves at most one event,
    and that event is an exchange: it does not send a second request after
    a failure, does not sleep and does not print. *)
Theorem at_most_one_exchange
  (cfg : Collaborators) (lib : Library) (fuel : nat) (op : operation) (w : world) :
  polls_job op = false ->
  trace (final (run cfg lib fuel op w)) = trace w
  \/ exists rq rs, trace (final (run cfg lib fuel op w)) = trace w ++ [EHttp rq rs].
Proof. apply single_run. Qed.

Lemma at_most_one_exchange_witness :
  trace (final (run Mock.cfg Mock.lib 0 (GetNumpyArrayFromQuery (lit "select 1") (lit "MyDB"))
                    (Cases.answering (lit "a,b"))))
  = trace (Cases.answering (lit "a,b"))
  \/ exists rq rs,
       trace (final (run Mock.cfg Mock.lib 0
                         (GetNumpyArrayFromQuery (lit "select 1") (lit "MyDB"))
                         (Cases.answering (lit "a,b"))))
       = trace (Cases.answering (lit "a,b")) ++ [EHttp rq rs].
Proof.
  apply (at_most_one_exchange Mock.cfg Mock.lib 0
           (GetNumpyArrayFromQuery (lit "select 1") (lit "MyDB"))
           (Cases.answering (lit "a,b"))).
  reflexivity.
Defined.

(** *** Where an operation stops *)

Lemma goes_on_app (evs1 evs2 : list event) :
  Forall goes_on evs1 -> Forall goes_on evs2 -> Forall goes_on (evs1 ++ evs2).
Proof. intros H1 H2. now apply Forall_app. Qed.

Lemma halting_silent {A} (m : M A) : silent m -> halting m.
Proof.
  intros Hm w. exists []. rewrite app_nil_r. split; [apply Hm | left; constructor].
Qed.

Lemma halting_print (line : pystr) : halting (print line).
Proof.
  intros w. exists [EPrint line]. split; [reflexivity | left].
  constructor; [exact Logic.I | constructor].
Qed.

Lemma halting_time_sleep (seconds : Z) : halting (time_sleep seconds).
Proof.
  intros w. exists [ESleep seconds]. split; [reflexivity | left].
  constructor; [exact Logic.I | constructor].
Qed.

Lemma halting_bind {A B} (m : M A) (k : A -> M B) :
  halting m -> (forall a, halting (k a)) -> halting (bind m k).
Proof.
  intros Hm Hk w. unfold bind.
  destruct (Hm w) as (evs1 & Ht1 & H1).
  destruct (m w) as [[a|e] w1]; simpl in *.
  - destruct H1 as [H1 | (? & ? & ? & ? & _ & _ & _ & [=] & _)].
    destruct (Hk a w1) as (evs2 & Ht2 & H2).
    exists (evs1 ++ evs2). split.
    + rewrite Ht2, Ht1. now rewrite app_assoc.
    + destruct H2 as [H2 | (evs0 & rq & rs & e & -> & Hc & Hs & Hr & Hconn)].
      * left. now apply goes_on_app.
      * right. exists (evs1 ++ evs0), rq, rs, e.
        split; [now rewrite app_assoc | split; [now apply goes_on_app | auto]].
  - exists evs1. split; [exact Ht1 |].
    destruct H1 as [H1 | (evs0 & rq & rs & e0 & -> & Hc & Hs & [= <-] & Hconn)].
    + now left.
    + right. exists evs0, rq, rs, e. auto.
Qed.

Lemma halting_when (b : bool) (m : M unit) : halting m -> halting (when b m).
Proof. intros Hm. destruct b; [exact Hm | apply halting_silent, silent_ret]. Qed.

Lemma halting_try_reraise {A} (m : M A) : halting m -> halting (try_reraise m).
Proof. intros Hm w. rewrite try_reraise_id. apply Hm. Qed.

(** The pattern of every exchange of the module, once more: no answer
    raises [ConnectionError], an answer other than 200 raises, and only an
    answer 200 lets the rest run. *)
Lemma halting_exchange {A} (rq : request) (what : pystr) (k : response -> M A) :
  (forall r, halting (k r)) ->
  halting (bind (exchange rq)
                (fun r => if negb (status_code r =? 200)
                          then bind (http_error what r) (fun msg => raise (Exception msg))
                          else k r)).
Proof.
  intros Hk w. rewrite bind_exchange. cbv zeta.
  set (w1 := mkWorld _ _ _ _ _ _ _).
  destruct (server w (ncalls w) rq) as [r|] eqn:Hs.
  - destruct (status_code r =? 200) eqn:Hc; cbn [negb].
    + apply Z.eqb_eq in Hc.
      assert (Hgo : Forall goes_on [EHttp rq (Some r)])
        by (constructor; [exists r; auto | constructor]).
      destruct (Hk r w1) as (evs2 & Ht2 & H2).
      exists ([EHttp rq (Some r)] ++ evs2). split.
      * rewrite Ht2. subst w1. cbn [trace]. now rewrite <- app_assoc.
      * destruct H2 as [H2 | (evs0 & rq' & rs' & e & -> & Hcl & Hne & Hr & Hconn)].
        -- left. now apply goes_on_app.
        -- right. exists ([EHttp rq (Some r)] ++ evs0), rq', rs', e.
           split; [now rewrite app_assoc |].
           split; [now apply goes_on_app | auto].
    + apply Z.eqb_neq in Hc.
      exists [EHttp rq (Some r)]. rewrite raise_http_error.
      destruct (utf8_decode (content r)) as [text|];
        (split; [reflexivity | right]);
        exists [], rq, (Some r); eexists;
        (split; [reflexivity |]); (split; [constructor |]);
        (split; [intros (r' & [= <-] & H200); contradiction |]);
        (split; [reflexivity | discriminate]).
  - exists [EHttp rq None]. split; [reflexivity | right].
    exists [], rq, None, (PyErr "ConnectionError").
    split; [reflexivity |]. split; [constructor |].
    split; [intros (r' & [=] & _) |]. split; reflexivity.
Qed.

Ltac halt :=
  repeat first
    [ apply halting_exchange; intros ?
    | apply halting_print | apply halting_time_sleep
    | apply halting_when | apply halting_try_reraise
    | apply halting_bind; [| intros ?]
    | match goal with
      | |- halting (if ?b then _ else _) => destruct b
      | |- halting (match ?x with _ => _ end) => destruct x
      end
    | solve [apply halting_silent; silence] ].

Section Halting.

Variable cfg : Collaborators.
Variable lib : Library.

Lemma halting_getSchemaName : halting (getSchemaName cfg lib).
Proof. unfold getSchemaName, requests_get. halt. Qed.

Lemma halting_getTables context : halting (getTables cfg lib context).
Proof. unfold getTables, requests_get. halt. Qed.

Lemma halting_executeQuery sql context format :
  halting (executeQuery cfg lib sql context format).
Proof. unfold executeQuery, requests_post. halt. Qed.

Lemma halting_submitJob sql context : halting (submitJob cfg lib sql context).
Proof. unfold submitJob, requests_put. halt. Qed.

Lemma halting_getJobStatus jobid : halting (getJobStatus cfg lib jobid).
Proof. unfold getJobStatus, requests_get. halt. Qed.

Lemma halting_uploadCSVDataToTable CVSdata tableName context :
  halting (uploadCSVDataToTable cfg CVSdata tableName context).
Proof. unfold uploadCSVDataToTable, requests_post. halt. Qed.

Lemma halting_waitForJob_turn jobid verbose :
  halting (waitForJob_turn cfg lib jobid verbose).
Proof.
  unfold waitForJob_turn. apply halting_bind; [halt | intros _].
  apply halting_bind; [apply halting_getJobStatus | intros jobDesc]. halt.
Qed.

Lemma halting_getFitsFileFromQuery fileName queryString context :
  halting (getFitsFileFromQuery cfg lib fileName queryString context).
Proof.
  unfold getFitsFileFromQuery. apply halting_try_reraise.
  apply halting_bind; [apply halting_executeQuery | intros fitsResponse]. halt.
Qed.

Lemma halting_getPandasDataFrameFromQuery queryString context index_col :
  halting (getPandasDataFrameFromQuery cfg lib queryString context index_col).
Proof.
  unfold getPandasDataFrameFromQuery. apply halting_try_reraise.
  apply halting_bind; [apply halting_executeQuery | intros cvsResponse]. halt.
Qed.

Lemma halting_getNumpyArrayFromQuery queryString context :
  halting (getNumpyArrayFromQuery cfg lib queryString context).
Proof.
  unfold getNumpyArrayFromQuery. apply halting_try_reraise.
  apply halting_bind; [apply halting_getPandasDataFrameFromQuery | intros dataFrame].
  halt.
Qed.

Lemma halting_uploadPandasDataFrameToTable dataFrame tableName context :
  halting (uploadPandasDataFrameToTable cfg lib dataFrame tableName context).
Proof.
  unfold uploadPandasDataFrameToTable. apply halting_try_reraise.
  apply halting_bind; [halt | intros ix].
  apply halting_bind; [halt | intros _].
  apply halting_bind; [halt | intros fc].
  apply halting_bind; [halt | intros sio].
  apply halting_uploadCSVDataToTable.
Qed.

Lemma halting_outcome_after {A} (w w1 : world) (evs1 : list event) (o : outcome A) :
  trace w1 = trace w ++ evs1 -> Forall goes_on evs1 ->
  halting_outcome w1 o -> halting_outcome w o.
Proof.
  intros Ht1 Hc1 (evs2 & Ht2 & H2). exists (evs1 ++ evs2). split.
  - rewrite Ht2, Ht1. now rewrite app_assoc.
  - destruct H2 as [H2 | (evs0 & rq & rs & e & -> & Hc & Hs & Hr & Hconn)].
    + left. now apply goes_on_app.
    + right. exists (evs1 ++ evs0), rq, rs, e.
      split; [now rewrite app_assoc | split; [now apply goes_on_app | auto]].
Qed.

Lemma halting_outcome_Done {A} (m : M A) (w : world) :
  halting m -> halting_outcome w (Done (m w).1 (m w).2).
Proof.
  intros Hm. destruct (Hm w) as (evs & Ht & H). exists evs. split; [exact Ht|].
  destruct H as [H | (evs0 & rq & rs & e & -> & Hc & Hs & Hr & Hconn)].
  - now left.
  - right. exists evs0, rq, rs, e. simpl. rewrite Hr. auto.
Qed.

Lemma halting_waitForJob_loop fuel jobid verbose w :
  halting_outcome w (waitForJob_loop cfg lib fuel jobid verbose w).
Proof.
  revert w. induction fuel as [|fuel IH]; intros w; simpl.
  - exists []. rewrite app_nil_r. split; [reflexivity | left; constructor].
  - pose proof (halting_outcome_Done _ w (halting_waitForJob_turn jobid verbose)) as H.
    destruct (waitForJob_turn cfg lib jobid verbose w) as [[[[|] jobDesc]|e] w1]; simpl in H.
    + destruct H as (evs & Ht & [H | (? & ? & ? & ? & _ & _ & _ & [=] & _)]).
      exists evs. split; [exact Ht | now left].
    + destruct H as (evs & Ht & [H | (? & ? & ? & ? & _ & _ & _ & [=] & _)]).
      apply (halting_outcome_after w w1 evs); auto.
    + destruct H as (evs & Ht & H). exists evs. split; [exact Ht|].
      destruct H as [H | (evs0 & rq & rs & e0 & -> & Hc & Hs & [= <-] & Hconn)].
      * now left.
      * right. exists evs0, rq, rs, e. auto.
Qed.

Lemma halting_waitForJob fuel jobid verbose w :
  halting_outcome w (waitForJob cfg lib fuel jobid verbose w).
Proof.
  unfold waitForJob. destruct verbose; simpl.
  - unfold print, emit. eapply halting_outcome_after; [| | apply halting_waitForJob_loop].
    + reflexivity.
    + constructor; [exact Logic.I | constructor].
  - apply halting_waitForJob_loop.
Qed.

Lemma halting_returning {A} (f : A -> pyobj) (m : M A) (w : world) :
  halting m -> halting_outcome w (returning f m w).
Proof.
  intros Hm. pose proof (halting_outcome_Done m w Hm) as (evs & Ht & H).
  unfold returning. destruct (m w) as [[a|e] w1]; simpl in *.
  - exists evs. split; [exact Ht|].
    destruct H as [H | (? & ? & ? & ? & _ & _ & _ & [=] & _)]. now left.
  - exists evs. split; [exact Ht|].
    destruct H as [H | (evs0 & rq & rs & e0 & -> & Hc & Hs & [= <-] & Hconn)].
    + now left.
    + right. exists evs0, rq, rs, e. auto.
Qed.

Lemma halting_run fuel op w : halting_outcome w (run cfg lib fuel op w).
Proof.
  destruct op; simpl;
    try (apply halting_returning;
         first [ apply halting_getSchemaName | apply halting_getTables
               | apply halting_executeQuery | apply halting_submitJob
               | apply halting_getJobStatus | apply halting_getFitsFileFromQuery
               | apply halting_getPandasDataFrameFromQuery
               | apply halting_getNumpyArrayFromQuery
               | apply halting_uploadPandasDataFrameToTable
               | apply halting_uploadCSVDataToTable ]).
  pose proof (halting_waitForJob fuel jobid verbose w) as (evs & Ht & H).
  destruct (waitForJob cfg lib fuel jobid verbose w) as [[v|e] w1|w1]; simpl in *;
    exists evs; (split; [exact Ht|]).
  - destruct H as [H | (? & ? & ? & ? & _ & _ & _ & [=] & _)]. now left.
  - destruct H as [H | (evs0 & rq & rs & e0 & -> & Hc & Hs & [= <-] & Hconn)].
    + now left.
    + right. exists evs0, rq, rs, e. auto.
  - destruct H as [H | (? & ? & ? & ? & _ & _ & _ & [=] & _)]. now left.
Qed.

End Halting.

Lemma last_event {A} (l1 l2 : list A) (x y : A) :
  l1 ++ [x] = l2 ++ [y] -> l1 = l2 /\ x = y.
Proof.
  intros H. apply app_inj_tail in H. exact H.
Qed.

(** X18. An operation stops at the first exchange that is not answered, or
    is answered with a status other than 200: among the events it adds,
    every exchange that is followed by another event was answered with
    status 200.  In particular [waitForJob] does not poll again, and does
    not sleep, after such an exchange. *)
Theorem nothing_follows_a_failed_exchange
  (cfg : Collaborators) (lib : Library) (fuel : nat) (op : operation) (w : world)
  (evs1 evs2 : list event) (rq : request) (rs : option response) (e : event) :
  trace (final (run cfg lib fuel op w)) = trace w ++ evs1 ++ EHttp rq rs :: e :: evs2 ->
  exists r, rs = Some r /\ status_code r = 200.
Proof.
  intros Ht.
  destruct (halting_run cfg lib fuel op w) as (evs & Ht' & H).
  rewrite Ht in Ht'. apply app_inv_head in Ht'. subst evs.
  assert (Hgo : Forall goes_on (evs1 ++ [EHttp rq rs])).
  { destruct H as [H | (evs0 & rq' & rs' & e' & Heq & Hc & _)].
    - change (EHttp rq rs :: e :: evs2) with ([EHttp rq rs] ++ e :: evs2) in H.
      rewrite app_assoc in H. apply Forall_app in H. apply H.
    - destruct (exists_last (l := e :: evs2)) as (l' & y & Hl); [discriminate |].
      rewrite Hl in Heq.
      change (EHttp rq rs :: l' ++ [y]) with ([EHttp rq rs] ++ l' ++ [y]) in Heq.
      rewrite !app_assoc in Heq. apply last_event in Heq as [<- _].
      rewrite <- app_assoc in Hc. apply Forall_app in Hc as [H1 H2].
      apply Forall_app in H2 as [H2 _]. now apply Forall_app. }
  apply Forall_app in Hgo as [_ Hgo]. now inversion Hgo.
Qed.

(** X19. A request that gets no answer ends the operation with the
    [ConnectionError] of the transport: it is not sent again, in no
    operation, and [waitForJob] stops polling. *)
Theorem transport_failure_propagates
  (cfg : Collaborators) (lib : Library) (fuel : nat) (op : operation) (w : world)
  (evs : list event) (rq : request) :
  trace (final (run cfg lib fuel op w)) = trace w ++ evs ->
  In (EHttp rq None) evs ->
  result_of (run cfg lib fuel op w) = Some (Raise (PyErr "ConnectionError"))
  /\ exists evs0, evs = evs0 ++ [EHttp rq None].
Proof.
  intros Ht Hin.
  destruct (halting_run cfg lib fuel op w) as (evs' & Ht' & H).
  rewrite Ht in Ht'. apply app_inv_head in Ht'. subst evs'.
  assert (Hbad : ~ goes_on (EHttp rq None)) by (intros (r & [=] & _)).
  destruct H as [H | (evs0 & rq' & rs' & e & -> & Hc & Hs & Hr & Hconn)].
  - rewrite List.Forall_forall in H. now destruct (Hbad (H _ Hin)).
  - apply in_app_or in Hin as [Hin | [Heq | []]].
    + rewrite List.Forall_forall in Hc. now destruct (Hbad (Hc _ Hin)).
    + injection Heq as -> ->. rewrite Hr, (Hconn eq_refl). eauto.
Qed.

Lemma nothing_follows_a_failed_exchange_witness :
  exists r, Some (Mock.job_answer 0) = Some r /\ status_code r = 200.
Proof.
  apply (nothing_follows_a_failed_exchange Mock.cfg Mock.lib 10
           (WaitForJob (VInt 7) false)
           (Mock.start (Some (lit "t")) Mock.job_service)
           []
           (tl (tl (polling (status_request Mock.cfg Mock.lib (lit "t") (VInt 7))
                            Mock.job_answer 3)))
           (status_request Mock.cfg Mock.lib (lit "t") (VInt 7))
           (Some (Mock.job_answer 0)) (ESleep 2)).
  vm_compute. reflexivity.
Defined.

Lemma transport_failure_propagates_witness :
  result_of (run Mock.cfg Mock.lib 0 (GetTables (lit "MyDB")) Cases.unreachable)
  = Some (Raise (PyErr "ConnectionError")).
Proof.
  apply (transport_failure_propagates Mock.cfg Mock.lib 0 (GetTables (lit "MyDB"))
           Cases.unreachable [EHttp Mock.tables_request None] Mock.tables_request).
  - vm_compute. reflexivity.
  - left. reflexivity.
Defined.

(* ------------------------------------------------------------------ *)
(** ** Further properties: what is uploaded can be read back *)
(* ------------------------------------------------------------------ *)

(** Names the quotients and remainders by 64, 4096 and 262144. *)
Ltac divmod c :=
  repeat match goal with
  | H : context [(?a / ?b)%N] |- _ =>
    pose proof (N.div_mod a b ltac:(discriminate));
    pose proof (N.mod_lt a b ltac:(discriminate));
    generalize dependent (a mod b)%N; generalize dependent (a / b)%N; intros
  | H : context [(?a mod ?b)%N] |- _ =>
    pose proof (N.div_mod a b ltac:(discriminate));
    pose proof (N.mod_lt a b ltac:(discriminate));
    generalize dependent (a mod b)%N; generalize dependent (a / b)%N; intros
  end.

(** Turns the tests of the codec into arithmetic. *)
Ltac tests_in E :=
  unfold is_cont, is_surrogate in E;
  rewrite ?andb_true_iff, ?andb_false_iff, ?negb_true_iff, ?negb_false_iff,
          ?andb_true_iff, ?andb_false_iff,
          ?N.ltb_lt, ?N.ltb_ge, ?N.leb_le, ?N.leb_gt in E.

Lemma bytes_of_1 (a : N) (l : pybytes) :
  bytes_of [a] = Some l -> exists x, l = [x] /\ Byte.to_N x = a.
Proof.
  unfold bytes_of. cbn. destruct (Byte.of_N a) as [x|] eqn:Ha; [| discriminate].
  intros [= <-]. exists x. split; [reflexivity | now apply Byte.to_of_N].
Qed.

Lemma bytes_of_2 (a b : N) (l : pybytes) :
  bytes_of [a; b] = Some l ->
  exists x y, l = [x; y] /\ Byte.to_N x = a /\ Byte.to_N y = b.
Proof.
  unfold bytes_of. cbn.
  destruct (Byte.of_N a) as [x|] eqn:Ha; [| discriminate].
  destruct (Byte.of_N b) as [y|] eqn:Hb; [| discriminate].
  intros [= <-]. exists x, y. repeat split; now apply Byte.to_of_N.
Qed.

Lemma bytes_of_3 (a b c : N) (l : pybytes) :
  bytes_of [a; b; c] = Some l ->
  exists x y z, l = [x; y; z] /\ Byte.to_N x = a /\ Byte.to_N y = b /\ Byte.to_N z = c.
Proof.
  unfold bytes_of. cbn.
  destruct (Byte.of_N a) as [x|] eqn:Ha; [| discriminate].
  destruct (Byte.of_N b) as [y|] eqn:Hb; [| discriminate].
  destruct (Byte.of_N c) as [z|] eqn:Hc; [| discriminate].
  intros [= <-]. exists x, y, z. repeat split; now apply Byte.to_of_N.
Qed.

Lemma bytes_of_4 (a b c d : N) (l : pybytes) :
  bytes_of [a; b; c; d] = Some l ->
  exists x y z t, l = [x; y; z; t] /\ Byte.to_N x = a /\ Byte.to_N y = b
                  /\ Byte.to_N z = c /\ Byte.to_N t = d.
Proof.
  unfold bytes_of. cbn.
  destruct (Byte.of_N a) as [x|] eqn:Ha; [| discriminate].
  destruct (Byte.of_N b) as [y|] eqn:Hb; [| discriminate].
  destruct (Byte.of_N c) as [z|] eqn:Hc; [| discriminate].
  destruct (Byte.of_N d) as [t|] eqn:Hd; [| discriminate].
  intros [= <-]. exists x, y, z, t. repeat split; now apply Byte.to_of_N.
Qed.

(** Decides the tests of one step of [utf8_decode], given the values of the
    bytes. *)
Ltac decode_step :=
  repeat match goal with
  | |- context [if ?t then _ else _] =>
    let E := fresh "E" in
    destruct t eqn:E; tests_in E; try (exfalso; lia)
  end.

(** The bytes of one code point are read back as that code point. *)
Lemma utf8_decode_encode_cp (c : N) (bc rest : pybytes) :
  utf8_encode_cp c = Some bc ->
  utf8_decode (bc ++ rest) = cons c <$> utf8_decode rest.
Proof.
  unfold utf8_encode_cp.
  destruct (c <? 0x80)%N eqn:H1; tests_in H1.
  { intros (x & -> & Hx)%bytes_of_1. cbn [app utf8_decode]. rewrite Hx.
    decode_step. reflexivity. }
  destruct (c <? 0x800)%N eqn:H2; tests_in H2.
  { intros H. divmod c. apply bytes_of_2 in H as (x & y & -> & Hx & Hy).
    cbn [app utf8_decode]. rewrite Hx, Hy. decode_step.
    f_equal. f_equal. lia. }
  destruct (c <? 0x10000)%N eqn:H3; tests_in H3.
  { destruct (is_surrogate c) eqn:H4; [discriminate |]. tests_in H4.
    intros H. divmod c. apply bytes_of_3 in H as (x & y & z & -> & Hx & Hy & Hz).
    cbn [app utf8_decode]. rewrite Hx, Hy, Hz. decode_step.
    f_equal. f_equal. lia. }
  destruct (c <? 0x110000)%N eqn:H4; tests_in H4; [| discriminate].
  intros H. divmod c. apply bytes_of_4 in H as (x & y & z & t & -> & Hx & Hy & Hz & Ht).
  cbn [app utf8_decode]. rewrite Hx, Hy, Hz, Ht. decode_step.
  f_equal. f_equal. lia.
Qed.

(** Decoding what was encoded gives the text back. *)
Lemma utf8_decode_encode (s : pystr) (b : pybytes) :
  utf8_encode s = Some b -> utf8_decode b = Some s.
Proof.
  unfold utf8_encode. revert b. induction s as [|c s IH]; intros b.
  - cbn. intros [= <-]. reflexivity.
  - cbn. destruct (utf8_encode_cp c) as [bc|] eqn:Hc; [| discriminate]. cbn.
    destruct (mapM utf8_encode_cp s) as [bs|] eqn:Hs; [| discriminate]. cbn.
    intros [= <-]. rewrite (utf8_decode_encode_cp c bc _ Hc).
    now rewrite (IH (concat bs) eq_refl).
Qed.

(** X20. What [uploadPandasDataFrameToTable] uploads can be read back.
    With a token, the body of its request is the UTF-8 encoding of the text
    that [to_csv] makes of the frame; and when a service answers a query of
    format csv with status 200 and those bytes, [executeQuery] returns that
    very text. *)
Theorem upload_then_query_round_trip
  (cfg : Collaborators) (lib : Library) (dataFrame : DataFrame)
  (tableName context : pystr) (w : world) (t : pystr) (ix : Index) (sio : pybytes)
  (sql context' : pystr) (w2 : world) (rq : request) (rs : response) :
  token w = Some t -> t <> [] ->
  heap w !! df_index dataFrame = Some ix ->
  utf8_encode (to_csv lib (uploaded_frame dataFrame ix)) = Some sio ->
  trace (executeQuery cfg lib sql context' (lit "csv") w2).2
  = trace w2 ++ [EHttp rq (Some rs)] ->
  status_code rs = 200 ->
  content rs = sio ->
  trace (uploadPandasDataFrameToTable cfg lib dataFrame tableName context w).2
  = trace w ++ [EHttp (table_request cfg t context tableName (PBytes sio))
                      (server w (ncalls w)
                              (table_request cfg t context tableName (PBytes sio)))]
  /\ (executeQuery cfg lib sql context' (lit "csv") w2).1
     = Ok (OVal (VStr (to_csv lib (uploaded_frame dataFrame ix)))).
Proof.
  intros Htok Hne Hix Hsio Htrace Hcode Hbody. split.
  - rewrite (uploadPandasDataFrameToTable_run cfg lib dataFrame tableName context w ix Hix).
    cbv zeta. fold (uploaded_frame dataFrame ix). rewrite Hsio.
    assert (Hdef : defined (Some t) = true) by (apply defined_true; eauto).
    unfold uploadCSVDataToTable. rewrite bind_getToken.
    destruct (unnamed (idx_name ix)); cbn [with_heap token]; rewrite Htok, Hdef;
      unfold requests_post; fold (table_request cfg t context tableName (PBytes sio));
      (rewrite exchange_then_silent by (intros r; silence)); reflexivity.
  - rewrite (executeQuery_answered cfg lib sql context' (lit "csv") w2 rq rs
               (to_csv lib (uploaded_frame dataFrame ix)));
      [now eval_formats | unfold formats; simpl; tauto | exact Htrace | exact Hcode |].
    rewrite Hbody. now apply utf8_decode_encode.
Qed.

Lemma upload_then_query_round_trip_witness :
  (executeQuery Mock.cfg Mock.lib (lit "select 1") (lit "MyDB") (lit "csv") Cases.echo).1
  = Ok (OVal (VStr Cases.frame_csv)).
Proof.
  assert (Hne : lit "t" <> []) by discriminate.
  destruct (upload_then_query_round_trip Mock.cfg Mock.lib Mock.frame
              (lit "T") (lit "MyDB") (Mock.frame_world VNone) (lit "t")
              (mkIndex VNone [VInt 0; VInt 1]) Cases.frame_bytes
              (lit "select 1") (lit "MyDB") Cases.echo Cases.select_1_csv
              (mkResponse 200 Cases.frame_bytes) eq_refl Hne eq_refl)
    as [_ H]; [vm_compute; reflexivity .. |].
  exact H.
Defined.

(* ------------------------------------------------------------------ *)
(** ** Further properties: progress lines and arrays *)
(* ------------------------------------------------------------------ *)

Lemma printed_app (evs1 evs2 : list event) :
  printed (evs1 ++ evs2) = printed evs1 ++ printed evs2.
Proof. unfold printed. apply flat_map_app. Qed.

Lemma announced_polling_S (rq : request) (rss : nat -> response) (n : nat) :
  announced_polling rq rss (S n)
  = [EPrint back; EPrint waitingStr; EHttp rq (Some (rss 0%nat)); ESleep 2]
    ++ announced_polling rq (fun k => rss (S k)) n.
Proof.
  unfold announced_polling. cbn [seq flat_map]. rewrite flat_map_seq_shift.
  now rewrite <- !app_assoc.
Qed.

Lemma printed_announced_polling (rq : request) (rss : nat -> response) (n : nat) :
  printed (announced_polling rq rss n)
  = concat (replicate (S n) [back; waitingStr]) ++ [back; lit "Done!"].
Proof.
  revert rss. induction n as [|n IH]; intros rss; [reflexivity |].
  rewrite announced_polling_S, printed_app, IH. reflexivity.
Qed.

Section Progress.

Variable cfg : Collaborators.
Variable lib : Library.

Lemma waitForJob_turn_announced jobid w t rs rec s :
  token w = Some t -> t <> [] ->
  polled cfg lib w t jobid 0 rs rec s ->
  waitForJob_turn cfg lib jobid true w
  = (Ok (terminal s, rec),
     advance w 1 ([EPrint back; EPrint waitingStr;
                   EHttp (status_request cfg lib t jobid) (Some rs)]
                    ++ if terminal s then [EPrint back; EPrint (lit "Done!")]
                       else [ESleep 2])).
Proof.
  intros Htok Hne Hp.
  assert (Hp' : polled cfg lib (advance w 0 [EPrint back; EPrint waitingStr])
                       t jobid 0 rs rec s).
  { unfold polled, advance in *. cbn [server ncalls]. now rewrite Nat.add_0_r. }
  pose proof (getJobStatus_polled cfg lib jobid
                (advance w 0 [EPrint back; EPrint waitingStr]) t rs rec s
                Htok Hne Hp') as Hg.
  destruct Hp as (_ & _ & _ & Hst). unfold status_of in Hst.
  unfold waitForJob_turn, when.
  assert (Hpr : forall B (k : unit -> M B),
             bind (print back ;;; print waitingStr) k w
             = k tt (advance w 0 [EPrint back; EPrint waitingStr])).
  { intros B k. unfold bind, print, emit, advance. cbn.
    now rewrite Nat.add_0_r, <- app_assoc. }
  rewrite Hpr. unfold bind at 1. rewrite Hg.
  destruct (getitem rec (lit "Status")) as [status|e]; [| discriminate].
  rewrite bind_lift_ok, Hst, bind_lift_ok. rewrite advance_advance.
  destruct (terminal s).
  - unfold bind, print, emit, ret, advance. cbn. now rewrite <- !app_assoc.
  - unfold bind, time_sleep, emit, ret, advance. cbn. now rewrite <- !app_assoc.
Qed.

Lemma waitForJob_loop_announced jobid t n :
  forall w rss recs sts fuel,
    token w = Some t -> t <> [] ->
    (forall k, (k <= n)%nat -> polled cfg lib w t jobid k (rss k) (recs k) (sts k)) ->
    terminal (sts n) = true ->
    (forall k, (k < n)%nat -> terminal (sts k) = false) ->
    (n < fuel)%nat ->
    waitForJob_loop cfg lib fuel jobid true w
    = Done (Ok (recs n))
           (advance w (S n) (announced_polling (status_request cfg lib t jobid) rss n)).
Proof.
  induction n as [|n IH]; intros w rss recs sts fuel Htok Hne Hp Hterm Hnot Hfuel;
    (destruct fuel as [|fuel]; [lia |]); cbn [waitForJob_loop];
    rewrite (waitForJob_turn_announced jobid w t (rss 0%nat) (recs 0%nat) (sts 0%nat))
      by (auto; apply Hp; lia).
  - rewrite Hterm. reflexivity.
  - rewrite (Hnot 0%nat) by lia.
    rewrite (IH _ (fun k => rss (S k)) (fun k => recs (S k)) (fun k => sts (S k)));
      try assumption; try lia.
    + rewrite advance_advance, announced_polling_S. now rewrite <- !app_assoc.
    + intros k Hk. apply polled_advance. apply Hp. lia.
    + intros k Hk. apply Hnot. lia.
Qed.

End Progress.

(** X21. The progress lines of [waitForJob] with [verbose=True].  On polls
    of which the [n]-th is the first with a terminal status, and given more
    than [n] turns, it prints [Waiting...] once, then before each of the
    [n + 1] polls a line of ten backspaces and a line [Waiting...], and
    after the final poll a line of ten backspaces and [Done!]: [2 n + 5]
    lines in all. *)
Theorem waitForJob_progress_lines
  (cfg : Collaborators) (lib : Library) (jobid : pyval) (w : world)
  (t : pystr) (rss : nat -> response) (recs : nat -> pyval) (sts : nat -> Z)
  (n fuel : nat) :
  token w = Some t -> t <> [] ->
  (forall k, (k <= n)%nat -> polled cfg lib w t jobid k (rss k) (recs k) (sts k)) ->
  terminal (sts n) = true ->
  (forall k, (k < n)%nat -> terminal (sts k) = false) ->
  (n < fuel)%nat ->
  printed (trace (final (waitForJob cfg lib fuel jobid true w)))
  = printed (trace w) ++ [waitingStr]
    ++ concat (replicate (S n) [back; waitingStr]) ++ [back; lit "Done!"].
Proof.
  intros Htok Hne Hp Hterm Hnot Hfuel.
  unfold waitForJob. cbn [when]. unfold print at 1, emit.
  rewrite (waitForJob_loop_announced cfg lib jobid t n _ rss recs sts fuel);
    try assumption.
  cbn [final advance trace]. rewrite !printed_app, printed_announced_polling.
  now rewrite <- app_assoc.
Qed.

Lemma waitForJob_progress_lines_witness :
  length (printed (trace (final (waitForJob Mock.cfg Mock.lib 4 (VInt 7) true
                                            (Mock.start (Some (lit "t"))
                                                        Mock.job_service)))))
  = 11%nat.
Proof.
  assert (Hne : lit "t" <> []) by discriminate.
  assert (Hp : forall k, (k <= 3)%nat ->
             polled Mock.cfg Mock.lib (Mock.start (Some (lit "t")) Mock.job_service)
                    (lit "t") (VInt 7) k
                    (Mock.job_answer k) (Mock.job_record k) (Mock.job_status k)).
  { intros k Hk.
    destruct k as [|[|[|[|k]]]]; [| | | | lia];
      (split; [reflexivity | split; [reflexivity | split; [| reflexivity]]]);
      eexists; (split; [vm_compute; reflexivity | vm_compute; reflexivity]). }
  assert (Hnot : forall k, (k < 3)%nat -> terminal (Mock.job_status k) = false).
  { intros k Hk. destruct k as [|[|[|k]]]; [reflexivity .. | lia]. }
  rewrite (waitForJob_progress_lines Mock.cfg Mock.lib (VInt 7)
             (Mock.start (Some (lit "t")) Mock.job_service) (lit "t")
             Mock.job_answer Mock.job_record Mock.job_status 3 4
             eq_refl Hne Hp eq_refl Hnot (le_n 4)).
  reflexivity.
Defined.
